(** * pecos.monitoring: the quality-control engine

    A shallow embedding of [src/pecos/monitoring.py].  A pandas DataFrame is
    an index of timestamps together with labelled columns; the
    [PerformanceMonitoring] object and the objects of its caller are threaded
    through a state-and-exception monad; numpy's boolean matrices are lists of
    rows.

    Conventions of the model:
    - a cell is a float64: NaN, an infinity or a rational (one that float64
      holds); comparisons of finite values are exact, and a difference is
      rounded to the nearest float64 ([round64]);
    - a timestamp is a whole number of nanoseconds; in [check_delta] the
      time of a minimum or maximum passes through a float64 ([.value] in
      the result of [rolling().apply], then [astype('datetime64[ns]')]) and
      comes back rounded;
    - [window] and [frequency] are positive whole numbers of milliseconds; a
      rolling window or a grid step of 2^63 nanoseconds or more is an
      OverflowError;
    - a [bound] is a list object of the caller, reached through a reference;
      comparing a frame with a number is cell by cell, with a string it
      raises TypeError, and what pandas does with a list or a dict is a
      parameter;
    - translation keys are strings;
    - what pandas computes numerically (means, standard deviations,
      resampling) or leaves to numpy (the order of equal keys in a sort, label
      slices on an unsorted index) is a parameter, the class [Extern]. *)

From Stdlib Require Import ZArith QArith Qabs Qround String List Lia Sorted.
From stdpp Require Import base list gmap strings sorting pretty.

Open Scope Z_scope.

(** ** Python values, exceptions *)

Inductive exn :=
| IndexError | KeyError | TypeError | ValueError | IndexingError
| OverflowError.

Inductive res (A : Type) :=
| Ok (a : A)
| Raise (e : exn).
Arguments Ok {A} a.
Arguments Raise {A} e.

(** A float cell: NaN, the two infinities, or a finite value. *)
Inductive float := NaN | NegInf | Fin (q : Q) | PosInf.

(** Column labels: strings for data columns, integers for the anonymous
    columns pandas creates ([mask.columns = [0]]). *)
Inductive label := LStr (s : string) | LInt (n : Z).

Global Instance label_eq_dec : EqDecision label.
Proof. solve_decision. Defined.

(** Values a caller may put in a [bound] list. *)
Inductive pyval :=
| PNone
| PStr (s : string)
| PNum (x : float)
| PList (l : list pyval)
| PDict (l : list (pyval * pyval)).

(** ** Float comparisons and arithmetic (IEEE behaviour on NaN and infinities;
    finite values are rationals, the result of an operation is rounded to
    float64) *)

(** [2^e] *)
Definition pow2 (e : Z) : Q :=
  if 0 <=? e then inject_Z (2 ^ e) else 1 # Z.to_pos (2 ^ (- e)).

(** The nearest whole number, the even one of two that are equally near. *)
Definition round_half_even (q : Q) : Z :=
  let n := Qfloor q in
  match (q - inject_Z n ?= 1 # 2)%Q with
  | Lt => n
  | Gt => n + 1
  | Eq => if Z.even n then n else n + 1
  end.

(** The exponent of a positive rational: the largest [e] with [2^e <= a]. *)
Definition ilog2 (a : Q) : Z :=
  let e := Z.log2 (Qnum a) - Z.log2 (Z.pos (Qden a)) in
  if Qle_bool (pow2 e) a then e else e - 1.

(** The float64 nearest to a rational (IEEE 754 binary64, round to nearest,
    ties to even): a significand of 53 bits, exponents no smaller than that
    of the subnormal numbers, an infinity from 2^1024 on. *)
Definition round64 (q : Q) : float :=
  match (q ?= 0)%Q with
  | Eq => Fin 0
  | c =>
      let a := Qabs q in
      let e := Z.max (ilog2 a - 52) (-1074) in
      let r := Qred (inject_Z (round_half_even (a / pow2 e)) * pow2 e) in
      if Qle_bool (pow2 1024) r
      then match c with Lt => NegInf | _ => PosInf end
      else Fin (match c with Lt => - r | _ => r end)
  end.

(** A whole number that a float64 holds exactly: it comes back unchanged
    from the conversion to float and back. *)
Definition float_exact (t : Z) : Prop :=
  round64 (inject_Z t) = Fin (inject_Z t).

Definition Qltb (p q : Q) : bool :=
  match (p ?= q)%Q with Lt => true | _ => false end.

(** [x < y] *)
Definition flt (x y : float) : bool :=
  match x, y with
  | NaN, _ | _, NaN => false
  | NegInf, NegInf => false
  | NegInf, _ => true
  | _, NegInf => false
  | PosInf, _ => false
  | Fin _, PosInf => true
  | Fin p, Fin q => Qltb p q
  end.

(** [x > y] *)
Definition fgt (x y : float) : bool := flt y x.

(** [x == y] *)
Definition feq (x y : float) : bool :=
  match x, y with
  | NegInf, NegInf | PosInf, PosInf => true
  | Fin p, Fin q => Qeq_bool p q
  | _, _ => false
  end.

Definition fneg (x : float) : float :=
  match x with
  | NaN => NaN
  | NegInf => PosInf
  | PosInf => NegInf
  | Fin q => Fin (- q)
  end.

(** [x - y] *)
Definition fsub (x y : float) : float :=
  match x, y with
  | NaN, _ | _, NaN => NaN
  | Fin p, Fin q => round64 (p - q)
  | PosInf, PosInf | NegInf, NegInf => NaN
  | PosInf, _ | _, NegInf => PosInf
  | NegInf, _ | _, PosInf => NegInf
  end.

(** [np.abs] *)
Definition fabs (x : float) : float :=
  match x with
  | NaN => NaN
  | NegInf | PosInf => PosInf
  | Fin q => Fin (Qabs q)
  end.

Definition is_nan (x : float) : bool :=
  match x with NaN => true | _ => false end.

(** Python's [==] on the values above. *)
Fixpoint py_eq (a b : pyval) {struct a} : bool :=
  match a, b with
  | PNone, PNone => true
  | PStr s, PStr t => bool_decide (s = t)
  | PNum x, PNum y => feq x y
  | PList l, PList m =>
      (fix go (l m : list pyval) {struct l} : bool :=
         match l, m with
         | [], [] => true
         | x :: l', y :: m' => py_eq x y && go l' m'
         | _, _ => false
         end) l m
  | PDict l, PDict m =>
      bool_decide (length l = length m) &&
      (fix go (l : list (pyval * pyval)) {struct l} : bool :=
         match l with
         | [] => true
         | (k, v) :: l' =>
             existsb (λ kv, py_eq k kv.1 && py_eq v kv.2) m && go l'
         end) l
  | _, _ => false
  end.

(** [none_list = ['','none','None','NONE', None, [], {}]] *)
Definition none_list : list pyval :=
  [PStr ""; PStr "none"; PStr "None"; PStr "NONE"; PNone; PList []; PDict []].

(** [x in l] *)
Definition py_in (x : pyval) (l : list pyval) : bool := existsb (py_eq x) l.

(** [l[i]] for a non-negative position. *)
Definition py_index {A} (l : list A) (i : nat) : res A :=
  match l !! i with
  | Some x => Ok x
  | None => Raise IndexError
  end.

(** ** DataFrames *)

Record DataFrame (A : Type) := mkDF {
  index : list Z;
  columns : list (label * list A)
}.
Arguments mkDF {A} index columns.
Arguments index {A} d.
Arguments columns {A} d.

Definition colnames {A} (d : DataFrame A) : list label := (columns d).*1.

(** Every column holds one cell per index entry. *)
Definition frame_ok {A} (d : DataFrame A) : Prop :=
  Forall (λ c, length c.2 = length (index d)) (columns d).

(** [d.iloc[i, c]] *)
Definition cell {A} (d : DataFrame A) (c i : nat) : option A :=
  columns d !! c ≫= λ col, col.2 !! i.

(** [mask.sum(axis=1).sum(axis=0)] *)
Definition count_true (r : list bool) : nat := length (List.filter id r).
Definition sum_mask (mask : DataFrame bool) : nat :=
  sum_list (map (λ c, count_true c.2) (columns mask)).

(** [d.empty]: no rows or no columns. *)
Definition empty {A} (d : DataFrame A) : bool :=
  bool_decide (index d = []) || bool_decide (columns d = []).

Definition frame_map {A B} (f : A → B) (d : DataFrame A) : DataFrame B :=
  mkDF (index d) (map (λ c, (c.1, map f c.2)) (columns d)).

(** [d[names]] with a list of labels: the columns carrying each label, in
    the order asked for; KeyError when a label names no column. *)
Fixpoint getitem_cols {A} (cols : list (label * list A)) (names : list label)
  : res (list (label * list A)) :=
  match names with
  | [] => Ok []
  | n :: names' =>
      match List.filter (λ c, bool_decide (c.1 = n)) cols with
      | [] => Raise KeyError
      | found =>
          match getitem_cols cols names' with
          | Ok rest => Ok (found ++ rest)
          | Raise e => Raise e
          end
      end
  end.

Definition getitem {A} (d : DataFrame A) (names : list label)
  : res (DataFrame A) :=
  match getitem_cols (columns d) names with
  | Ok cols => Ok (mkDF (index d) cols)
  | Raise e => Raise e
  end.

(** Overwrite with [v] the cells of a column selected by a boolean row
    selector; the shape of the column is kept. *)
Fixpoint set_where {A} (sel : list bool) (v : A) (col : list A) : list A :=
  match col, sel with
  | x :: col', b :: sel' => (if b then v else x) :: set_where sel' v col'
  | _, _ => col
  end.

(** [d.loc[rows, :] = v] for a boolean row selector. *)
Definition set_rows {A} (sel : list bool) (v : A) (d : DataFrame A)
  : DataFrame A :=
  mkDF (index d) (map (λ c, (c.1, set_where sel v c.2)) (columns d)).

(** [d.loc[rows, name] = v]: only the columns labelled [name]. *)
Definition set_rows_col {A} (sel : list bool) (name : label) (v : A)
    (d : DataFrame A) : DataFrame A :=
  mkDF (index d)
       (map (λ c, if bool_decide (c.1 = name)
                  then (c.1, set_where sel v c.2) else c)
            (columns d)).

(** [index.is_monotonic]: non-decreasing. *)
Fixpoint is_monotonic (idx : list Z) : bool :=
  match idx with
  | [] => true
  | t :: idx' =>
      match idx' with
      | [] => true
      | u :: _ => (t <=? u) && is_monotonic idx'
      end
  end.

(** The axes of a frame: all that [_append_test_results] reads of [sub_df]. *)
Record Axes := mkAxes { ax_index : list Z; ax_columns : list label }.
Definition axes {A} (d : DataFrame A) : Axes := mkAxes (index d) (colnames d).

(** ** Behaviour of pandas and of Python that the engine takes as given *)

Class Extern := {
  (** [str(x)] of a bound *)
  py_str : pyval → string;
  (** rows selected by the label slice [a:b] on an index that is not
      non-decreasing (KeyError when pandas finds no slice bound) *)
  unsorted_slice : list Z → Z → Z → res (list bool);
  (** [(df - df.rolling(w).mean()) / df.rolling(w).std()] *)
  rolling_normalize : DataFrame float → Z → DataFrame float;
  (** [(df - df.mean()) / df.std()] *)
  global_normalize : DataFrame float → DataFrame float;
  (** [pd.DataFrame(index=idx, {0: 1}).resample(period).count() == 0] *)
  resample_count_zero : list Z → Z → DataFrame bool;
  (** [np.argsort] of the timestamps: the positions in sorted order *)
  argsort : list Z → list nat;
  (** [df < b] ([true]) and [df > b] ([false]) for a list or a dict [b], which
      pandas spreads over the columns *)
  compare_listlike : bool → DataFrame float → pyval → res (DataFrame bool)
}.

(** ** Finding blocks (lines 174-198) *)

(** One row of [mask.T.values] is one column of [mask].
    [np_mask[:,:-1]] is [removelast], [np_mask[:,1:]] is [tail]. *)
Definition start_nans_row (r : list bool) : list bool :=
  hd false r :: zip_with (λ a b, negb a && b) (removelast r) (tail r).

Definition stop_nans_row (r : list bool) : list bool :=
  zip_with (λ a b, a && negb b) (removelast r) (tail r) ++ [List.last r false].

(** Positions of the true entries of a row, counted from [off]. *)
Fixpoint where_from (off : nat) (r : list bool) : list nat :=
  match r with
  | [] => []
  | b :: t => if b then off :: where_from (S off) t else where_from (S off) t
  end.

(** [np.where] of a matrix: (row index, column index) of each true entry, in
    row-major order. *)
Fixpoint np_where_from (ri : nat) (m : list (list bool)) : list (nat * nat) :=
  match m with
  | [] => []
  | r :: m' => map (pair ri) (where_from 0 r) ++ np_where_from (S ri) m'
  end.
Definition np_where (m : list (list bool)) : list (nat * nat) :=
  np_where_from 0 m.

Record block := mkBlock {
  Start_Row : list nat;
  Start_Col : list nat;
  Stop_Row : list nat;
  Stop_Col : list nat
}.

(** [np_mask[:,0]] raises IndexError on a matrix without columns, that is on
    a mask without rows. With [order == 'col'] the two results of [np.where]
    are exchanged. *)
Definition find_blocks (mask : DataFrame bool) : res block :=
  let np_mask := map snd (columns mask) in
  if decide (index mask = []) then Raise IndexError
  else
    let start_nans_mask := map start_nans_row np_mask in
    let stop_nans_mask := map stop_nans_row np_mask in
    let start := np_where start_nans_mask in
    let stop := np_where stop_nans_mask in
    Ok {| Start_Row := start.*2; Start_Col := start.*1;
          Stop_Row := stop.*2; Stop_Col := stop.*1 |}.

(** The i-th entries of the four lists, as the loop of line 203 reads them. *)
Definition block_entries (b : block) : list ((nat * nat) * (nat * nat)) :=
  zip (zip (Start_Row b) (Start_Col b)) (zip (Stop_Row b) (Stop_Col b)).

(** [length = block['Stop Row'][i] - block['Start Row'][i] + 1] *)
Definition run_length (e : (nat * nat) * (nat * nat)) : Z :=
  Z.of_nat e.2.1 - Z.of_nat e.1.1 + 1.

(** ** Reference scan used in the proofs: the runs of a column, left to right *)

Definition shift (p : nat * nat) : nat * nat := (S p.1, S p.2).

Fixpoint runs (r : list bool) : list (nat * nat) :=
  match r with
  | [] => []
  | x :: t =>
      let bs := map shift (runs t) in
      if x then
        match bs with
        | (1%nat, e) :: bs' => (0%nat, e) :: bs'
        | _ => (0%nat, 0%nat) :: bs
        end
      else bs
  end.

Definition sum_lengths (bs : list (nat * nat)) : nat :=
  sum_list (map (λ p, (p.2 - p.1 + 1)%nat) bs).

(** The runs of every column, tagged with the column position. *)
Fixpoint col_runs_from (ci : nat) (m : list (list bool)) : list (nat * (nat * nat)) :=
  match m with
  | [] => []
  | r :: m' => map (pair ci) (runs r) ++ col_runs_from (S ci) m'
  end.

(** Runs are ordered, non-empty and separated by at least one false cell. *)
Fixpoint separated (lo : nat) (bs : list (nat * nat)) : Prop :=
  match bs with
  | [] => True
  | (s, e) :: bs' => (lo ≤ s)%nat ∧ (s ≤ e)%nat ∧ separated (S (S e)) bs'
  end.

(** ** The engine and its caller *)

Record TestResult := mkResult {
  Variable_Name : label;
  Start_Time : Z;
  End_Time : Z;
  Timesteps : Z;
  Error_Flag : string
}.

(** A boolean Series: index and values, paired. *)
Definition Series := list (Z * bool).

Record PerformanceMonitoring := mkPM {
  df : DataFrame float;
  trans : gmap string (list label);
  tfilter : Series;
  test_results : list TestResult
}.

Inductive level := INFO | WARNING.

(** The engine, the list objects of the caller (a [bound] argument is a
    reference to one of them) and what was logged. *)
Record World := mkWorld {
  self : PerformanceMonitoring;
  objects : gmap nat (list pyval);
  logged : list (level * string)
}.

(** Computations that read and write the world and may raise. What was
    written before an exception stays written. *)
Definition M (A : Type) : Type := World → res A * World.

Global Instance M_ret : MRet M := λ A a w, (Ok a, w).
Global Instance M_bind : MBind M := λ A B f m w,
  match m w with
  | (Ok a, w') => f a w'
  | (Raise e, w') => (Raise e, w')
  end.

Definition raise {A} (e : exn) : M A := λ w, (Raise e, w).
Definition lift {A} (r : res A) : M A := λ w, (r, w).
Definition get_self : M PerformanceMonitoring := λ w, (Ok (self w), w).
Definition put_self (pm : PerformanceMonitoring) : M unit :=
  λ w, (Ok tt, mkWorld pm (objects w) (logged w)).
Definition log (l : level) (msg : string) : M unit :=
  λ w, (Ok tt, mkWorld (self w) (objects w) (logged w ++ [(l, msg)])).

Definition set_df (d : DataFrame float) : M unit :=
  pm ← get_self;
  put_self (mkPM d (trans pm) (tfilter pm) (test_results pm)).

(** [self.test_results = self.test_results.append(frame_t, ignore_index=True)] *)
Definition append_result (r : TestResult) : M unit :=
  pm ← get_self;
  put_self (mkPM (df pm) (trans pm) (tfilter pm) (test_results pm ++ [r])).

(** [for x in l: body(x)] *)
Fixpoint for_each {A} (l : list A) (body : A → M unit) : M unit :=
  match l with
  | [] => mret tt
  | x :: l' => body x ;; for_each l' body
  end.

(** [len(bound)], [bound[i]] and [bound[i] = v] through the reference. *)
Definition obj_len (ref : nat) : M nat := λ w,
  match objects w !! ref with
  | Some l => (Ok (length l), w)
  | None => (Raise TypeError, w)
  end.
Definition obj_get (ref i : nat) : M pyval := λ w,
  match objects w !! ref with
  | Some l => (py_index l i, w)
  | None => (Raise TypeError, w)
  end.
Definition obj_set (ref i : nat) (v : pyval) : M unit := λ w,
  match objects w !! ref with
  | Some l =>
      if decide (i < length l)%nat
      then (Ok tt, mkWorld (self w) (<[ref := <[i := v]> l]> (objects w)) (logged w))
      else (Raise IndexError, w)
  | None => (Raise TypeError, w)
  end.

(** [string + key]: TypeError when [key] is None. *)
Definition str_add (s : string) (key : option string) : M string :=
  match key with
  | Some k => mret (s ++ k)%string
  | None => raise TypeError
  end.

(** ** The time filter: [mask[~self.tfilter] = False] *)

(** The entries of the filter at timestamp [t], in their order; None when
    there is none. *)
Definition series_lookup (t : Z) (s : Series) : option (list bool) :=
  match List.filter (λ p, bool_decide (p.1 = t)) s with
  | [] => None
  | found => Some found.*2
  end.

(** The boolean key is aligned with the index of the mask.  A key of another
    length is a ValueError.  A key over the very index of the mask is taken
    as it is.  Any other key is reindexed: for each timestamp of the mask, in
    turn, the entries the filter has for it; IndexingError on a timestamp the
    filter does not know.  Where the filter repeats timestamps the reindexed
    key is longer than the mask, and a row to clear beyond the last row of
    the mask is an IndexError. *)
Definition align_filter (tf : Series) (idx : list Z) : res (list bool) :=
  if negb (bool_decide (length tf = length idx)) then Raise ValueError
  else if bool_decide (tf.*1 = idx) then Ok tf.*2
  else match mapM (λ t, series_lookup t tf) idx with
       | Some found =>
           let keep := concat found in
           if existsb negb (drop (length idx) keep) then Raise IndexError
           else Ok (take (length idx) keep)
       | None => Raise IndexingError
       end.

Definition apply_tfilter (tf : Series) (mask : DataFrame bool)
  : res (DataFrame bool) :=
  if bool_decide (tf = []) then Ok mask
  else match align_filter tf (index mask) with
       | Ok keep => Ok (set_rows (map negb keep) false mask)
       | Raise e => Raise e
       end.

(** ** [_append_test_results] *)

(** One turn of the loop of lines 203-218. *)
Definition record_block (sub_df : Axes) (block : block) (error_msg : string)
    (min_failures : Z) (use_mask_only : bool) (i : nat) : M unit :=
  stop_row ← lift (py_index (Stop_Row block) i);
  start_row ← lift (py_index (Start_Row block) i);
  let length := Z.of_nat stop_row - Z.of_nat start_row + 1 in
  if decide (min_failures ≤ length)
  then
    var_name ← (if use_mask_only then mret (LStr "")
                else c ← lift (py_index (Start_Col block) i);
                     lift (py_index (ax_columns sub_df) c));
    start_time ← lift (py_index (ax_index sub_df) start_row);
    end_time ← lift (py_index (ax_index sub_df) stop_row);
    append_result (mkResult var_name start_time end_time length error_msg)
  else mret tt.

Definition _append_test_results (mask : DataFrame bool) (error_msg : string)
    (min_failures : Z) (use_mask_only : bool) : M unit :=
  pm ← get_self;
  mask ← lift (apply_tfilter (tfilter pm) mask);
  if decide (sum_mask mask = 0%nat) then mret tt
  else
    sub_df ← (if use_mask_only then mret (axes mask)
              else d ← lift (getitem (df pm) (colnames mask)); mret (axes d));
    block ← lift (find_blocks mask);
    for_each (seq 0 (length (Start_Col block)))
             (record_block sub_df block error_msg min_failures use_mask_only).

(** ** Label slices, the aggregate mask and the cleaned data *)

Section engine.
Context `{Extern}.

(** Row selector of [d.loc[a:b]]: both ends included. *)
Definition loc_slice (idx : list Z) (a b : Z) : res (list bool) :=
  if is_monotonic idx
  then Ok (map (λ t, (a <=? t) && (t <=? b)) idx)
  else unsorted_slice idx a b.

(** One turn of the loop of lines 73-81; an exception of the assignment is
    swallowed by [except: pass]. *)
Definition punch (mask : DataFrame bool) (r : TestResult) : DataFrame bool :=
  if bool_decide (Variable_Name r ∈ colnames mask)
  then match loc_slice (index mask) (Start_Time r) (End_Time r) with
       | Ok rows => set_rows_col rows (Variable_Name r) false mask
       | Raise _ => mask
       end
  else mask.

(** [~pd.isnull(self.df)] with every recorded interval punched out. *)
Definition aggregate_mask (pm : PerformanceMonitoring) : DataFrame bool :=
  fold_left punch (test_results pm) (frame_map (λ x, negb (is_nan x)) (df pm)).

Definition mask : M (option (DataFrame bool)) :=
  pm ← get_self;
  if empty (df pm) then log INFO "Empty database" ;; mret None
  else mret (Some (aggregate_mask pm)).

(** [d[m]] for a boolean frame [m] of the shape of [d]: the cells where [m]
    is false become NaN. *)
Definition frame_where (d : DataFrame float) (m : DataFrame bool)
  : DataFrame float :=
  mkDF (index d)
       (zip_with (λ c k, (c.1, zip_with (λ x b, if b : bool then x else NaN) c.2 k.2))
                 (columns d) (columns m)).

(** [self.df[self.mask]]; [self.df[None]] is a KeyError. *)
Definition cleaned_data : M (DataFrame float) :=
  m ← mask;
  pm ← get_self;
  match m with
  | None => raise KeyError
  | Some m => mret (frame_where (df pm) m)
  end.

(** ** [_setup_data] *)

Definition _setup_data (key : option string) : M (option (DataFrame float)) :=
  pm ← get_self;
  if empty (df pm) then log INFO "Empty database" ;; mret None
  else
    match key with
    | Some k =>
        (* try: df = self.df[self.trans[key]] *)
        match trans pm !! k with
        | Some names =>
            match getitem (df pm) names with
            | Ok d => mret (Some d)
            | Raise _ => log WARNING ("Undefined key: " ++ k) ;; mret None
            end
        | None => log WARNING ("Undefined key: " ++ k) ;; mret None
        end
    | None => mret (Some (df pm))
    end.

(** ** [_generate_test_results] *)

(** Lines 125-127 (and 533-535): the loop runs over the caller's list. *)
Definition normalize_bound (bound : nat) : M unit :=
  n ← obj_len bound;
  for_each (seq 0 n) (λ i,
    x ← obj_get bound i;
    if py_in x none_list then obj_set bound i PNone else mret tt).

(** [df < b] and [df > b]: a frame of booleans for a number, TypeError for
    a string or None; a list or a dict is spread over the columns by
    pandas. *)
Definition frame_lt (d : DataFrame float) (b : pyval) : res (DataFrame bool) :=
  match b with
  | PNum y => Ok (frame_map (λ x, flt x y) d)
  | PList _ | PDict _ => compare_listlike true d b
  | _ => Raise TypeError
  end.
Definition frame_gt (d : DataFrame float) (b : pyval) : res (DataFrame bool) :=
  match b with
  | PNum y => Ok (frame_map (λ x, fgt x y) d)
  | PList _ | PDict _ => compare_listlike false d b
  | _ => Raise TypeError
  end.

Definition is_None (x : pyval) : bool :=
  match x with PNone => true | _ => false end.

Definition _generate_test_results (d : DataFrame float) (bound : nat)
    (min_failures : Z) (error_prefix : string) : M unit :=
  normalize_bound bound ;;
  (* Lower Bound *)
  b0 ← obj_get bound 0;
  (if is_None b0 then mret tt
   else
     mask ← lift (frame_lt d b0);
     _append_test_results mask
       (error_prefix ++ " < lower bound, " ++ py_str b0) min_failures false) ;;
  (* Upper Bound *)
  b1 ← obj_get bound 1;
  (if is_None b1 then mret tt
   else
     mask ← lift (frame_gt d b1);
     _append_test_results mask
       (error_prefix ++ " > upper bound, " ++ py_str b1) min_failures false).

(** ** [check_range] *)

Definition check_range (bound : nat) (key : option string)
    (min_failures : Z) : M unit :=
  log INFO "Check data range" ;;
  d ← _setup_data key;
  match d with
  | None => mret tt
  | Some d => _generate_test_results d bound min_failures "Data"
  end.

(** ** [check_increment] *)

(** [col.diff(periods)] *)
Definition diff_col (periods : Z) (col : list float) : list float :=
  imap (λ i x,
          let j := Z.of_nat i - periods in
          if decide (0 ≤ j)
          then match col !! Z.to_nat j with
               | Some y => fsub x y
               | None => NaN
               end
          else NaN) col.

Definition frame_diff (periods : Z) (d : DataFrame float) : DataFrame float :=
  mkDF (index d) (map (λ c, (c.1, diff_col periods c.2)) (columns d)).

(** [df.isnull().all().all()] *)
Definition all_null (d : DataFrame float) : bool :=
  forallb (λ c, forallb is_nan c.2) (columns d).

Definition check_increment (bound : nat) (key : option string)
    (increment : Z) (absolute_value : bool) (min_failures : Z) : M unit :=
  log INFO "Check increment range" ;;
  d ← _setup_data key;
  match d with
  | None => mret tt
  | Some d =>
      if all_null d
      then msg ← str_add "Check increment range failed (all data is Null): " key;
           log WARNING msg
      else
        let d := if absolute_value
                 then frame_map fabs (frame_diff increment d)
                 else frame_diff increment d in
        let error_prefix :=
          if absolute_value then "|Increment|" else "Increment" in
        _generate_test_results d bound min_failures error_prefix
  end.

(** ** [check_delta] *)

(** Timestamps count nanoseconds; [window] and [frequency] reach pandas as a
    whole number of milliseconds ([str(int(window*1e3)) + 'ms']). *)
Definition ms (n : positive) : Z := Z.pos n * 1000000.

(** Positions of the rolling window that ends at row [i]: the rows not
    after [i] whose timestamp lies less than [w] before that of [i]. *)
Definition window_rows (idx : list Z) (w : Z) (i : nat) : list nat :=
  match idx !! i with
  | None => []
  | Some t =>
      List.filter (λ j, match idx !! j with
                        | Some u => t - u <? w
                        | None => false
                        end) (seq 0 (S i))
  end.

(** The window as the Series handed to [f]: timestamp and value. *)
Definition window_series (idx : list Z) (col : list float) (w : Z) (i : nat)
  : list (Z * float) :=
  omap (λ j, match idx !! j, col !! j with
             | Some t, Some x => Some (t, x)
             | _, _ => None
             end) (window_rows idx w i).

(** First smallest and first largest entry of a Series, NaN skipped. *)
Fixpoint first_min (data : list (Z * float)) : option (Z * float) :=
  match data with
  | [] => None
  | (t, x) :: data' =>
      if is_nan x then first_min data'
      else match first_min data' with
           | Some (u, y) => if flt y x then Some (u, y) else Some (t, x)
           | None => Some (t, x)
           end
  end.
Fixpoint first_max (data : list (Z * float)) : option (Z * float) :=
  match data with
  | [] => None
  | (t, x) :: data' =>
      if is_nan x then first_max data'
      else match first_max data' with
           | Some (u, y) => if fgt y x then Some (u, y) else Some (t, x)
           | None => Some (t, x)
           end
  end.

(** [data.notnull().sum()] *)
Definition notnull_count (data : list (Z * float)) : nat :=
  length (List.filter (λ p, negb (is_nan p.2)) data).

(** The local function [f] of lines 495-509. A timestamp is returned as a
    number ([.value]), which [rolling().apply] stores in its float64
    result: the number of nanoseconds is rounded to the nearest float64. *)
Definition f (data : list (Z * float)) (method : string) : float :=
  if decide (notnull_count data < 2)%nat then NaN
  else if bool_decide (method = "idxmin") then
    match first_min data with
    | Some (t, _) => round64 (inject_Z t)
    | None => NaN
    end
  else if bool_decide (method = "min") then
    match first_min data with Some (_, x) => x | None => NaN end
  else if bool_decide (method = "idxmax") then
    match first_max data with
    | Some (t, _) => round64 (inject_Z t)
    | None => NaN
    end
  else if bool_decide (method = "max") then
    match first_max data with Some (_, x) => x | None => NaN end
  else NaN.

(** [df.replace([np.inf, -np.inf], np.nan)]; a rolling window does the same
    to its values before it hands them on. *)
Definition replace_inf (x : float) : float :=
  match x with
  | PosInf | NegInf => NaN
  | _ => x
  end.

(** [d.rolling(w).apply(g, raw=False)]: the windows are cut from the
    values with the infinities made NaN. *)
Definition rolling_apply (d : DataFrame float) (w : Z)
    (g : list (Z * float) → float) : DataFrame float :=
  mkDF (index d)
       (map (λ c, (c.1, imap (λ i _, g (window_series (index d)
                                          (map replace_inf c.2) w i)) c.2))
            (columns d)).

(** [astype('datetime64[ns]')] of a float: NaN becomes NaT, a number is cut
    to a whole number of nanoseconds. *)
Definition to_datetime (x : float) : option Z :=
  match x with
  | Fin q => Some (Qfloor q)
  | _ => None
  end.

(** Cell by cell combination of two frames of one shape. *)
Definition frame_zip {A B C} (g : A → B → C) (a : DataFrame A)
    (b : DataFrame B) : DataFrame C :=
  mkDF (index a)
       (zip_with (λ c k, (c.1, zip_with g c.2 k.2)) (columns a) (columns b)).

(** The labels [(t, col)] of the true cells, row by row
    ([list(mask1[mask1 > 0].stack().index)]). *)
Definition stack_true (mask1 : DataFrame bool) : list (Z * label) :=
  concat (imap (λ i t,
                  omap (λ c, match c.2 !! i with
                             | Some true => Some (t, c.1)
                             | _ => None
                             end) (columns mask1))
               (index mask1)).

(** [d.loc[t, col]] read as a scalar: KeyError when the labels are absent,
    and a repeated label gives a Series whose truth value is a ValueError. *)
Definition loc_scalar {A} (d : DataFrame A) (t : Z) (col : label) : res A :=
  match List.filter (λ c, bool_decide (c.1 = col)) (columns d) with
  | [] => Raise KeyError
  | [c] =>
      match List.filter (λ p, bool_decide (p.1 = t)) (zip (index d) c.2) with
      | [] => Raise KeyError
      | [p] => Ok p.2
      | _ => Raise ValueError
      end
  | _ => Raise ValueError
  end.

(** One turn of the loop of lines 540-550. *)
Definition mark_exact (tmin_df tmax_df : DataFrame (option Z))
    (mask2 : DataFrame bool) (tc : Z * label) : res (DataFrame bool) :=
  let '(t, col) := tc in
  (* set the initially flagged location to False *)
  let mask2 :=
    set_rows_col (map (λ u, bool_decide (u = t)) (index mask2)) col false mask2 in
  match loc_scalar tmin_df t col, loc_scalar tmax_df t col with
  | Ok (Some start_time), Ok (Some end_time) =>
      match (if start_time <? end_time
             then loc_slice (index mask2) start_time end_time
             else loc_slice (index mask2) end_time start_time) with
      | Ok rows => Ok (set_rows_col rows col true mask2)
      | Raise e => Raise e
      end
  | Raise e, _ => Raise e
  | _, Raise e => Raise e
  | _, _ => Raise ValueError (* NaT *)
  end.

Fixpoint fold_res {A B} (g : B → A → res B) (l : list A) (b : B) : res B :=
  match l with
  | [] => Ok b
  | x :: l' =>
      match g b x with
      | Ok b' => fold_res g l' b'
      | Raise e => Raise e
      end
  end.

Definition extract_exact_position (mask1 : DataFrame bool)
    (tmin_df tmax_df : DataFrame (option Z)) : res (DataFrame bool) :=
  let mask2 := frame_map (λ _, false) mask1 in
  fold_res (mark_exact tmin_df tmax_df) (stack_true mask1) mask2.

(** Lines 553-571, for one of the two bounds. *)
Definition delta_bound (diff_df : DataFrame float)
    (tmin_df tmax_df : DataFrame (option Z)) (b : pyval)
    (cmp : DataFrame float → pyval → res (DataFrame bool))
    (error_msg : string) (min_failures : Z) : M unit :=
  if is_None b then mret tt
  else
    mask ← lift (cmp diff_df b);
    pm ← get_self;
    mask ← lift (apply_tfilter (tfilter pm) mask);
    if decide (0 < sum_mask mask)%nat
    then mask ← lift (extract_exact_position mask tmin_df tmax_df);
         _append_test_results mask error_msg min_failures false
    else mret tt.

(** The four rolling frames of lines 511-520 and their difference. *)
Definition tmin_df (d : DataFrame float) (w : Z) : DataFrame (option Z) :=
  frame_map to_datetime (rolling_apply d w (λ x, f x "idxmin")).
Definition min_df (d : DataFrame float) (w : Z) : DataFrame float :=
  rolling_apply d w (λ x, f x "min").
Definition tmax_df (d : DataFrame float) (w : Z) : DataFrame (option Z) :=
  frame_map to_datetime (rolling_apply d w (λ x, f x "idxmax")).
Definition max_df (d : DataFrame float) (w : Z) : DataFrame float :=
  rolling_apply d w (λ x, f x "max").

Definition diff_df (d : DataFrame float) (w : Z) (absolute_value : bool)
  : DataFrame float :=
  let diff_df := frame_zip fsub (max_df d w) (min_df d w) in
  if absolute_value then diff_df
  else
    let reverse_order :=
      frame_zip (λ a b, match a, b with
                        | Some a, Some b => a <? b
                        | _, _ => false
                        end) (tmax_df d w) (tmin_df d w) in
    frame_zip (λ x (r : bool), if r then fneg x else x) diff_df reverse_order.

Definition check_delta (bound : nat) (key : option string)
    (window : positive) (absolute_value : bool) (min_failures : Z) : M unit :=
  log INFO "Check delta (max-min) range" ;;
  d ← _setup_data key;
  match d with
  | None => mret tt
  | Some d =>
      (* df.rolling raises on an index that is not monotonic, and the
         rolling functions on a window that no int64 holds *)
      if negb (is_monotonic (index d)) then raise ValueError
      else if 2 ^ 63 <=? ms window then raise OverflowError
      else
        let w := ms window in
        let error_prefix := if absolute_value then "|Delta|" else "Delta" in
        normalize_bound bound ;;
        b0 ← obj_get bound 0;
        delta_bound (diff_df d w absolute_value) (tmin_df d w) (tmax_df d w)
          b0 frame_lt
          (error_prefix ++ " < lower bound, " ++ py_str b0) min_failures ;;
        b1 ← obj_get bound 1;
        delta_bound (diff_df d w absolute_value) (tmin_df d w) (tmax_df d w)
          b1 frame_gt
          (error_prefix ++ " > upper bound, " ++ py_str b1) min_failures
  end.

(** ** [check_outlier] *)

Definition check_outlier (bound : nat) (key : option string)
    (window : option positive) (absolute_value : bool) (min_failures : Z)
  : M unit :=
  log INFO "Check for outliers" ;;
  d ← _setup_data key;
  match d with
  | None => mret tt
  | Some d =>
      d ← match window with
          | Some w =>
              if negb (is_monotonic (index d)) then raise ValueError
              else if 2 ^ 63 <=? ms w then raise OverflowError
              else mret (rolling_normalize d (ms w))
          | None => mret (global_normalize d)
          end;
      let d := if absolute_value then frame_map fabs d else d in
      let d := frame_map replace_inf d in
      let error_prefix := if absolute_value then "|Outlier|" else "Outlier" in
      _generate_test_results d bound min_failures error_prefix
  end.

(** ** [check_missing] *)

(** [mask.loc[row['Start Time']:row['End Time']] = False] *)
Definition clear_rows (mask : DataFrame bool) (row : TestResult)
  : res (DataFrame bool) :=
  match loc_slice (index mask) (Start_Time row) (End_Time row) with
  | Ok rows => Ok (set_rows rows false mask)
  | Raise e => Raise e
  end.

Definition check_missing (key : option string) (min_failures : Z) : M unit :=
  log INFO "Check for missing data" ;;
  d ← _setup_data key;
  match d with
  | None => mret tt
  | Some d =>
      let mask := frame_map is_nan d in
      pm ← get_self;
      let missing_timestamps :=
        List.filter (λ r, bool_decide (Error_Flag r = "Missing timestamp"))
                    (test_results pm) in
      mask ← lift (fold_res clear_rows missing_timestamps mask);
      _append_test_results mask "Missing data" min_failures false
  end.

(** ** [check_corrupt] *)

(** [self.df[mask] = np.nan].  A mask with the column labels of the
    dataset is applied column by column.  Any other mask is first aligned
    with the dataset by column label, and columns it does not have are left
    alone; pandas cannot align a mask in which a column label is repeated:
    ValueError. *)
Definition scrub_same (d : DataFrame float) (mask : DataFrame bool)
  : DataFrame float :=
  mkDF (index d)
       (zip_with (λ c k, (c.1, set_where k.2 NaN c.2))
                 (columns d) (columns mask)).
Definition scrub_aligned (d : DataFrame float) (mask : DataFrame bool)
  : DataFrame float :=
  mkDF (index d)
       (map (λ c, match List.filter (λ k, bool_decide (k.1 = c.1)) (columns mask) with
                  | k :: _ => (c.1, set_where k.2 NaN c.2)
                  | [] => c
                  end) (columns d)).
Definition scrub (d : DataFrame float) (mask : DataFrame bool)
  : res (DataFrame float) :=
  if bool_decide (colnames mask = colnames d) then Ok (scrub_same d mask)
  else if bool_decide (NoDup (colnames mask)) then Ok (scrub_aligned d mask)
  else Raise ValueError.

Definition check_corrupt (corrupt_values : list float) (key : option string)
    (min_failures : Z) : M unit :=
  log INFO "Check for corrupt data" ;;
  d ← _setup_data key;
  match d with
  | None => mret tt
  | Some d =>
      let mask :=
        fold_left (λ mask i, frame_zip orb mask (frame_map (λ x, feq x i) d))
                  corrupt_values (frame_map (λ _, false) d) in
      pm ← get_self;
      d' ← lift (scrub (df pm) mask);
      set_df d' ;;
      _append_test_results mask "Corrupt data" min_failures false
  end.

(** ** [check_timestamp] *)

(** [pd.date_range(start, end, freq)] *)
Definition date_range (start stop period : Z) : list Z :=
  if decide (start ≤ stop)
  then map (λ k, start + Z.of_nat k * period)
           (seq 0 (S (Z.to_nat ((stop - start) / period))))
  else [].

(** [pd.date_range] hands the step and the end of the range (half a step
    and a nanosecond beyond the last grid point) to [np.arange] as int64:
    a step of 2^63 nanoseconds or more, or an end beyond the largest int64,
    is an OverflowError. *)
Definition grid_overflows (start stop period : Z) : bool :=
  (2 ^ 63 <=? period) ||
  (2 ^ 63 <=? start + (stop - start) / period * period + period / 2 + 1).

(** [pd.Series(index).diff()] compared with zero by [cmp]; the first entry
    is NaT and compares false. *)
Fixpoint index_diff (cmp : Z → bool) (prev : option Z) (idx : list Z)
  : list bool :=
  match idx with
  | [] => []
  | t :: idx' =>
      match prev with
      | Some u => cmp (t - u)
      | None => false
      end :: index_diff cmp (Some t) idx'
  end.

(** [mask[mask.index[0]] = False]: every row labelled like the first. *)
Definition clear_first_label (idx : list Z) (vals : list bool) : list bool :=
  match idx with
  | [] => vals
  | t0 :: _ => set_where (map (λ t, bool_decide (t = t0)) idx) false vals
  end.

(** Rows of a frame at the given positions. *)
Definition take_rows {A} (ps : list nat) (d : DataFrame A) : DataFrame A :=
  mkDF (omap (λ p, index d !! p) ps)
       (map (λ c, (c.1, omap (λ p, c.2 !! p) ps)) (columns d)).

(** [d.sort_index()] *)
Definition sort_index {A} (d : DataFrame A) : DataFrame A :=
  take_rows (argsort (index d)) d.

(** Positions kept by [drop_duplicates] on the timestamps. *)
Definition keep_first (idx : list Z) : list nat :=
  List.filter (λ i, match idx !! i with
                    | Some t => bool_decide (t ∉ take i idx)
                    | None => false
                    end) (seq 0 (length idx)).
Definition keep_last (idx : list Z) : list nat :=
  List.filter (λ i, match idx !! i with
                    | Some t => bool_decide (t ∉ drop (S i) idx)
                    | None => false
                    end) (seq 0 (length idx)).

(** [self.df['TEMP'] = self.df.index]: replaces a column of that label or
    adds one at the end. The timestamps are held as numbers. *)
Definition set_TEMP (d : DataFrame float) : DataFrame float :=
  let temp := map (λ t, Fin (inject_Z t)) (index d) in
  if bool_decide (LStr "TEMP" ∈ colnames d)
  then mkDF (index d)
            (map (λ c, if bool_decide (c.1 = LStr "TEMP") then (c.1, temp) else c)
                 (columns d))
  else mkDF (index d) (columns d ++ [(LStr "TEMP", temp)]).

(** [del self.df['TEMP']] *)
Definition del_TEMP (d : DataFrame float) : DataFrame float :=
  mkDF (index d)
       (List.filter (λ c, negb (bool_decide (c.1 = LStr "TEMP"))) (columns d)).

(** Position of the first row labelled [t]. *)
Fixpoint find_row (t : Z) (idx : list Z) : option nat :=
  match idx with
  | [] => None
  | u :: idx' => if decide (u = t) then Some 0%nat else S <$> find_row t idx'
  end.

(** [d.reindex(index=rng)]: the row of each timestamp, NaN where the
    dataset has none. *)
Definition reindex (rng : list Z) (d : DataFrame float) : DataFrame float :=
  mkDF rng
       (map (λ c, (c.1, map (λ t, match find_row t (index d) with
                                  | Some p => default NaN (c.2 !! p)
                                  | None => NaN
                                  end) rng))
            (columns d)).

Definition check_timestamp (frequency : positive)
    (expected_start_time expected_end_time : option Z) (min_failures : Z)
    (exact_times : bool) : M unit :=
  log INFO "Check timestamp" ;;
  pm ← get_self;
  if empty (df pm) then log INFO "Empty database"
  else
    let expected_start_time :=
      default (foldr Z.min (hd 0 (index (df pm))) (index (df pm)))
              expected_start_time in
    let expected_end_time :=
      default (foldr Z.max (hd 0 (index (df pm))) (index (df pm)))
              expected_end_time in
    if grid_overflows expected_start_time expected_end_time (ms frequency)
    then raise OverflowError
    else
    let rng := date_range expected_start_time expected_end_time (ms frequency) in
    (* Check to see if timestamp is monotonic *)
    let idx := index (df pm) in
    let mask :=
      mkDF idx [(LInt 0, clear_first_label idx (index_diff (λ δ, δ <? 0) None idx))] in
    _append_test_results mask "Nonmonotonic timestamp" min_failures true ;;
    (* If not monotonic, sort df by timestamp *)
    pm ← get_self;
    (if negb (is_monotonic (index (df pm))) then set_df (sort_index (df pm))
     else mret tt) ;;
    (* Check for duplicate timestamps *)
    pm ← get_self;
    let idx := index (df pm) in
    let mask :=
      mkDF idx [(LInt 0, clear_first_label idx (index_diff (λ δ, δ =? 0) None idx))] in
    let mask := take_rows (keep_last idx) mask in
    (* Drop duplicate timestamps *)
    set_df (take_rows (keep_first idx) (set_TEMP (df pm))) ;;
    _append_test_results mask "Duplicate timestamp" min_failures true ;;
    pm ← get_self;
    set_df (del_TEMP (df pm)) ;;
    pm ← get_self;
    if exact_times then
      let missing := List.filter (λ t, bool_decide (t ∉ index (df pm))) rng in
      (* reindex DataFrame *)
      set_df (reindex rng (df pm)) ;;
      let mask := mkDF rng [(LInt 0, map (λ t, bool_decide (t ∈ missing)) rng)] in
      _append_test_results mask "Missing timestamp" min_failures true
    else
      let mask := resample_count_zero (index (df pm)) (ms frequency) in
      _append_test_results mask "Missing timestamp" min_failures true.

(** ** The seven detectors, as calls *)

Inductive detector :=
| CheckTimestamp (frequency : positive)
    (expected_start_time expected_end_time : option Z) (min_failures : Z)
    (exact_times : bool)
| CheckRange (bound : nat) (key : option string) (min_failures : Z)
| CheckIncrement (bound : nat) (key : option string) (increment : Z)
    (absolute_value : bool) (min_failures : Z)
| CheckDelta (bound : nat) (key : option string) (window : positive)
    (absolute_value : bool) (min_failures : Z)
| CheckOutlier (bound : nat) (key : option string) (window : option positive)
    (absolute_value : bool) (min_failures : Z)
| CheckMissing (key : option string) (min_failures : Z)
| CheckCorrupt (corrupt_values : list float) (key : option string)
    (min_failures : Z).

Definition call (d : detector) : M unit :=
  match d with
  | CheckTimestamp fr s e mf ex => check_timestamp fr s e mf ex
  | CheckRange b k mf => check_range b k mf
  | CheckIncrement b k inc a mf => check_increment b k inc a mf
  | CheckDelta b k w a mf => check_delta b k w a mf
  | CheckOutlier b k w a mf => check_outlier b k w a mf
  | CheckMissing k mf => check_missing k mf
  | CheckCorrupt cv k mf => check_corrupt cv k mf
  end.

Definition key_of (d : detector) : option string :=
  match d with
  | CheckTimestamp _ _ _ _ _ => None
  | CheckRange _ k _ | CheckIncrement _ k _ _ _ | CheckDelta _ k _ _ _
  | CheckOutlier _ k _ _ _ | CheckMissing k _ | CheckCorrupt _ k _ => k
  end.
End engine.

(** ** Notions used to state the properties *)

(** The record made for a run, when the labels it needs exist. *)
Definition record_of (sub_df : Axes) (use_mask_only : bool)
    (error_msg : string) (e : (nat * nat) * (nat * nat)) : option TestResult :=
  var_name ← (if use_mask_only then Some (LStr "")
              else ax_columns sub_df !! e.1.2);
  start_time ← ax_index sub_df !! e.1.1;
  end_time ← ax_index sub_df !! e.2.1;
  Some (mkResult var_name start_time end_time (run_length e) error_msg).

(** The world after [new] has been appended to the recorded intervals. *)
Definition with_results (w : World) (new : list TestResult) : World :=
  mkWorld (mkPM (df (self w)) (trans (self w)) (tfilter (self w))
                (test_results (self w) ++ new))
          (objects w) (logged w).

(** A computation keeps a relation between the world before and after,
    whether it returns or raises. *)
Definition preserves {A} (R : World → World → Prop) (m : M A) : Prop :=
  ∀ w, R w (m w).2.

(** Only appended to the recorded intervals; translation dictionary and time
    filter untouched. *)
Definition appends_only (w w' : World) : Prop :=
  (∃ new, test_results (self w') = test_results (self w) ++ new) ∧
  trans (self w') = trans (self w) ∧
  tfilter (self w') = tfilter (self w).

Definition same_df (w w' : World) : Prop := df (self w') = df (self w).

Definition same_objects (w w' : World) : Prop := objects w' = objects w.

(** What one recorded interval does to one column of the mask: [rows] is the
    row selector of its time range, when pandas finds one. *)
Definition punch_col (rows : option (list bool)) (name : label)
    (c : label * list bool) : label * list bool :=
  match rows with
  | Some rows =>
      if bool_decide (c.1 = name) then (c.1, set_where rows false c.2) else c
  | None => c
  end.

Definition rows_of `{Extern} (idx : list Z) (r : TestResult)
  : option (list bool) :=
  match loc_slice idx (Start_Time r) (End_Time r) with
  | Ok rows => Some rows
  | Raise _ => None
  end.

(** The sub-table a detector works on: none when the dataset is empty or the
    key does not resolve. *)
Definition subtable (pm : PerformanceMonitoring) (key : option string)
  : option (DataFrame float) :=
  if empty (df pm) then None
  else match key with
       | None => Some (df pm)
       | Some k =>
           names ← trans pm !! k;
           match getitem (df pm) names with
           | Ok d => Some d
           | Raise _ => None
           end
       end.

(** A bound entry after the loop of lines 125-127. *)
Definition normalized (x : pyval) : pyval :=
  if py_in x none_list then PNone else x.

(** The world in which the caller's list [ref] holds [l]. *)
Definition set_obj (w : World) (ref : nat) (l : list pyval) : World :=
  mkWorld (self w) (<[ref := l]> (objects w)) (logged w).

Definition add_log (w : World) (msgs : list (level * string)) : World :=
  mkWorld (self w) (objects w) (logged w ++ msgs).

(** The detectors that take a [bound], and when they get as far as reading
    it: the key resolves on a dataset with data; [check_increment] returns
    before on a sub-table that is entirely absent; the rolling functions of
    [check_delta] and [check_outlier] raise before on timestamps out of order
    (ValueError) and on a window of 2^63 nanoseconds or more
    (OverflowError). *)
Definition bound_of `{Extern} (d : detector) : option nat :=
  match d with
  | CheckRange b _ _ | CheckIncrement b _ _ _ _ | CheckDelta b _ _ _ _
  | CheckOutlier b _ _ _ _ => Some b
  | _ => None
  end.

Definition reads_bound `{Extern} (pm : PerformanceMonitoring) (d : detector)
  : Prop :=
  match d with
  | CheckRange _ key _ => is_Some (subtable pm key)
  | CheckIncrement _ key _ _ _ =>
      ∃ t, subtable pm key = Some t ∧ all_null t = false
  | CheckDelta _ key window _ _ =>
      ∃ t, subtable pm key = Some t ∧ is_monotonic (index t) = true ∧
           ms window < 2 ^ 63
  | CheckOutlier _ key window _ _ =>
      ∃ t, subtable pm key = Some t ∧
           (window = None ∨
            ∃ w, window = Some w ∧ is_monotonic (index t) = true ∧
                 ms w < 2 ^ 63)
  | _ => False
  end.

(** [d'] is [d] with some cells overwritten by NaN. *)
Definition scrubbed (d d' : DataFrame float) : Prop :=
  index d' = index d ∧ colnames d' = colnames d ∧
  ∀ c i, cell d' c i = cell d c i ∨
         (is_Some (cell d c i) ∧ cell d' c i = Some NaN).

(** The rows the time filter lets through ([true]); all of them when no
    filter is set. *)
Definition kept_rows (tf : Series) (idx : list Z) : res (list bool) :=
  if bool_decide (tf = []) then Ok (map (λ _, true) idx)
  else align_filter tf idx.

(** The rows labelled [u] of the columns labelled [col] are all true. *)
Definition marked (m : DataFrame bool) (u : Z) (col : label) : Prop :=
  ∀ c i, colnames m !! c = Some col → index m !! i = Some u →
         cell m c i = Some true.

Definition same_logged (w w' : World) : Prop := logged w' = logged w.

(** ** Building the engine: [__init__], [add_translation_dictionary],
    [add_dataframe], [add_time_filter] *)

(** What pandas does when two frames are merged, or when a frame is indexed
    by a boolean frame over other axes. *)
Class Pandas := {
  (** [a.combine_first(b)] *)
  combine_first : DataFrame float → DataFrame float → res (DataFrame float);
  (** [d[m]] for a boolean frame [m] whose axes are not those of [d] *)
  where_unaligned : DataFrame float → DataFrame bool → res (DataFrame float)
}.

(** Lines 45-54: no data, no translation, no filter, nothing recorded. *)
Definition __init__ : PerformanceMonitoring := mkPM (mkDF [] []) ∅ [] [].

Definition set_trans (t : gmap string (list label)) : M unit :=
  pm ← get_self;
  put_self (mkPM (df pm) t (tfilter pm) (test_results pm)).

Definition set_tfilter (s : Series) : M unit :=
  pm ← get_self;
  put_self (mkPM (df pm) (trans pm) s (test_results pm)).

(** [self.trans[key].append(value)] *)
Definition trans_append (key : string) (value : label) : M unit :=
  pm ← get_self;
  match trans pm !! key with
  | Some l => set_trans (<[key := l ++ [value]]> (trans pm))
  | None => raise KeyError
  end.

(** A dictionary argument is the list of its items, in the order Python
    iterates over them. *)
Definition add_translation_dictionary (items : list (string * list label))
  : M unit :=
  for_each items (λ kv,
    pm ← get_self;
    set_trans (<[kv.1 := []]> (trans pm)) ;;
    for_each kv.2 (trans_append kv.1)).

(** [d[k] = v] on the items of a dictionary: an existing key keeps its
    place. *)
Fixpoint dict_set {V} (k : string) (v : V) (d : list (string * V))
  : list (string * V) :=
  match d with
  | [] => [(k, v)]
  | (k', v') :: d' =>
      if decide (k' = k) then (k, v) :: d' else (k', v') :: dict_set k v d'
  end.

(** Lines 240-242. A column labelled by an integer gets an integer key; the
    dictionary of the model is read with string keys only, which never find
    such an entry, and it is left out. *)
Definition identity_trans (cols : list label) : list (string * list label) :=
  foldl (λ trans col,
           match col with
           | LStr s => dict_set s [col] trans
           | LInt _ => trans
           end) [] cols.

Section building.
Context `{Pandas}.

(** The two assertions of lines 229-230 hold by typing; [self.df] is a
    frame from [__init__] on, so that line 235 is the one that runs. *)
Definition add_dataframe (data : DataFrame float) : M unit :=
  let temp := data in
  pm ← get_self;
  d ← lift (combine_first temp (df pm));
  set_df d ;;
  (* Add identity 1:1 translation dictionary *)
  let trans := identity_trans (colnames temp) in
  add_translation_dictionary trans.
End building.

(** The argument of [add_time_filter]: a frame or a Series. *)
Inductive time_filter :=
| TFFrame (d : DataFrame bool)
| TFSeries (s : Series).

(** [time_filter.values[:,0]] is an IndexError on a frame without columns;
    [pd.Series(data, index)] is a ValueError when the lengths differ. *)
Definition add_time_filter (time_filter : time_filter) : M unit :=
  match time_filter with
  | TFFrame d =>
      pm ← get_self;
      match columns d with
      | [] => raise IndexError
      | c :: _ =>
          if decide (length c.2 = length (index (df pm)))
          then set_tfilter (zip (index (df pm)) c.2)
          else raise ValueError
      end
  | TFSeries s => set_tfilter s
  end.

(** ** The functional approach (lines 762-842) *)

(** The dictionary the functions return. *)
Record QC := mkQC {
  qc_cleaned_data : DataFrame float;
  qc_mask : option (DataFrame bool);
  qc_test_results : list TestResult
}.

(** [pm = PerformanceMonitoring()]: the body runs on an engine of its own,
    which is dropped at the end; the caller's objects and the log are
    shared. *)
Definition with_new_engine {A} (body : M A) : M A := λ w,
  let '(r, w') := body (mkWorld __init__ (objects w) (logged w)) in
  (r, mkWorld (self w) (objects w') (logged w')).

Section indexing.
Context `{Pandas}.

(** [data[mask]]: a KeyError for None, the cells where the mask is false
    made NaN for a frame over the axes of [data]. *)
Definition getitem_mask (data : DataFrame float)
    (mask : option (DataFrame bool)) : res (DataFrame float) :=
  match mask with
  | None => Raise KeyError
  | Some m =>
      if bool_decide (index m = index data ∧ colnames m = colnames data)
      then Ok (frame_where data m)
      else where_unaligned data m
  end.
End indexing.

Module functional.
Section functions.
Context `{Extern} `{Pandas}.

Definition check_timestamp (data : DataFrame float) (frequency : positive)
    (expected_start_time expected_end_time : option Z) (min_failures : Z)
    (exact_times : bool) : M QC :=
  with_new_engine (
    add_dataframe data ;;
    check_timestamp frequency expected_start_time expected_end_time
      min_failures exact_times ;;
    mask ← mask;
    pm ← get_self;
    mret (mkQC (df pm) mask (test_results pm))).

Definition check_range (data : DataFrame float) (bound : nat)
    (key : option string) (min_failures : Z) : M QC :=
  with_new_engine (
    add_dataframe data ;;
    check_range bound key min_failures ;;
    mask ← mask;
    cleaned ← lift (getitem_mask data mask);
    pm ← get_self;
    mret (mkQC cleaned mask (test_results pm))).

Definition check_increment (data : DataFrame float) (bound : nat)
    (key : option string) (increment : Z) (absolute_value : bool)
    (min_failures : Z) : M QC :=
  with_new_engine (
    add_dataframe data ;;
    check_increment bound key increment absolute_value min_failures ;;
    mask ← mask;
    cleaned ← lift (getitem_mask data mask);
    pm ← get_self;
    mret (mkQC cleaned mask (test_results pm))).

Definition check_delta (data : DataFrame float) (bound : nat)
    (key : option string) (window : positive) (absolute_value : bool)
    (min_failures : Z) : M QC :=
  with_new_engine (
    add_dataframe data ;;
    check_delta bound key window absolute_value min_failures ;;
    mask ← mask;
    cleaned ← lift (getitem_mask data mask);
    pm ← get_self;
    mret (mkQC cleaned mask (test_results pm))).

(** Line 817 hands None to the method in place of [key]. *)
Definition check_outlier (data : DataFrame float) (bound : nat)
    (key : option string) (window : option positive)
    (absolute_value : bool) (min_failures : Z) : M QC :=
  with_new_engine (
    add_dataframe data ;;
    check_outlier bound None window absolute_value min_failures ;;
    mask ← mask;
    cleaned ← lift (getitem_mask data mask);
    pm ← get_self;
    mret (mkQC cleaned mask (test_results pm))).

Definition check_missing (data : DataFrame float) (key : option string)
    (min_failures : Z) : M QC :=
  with_new_engine (
    add_dataframe data ;;
    check_missing key min_failures ;;
    mask ← mask;
    cleaned ← lift (getitem_mask data mask);
    pm ← get_self;
    mret (mkQC cleaned mask (test_results pm))).

Definition check_corrupt (data : DataFrame float)
    (corrupt_values : list float) (key : option string)
    (min_failures : Z) : M QC :=
  with_new_engine (
    add_dataframe data ;;
    check_corrupt corrupt_values key min_failures ;;
    mask ← mask;
    cleaned ← lift (getitem_mask data mask);
    pm ← get_self;
    mret (mkQC cleaned mask (test_results pm))).
End functions.
End functional.

(** ** Further notions used to state properties *)

(** The recorded interval [r] is on the variable [n] and includes the
    timestamp [t]. *)
Definition covers (n : label) (t : Z) (r : TestResult) : bool :=
  bool_decide (Variable_Name r = n) && (Start_Time r <=? t) && (t <=? End_Time r).

(** Row [i] of some column labelled [n] of a failure matrix is true. *)
Definition flagged (m : DataFrame bool) (n : label) (i : nat) : bool :=
  existsb (λ c, bool_decide (c.1 = n) && default false (c.2 !! i)) (columns m).

(** The world whose engine has recorded [rs] and nothing else. *)
Definition set_results (w : World) (rs : list TestResult) : World :=
  mkWorld (mkPM (df (self w)) (trans (self w)) (tfilter (self w)) rs)
          (objects w) (logged w).

(** The world whose engine holds the dataset [d]. *)
Definition with_df (w : World) (d : DataFrame float) : World :=
  mkWorld (mkPM d (trans (self w)) (tfilter (self w)) (test_results (self w)))
          (objects w) (logged w).

(** A bound as the caller writes it: a number, or None for no bound. *)
Definition bound_entry (b : option float) : pyval :=
  match b with
  | Some x => PNum x
  | None => PNone
  end.

(** [x] lies strictly below the lower or strictly above the upper bound. *)
Definition outside (lo hi : option float) (x : float) : bool :=
  match lo with Some l => flt x l | None => false end ||
  match hi with Some h => fgt x h | None => false end.

(** The timestamp [t] lies within an interval recorded as a missing
    timestamp. *)
Definition missing_at (rs : list TestResult) (t : Z) : bool :=
  existsb (λ r, bool_decide (Error_Flag r = "Missing timestamp") &&
                ((Start_Time r <=? t) && (t <=? End_Time r))) rs.

(** The three error flags of [check_timestamp]. *)
Definition timestamp_flags : list string :=
  ["Nonmonotonic timestamp"; "Duplicate timestamp"; "Missing timestamp"].

(** Only intervals without a variable name were recorded, each under one of
    the given flags. *)
Definition appends_unnamed (flags : list string) (w w' : World) : Prop :=
  ∃ new, test_results (self w') = test_results (self w) ++ new ∧
         Forall (λ r, Variable_Name r = LStr "" ∧ Error_Flag r ∈ flags) new.

(** The expected grid of [check_timestamp] can be built: its step and its
    end are int64 numbers of nanoseconds. *)
Definition grid_fits (idx : list Z) (expected_start_time
    expected_end_time : option Z) (frequency : positive) : Prop :=
  grid_overflows (default (foldr Z.min (hd 0 idx) idx) expected_start_time)
                 (default (foldr Z.max (hd 0 idx) idx) expected_end_time)
                 (ms frequency) = false.

(** The label pandas gives the helper column of [check_timestamp]. *)
Definition not_TEMP (n : label) : bool := negb (bool_decide (n = LStr "TEMP")).

(** The world whose engine holds the translation dictionary [t], or the time
    filter [s]. *)
Definition with_trans (w : World) (t : gmap string (list label)) : World :=
  mkWorld (mkPM (df (self w)) t (tfilter (self w)) (test_results (self w)))
          (objects w) (logged w).
Definition with_tfilter (w : World) (s : Series) : World :=
  mkWorld (mkPM (df (self w)) (trans (self w)) s (test_results (self w)))
          (objects w) (logged w).

(** A dictionary after the items of another were written into it. *)
Definition dict_update (t : gmap string (list label))
    (items : list (string * list label)) : gmap string (list label) :=
  foldl (λ m kv, <[kv.1 := kv.2]> m) t items.

(** The columns a key selects after [add_dataframe]: all of them for None,
    the column of that name for a string. *)
Definition selected (key : option string) (n : label) : bool :=
  match key with
  | None => true
  | Some s => bool_decide (n = LStr s)
  end.

(** The increment [check_increment] compares with the bounds at row [i] of a
    column: the value less the value [periods] rows before, NaN where there
    is no such row; its absolute value when asked for. *)
Definition increment_at (periods : Z) (absolute_value : bool)
    (col : list float) (i : nat) : float :=
  let j := Z.of_nat i - periods in
  let δ := match col !! i with
           | Some x =>
               if decide (0 ≤ j)
               then match col !! Z.to_nat j with
                    | Some y => fsub x y
                    | None => NaN
                    end
               else NaN
           | None => NaN
           end in
  if absolute_value then fabs δ else δ.

(** ** Concrete engines, for the examples *)

(** One choice of the external behaviour: [str] writes whole numbers in
    decimal (the bounds of the examples are Python ints), equal timestamps
    keep their order in a sort; the examples ask pandas for no slice on an
    unsorted index, no normalisation, no resampling that finds an empty
    bucket and no comparison with a list. *)
Definition demo_str (x : pyval) : string :=
  match x with
  | PNone => "None"
  | PStr s => s
  | PNum (Fin q) => pretty (Qfloor q)
  | PNum NaN => "nan"
  | PNum PosInf => "inf"
  | PNum NegInf => "-inf"
  | PList _ => "[]"
  | PDict _ => "{}"
  end.

(** A sort that keeps equal timestamps in their order of appearance. *)
Fixpoint insert_row (x : Z * nat) (l : list (Z * nat)) : list (Z * nat) :=
  match l with
  | [] => [x]
  | y :: l' => if x.1 <=? y.1 then x :: l else y :: insert_row x l'
  end.
Definition demo_argsort (idx : list Z) : list nat :=
  (foldr insert_row [] (imap (λ i t, (t, i)) idx)).*2.

Definition demo_extern : Extern := {|
  py_str := demo_str;
  unsorted_slice := λ _ _ _, Raise KeyError;
  rolling_normalize := λ d _, d;
  global_normalize := λ d, d;
  resample_count_zero := λ idx _, mkDF idx [(LInt 0, map (λ _, false) idx)];
  argsort := demo_argsort;
  compare_listlike := λ _ _ _, Raise ValueError
|}.

(** Timestamps at whole seconds, whole-number values. *)
Definition sec (n : Z) : Z := n * 1000000000.
Definition num (n : Z) : float := Fin (inject_Z n).

(** Column A leaves the range [0, 10] at the third sample; column B never
    moves. *)
Definition demo_df : DataFrame float :=
  mkDF [sec 0; sec 1; sec 2; sec 3; sec 4]
       [(LStr "A", [num 1; num 2; num 15; num 10; num 0]);
        (LStr "B", [num 5; num 5; num 5; num 5; num 5])].

Definition demo_trans : gmap string (list label) :=
  <["A" := [LStr "A"]]> (<["B" := [LStr "B"]]> ∅).

Definition demo_pm : PerformanceMonitoring := mkPM demo_df demo_trans [] [].

(** The caller holds one list, at reference 0. *)
Definition demo_world (bound : list pyval) : World :=
  mkWorld demo_pm (<[0%nat := bound]> ∅) [].

(** A failure matrix over the same axes. *)
Definition demo_mask : DataFrame bool :=
  mkDF [sec 0; sec 1; sec 2; sec 3; sec 4]
       [(LStr "A", [true; true; false; true; false]);
        (LStr "B", [false; false; true; true; true])].

(** The sub-table of key "B". *)
Definition demo_B : DataFrame float :=
  mkDF [sec 0; sec 1; sec 2; sec 3; sec 4]
       [(LStr "B", [num 5; num 5; num 5; num 5; num 5])].

(** An engine that has recorded one interval on column A. *)
Definition demo_interval : TestResult :=
  mkResult (LStr "A") (sec 2) (sec 3) 2 "Data > upper bound, 10".
Definition recorded_world : World :=
  mkWorld (mkPM demo_df demo_trans [] [demo_interval]) ∅ [].

(** An engine without data. *)
Definition empty_world : World :=
  mkWorld (mkPM (mkDF [] []) ∅ [] []) (<[0%nat := [PNone; PNone]]> ∅) [].

(** Two samples two seconds apart: no duplicate, one grid point missing. *)
Definition gap_world : World :=
  mkWorld (mkPM (mkDF [sec 0; sec 2] [(LStr "A", [num 1; num 2])]) ∅ [] [])
          ∅ [].

(** Samples out of order, none duplicated. *)
Definition unsorted_world : World :=
  mkWorld (mkPM (mkDF [sec 1; sec 0] [(LStr "A", [num 1; num 2])]) ∅ [] [])
          ∅ [].

(** Column A entirely absent beside a column B with data. *)
Definition absent_world : World :=
  mkWorld (mkPM (mkDF [sec 0; sec 1; sec 2]
                      [(LStr "A", [NaN; NaN; NaN]);
                       (LStr "B", [num 1; num 9; num 2])])
                (<["A" := [LStr "A"]]> ∅) [] [])
          (<[0%nat := [PNone; PNum (num 5)]]> ∅) [].

(** Nothing but absent cells. *)
Definition null_world : World :=
  mkWorld (mkPM (mkDF [sec 0; sec 1] [(LStr "A", [NaN; NaN])])
                (<["A" := [LStr "A"]]> ∅) [] [])
          (<[0%nat := [PNone; PNum (num 5)]]> ∅) [].

(** The windows of the constant column B that end at seconds 1 to 4 are
    flagged by a lower bound of 1; the one that ends at second 1 has its
    minimum and its maximum at second 0. *)
Definition demo_flagged : DataFrame bool :=
  mkDF [sec 0; sec 1; sec 2; sec 3; sec 4]
       [(LStr "B", [false; true; true; true; true])].
Definition demo_marked : DataFrame bool :=
  mkDF [sec 0; sec 1; sec 2; sec 3; sec 4]
       [(LStr "B", [true; true; true; true; false])].

(** One choice of what pandas does when frames are merged: the examples
    merge into an engine without data only, and index a table only by a mask
    over its own axes. *)
Definition demo_pandas : Pandas := {|
  combine_first := λ a b, if empty b then Ok a else Raise ValueError;
  where_unaligned := λ _ _, Raise ValueError
|}.

(** A table without rows, and one that holds nothing but NaN. *)
Definition no_rows : DataFrame float := mkDF [] [(LStr "A", [])].
Definition all_nan : DataFrame float :=
  mkDF [sec 0; sec 1] [(LStr "A", [NaN; NaN])].

(** A time filter given as a frame with an index of its own: it lets the
    first three rows through. *)
Definition demo_filter : DataFrame bool :=
  mkDF [7; 8; 9; 10; 11] [(LInt 0, [true; true; true; false; false])].

(** The constant column B again, sampled a millisecond apart in September
    2020: no float64 holds these timestamps. *)
Definition late_B : DataFrame float :=
  mkDF [1600000000001000000; 1600000000002000000; 1600000000003000000;
        1600000000004000000]
       [(LStr "B", [num 5; num 5; num 5; num 5])].
Definition late_world : World :=
  mkWorld (mkPM late_B (<["B" := [LStr "B"]]> ∅) [] [])
          (<[0%nat := [PNum (num 1); PNone]]> ∅) [].

(** * The monad *)

Section monad.
Context {A B : Type}.
Implicit Types (m : M A) (k : A → M B) (w : World).

Lemma bind_unfold m k w :
  (m ≫= k) w =
  match m w with
  | (Ok a, w') => k a w'
  | (Raise e, w') => (Raise e, w')
  end.
Proof. reflexivity. Qed.

Lemma bind_Ok m k w a w' : m w = (Ok a, w') → (m ≫= k) w = k a w'.
Proof. intros Hm. by rewrite bind_unfold, Hm. Qed.

Lemma bind_Raise m k w e w' :
  m w = (Raise e, w') → (m ≫= k) w = (Raise e, w').
Proof. intros Hm. by rewrite bind_unfold, Hm. Qed.

Lemma bind_lift_Ok (r : res A) k w a : r = Ok a → (lift r ≫= k) w = k a w.
Proof. by intros ->. Qed.
End monad.

Lemma with_results_nil w : with_results w [] = w.
Proof.
  destruct w as [[d t f r] o l]. unfold with_results. simpl.
  by rewrite app_nil_r.
Qed.

Lemma with_results_app w new new' :
  with_results (with_results w new) new' = with_results w (new ++ new').
Proof. unfold with_results. simpl. by rewrite app_assoc. Qed.

Lemma append_result_run r w : append_result r w = (Ok tt, with_results w [r]).
Proof. reflexivity. Qed.

(** * Block extraction *)

Section where_from.
Implicit Types (r : list bool) (off i j : nat).

Lemma where_from_S off r : where_from (S off) r = map S (where_from off r).
Proof.
  revert off. induction r as [|[] r IH]; intros off; simpl; auto.
  by rewrite IH.
Qed.

Lemma elem_of_where_from j off r :
  j ∈ where_from off r ↔ ∃ i, j = (off + i)%nat ∧ r !! i = Some true.
Proof.
  revert off. induction r as [|b r IH]; intros off; simpl.
  - split; [by intros ?%elem_of_nil | by intros (i & _ & ?)].
  - assert (j ∈ where_from (S off) r ↔
            ∃ i, j = (off + S i)%nat ∧ r !! i = Some true) as Htl.
    { rewrite IH. split; intros (i & -> & ?); exists i; split; auto; lia. }
    destruct b.
    + rewrite elem_of_cons, Htl. split.
      * intros [-> | (i & -> & ?)]; [exists 0%nat | exists (S i)]; split; auto; lia.
      * intros ([|i] & -> & Hi); [left; lia | right; exists i; auto].
    + rewrite Htl. split.
      * intros (i & -> & ?). exists (S i). auto.
      * intros ([|i] & -> & Hi); [done | exists i; auto].
Qed.

Lemma length_where_from off r : length (where_from off r) = count_true r.
Proof.
  unfold count_true. revert off.
  induction r as [|[] r IH]; intros off; simpl; auto.
Qed.
End where_from.

Section rows.
Implicit Types (r t : list bool) (x y : bool).

Lemma start_nans_row_cons2 x y t :
  start_nans_row (x :: y :: t) =
  x :: (negb x && y) :: tail (start_nans_row (y :: t)).
Proof. reflexivity. Qed.

Lemma stop_nans_row_cons2 x y t :
  stop_nans_row (x :: y :: t) = (x && negb y) :: stop_nans_row (y :: t).
Proof. reflexivity. Qed.

Lemma start_nans_row_lookup r i :
  start_nans_row r !! i = Some true ↔
  r !! i = Some true ∧ (i = 0%nat ∨ r !! pred i = Some false).
Proof.
  revert i. induction r as [|x r IH]; intros i.
  - destruct i as [|[|i]]; simpl; naive_solver.
  - destruct r as [|y t].
    + destruct i as [|[|i]]; simpl; naive_solver.
    + rewrite start_nans_row_cons2.
      destruct i as [|[|i]].
      * simpl. naive_solver.
      * simpl. destruct x, y; simpl; naive_solver.
      * specialize (IH (S i)). simpl in *. rewrite IH. naive_solver.
Qed.

Lemma stop_nans_row_lookup r j :
  stop_nans_row r !! j = Some true ↔
  r !! j = Some true ∧ (S j = length r ∨ r !! S j = Some false).
Proof.
  revert j. induction r as [|x r IH]; intros j.
  - destruct j as [|[|j]]; simpl; naive_solver.
  - destruct r as [|y t].
    + destruct j as [|[|j]]; simpl; naive_solver.
    + rewrite stop_nans_row_cons2.
      destruct j as [|j].
      * simpl. destruct x, y; simpl; naive_solver.
      * specialize (IH j). simpl in *. rewrite IH.
        split; intros [? [?|?]]; split; auto; left; lia.
Qed.
End rows.

Section runs.
Implicit Types (r t : list bool) (bs : list (nat * nat)).

Lemma runs_false t : runs (false :: t) = map shift (runs t).
Proof. reflexivity. Qed.

Lemma runs_true t :
  runs (true :: t) =
  match runs t with
  | (0%nat, e) :: bs => (0%nat, S e) :: map shift bs
  | bs => (0%nat, 0%nat) :: map shift bs
  end.
Proof. simpl. by destruct (runs t) as [|[[|s] e] bs]. Qed.

Lemma runs_true_head t : ∃ e bs, runs (true :: t) = (0%nat, e) :: bs.
Proof. rewrite runs_true. destruct (runs t) as [|[[|s] e] bs]; eauto. Qed.

Lemma runs_false_head t :
  Forall (λ p, (1 ≤ p.1)%nat) (runs (false :: t)).
Proof.
  rewrite runs_false. apply Forall_forall. intros p.
  rewrite list_elem_of_fmap. intros ([s e] & -> & _). simpl. lia.
Qed.

(** The starts and the stops found by the shifted comparison are the two
    projections of the scan. *)
Lemma where_start_stop r :
  where_from 0 (start_nans_row r) = (runs r).*1 ∧
  where_from 0 (stop_nans_row r) = (runs r).*2.
Proof.
  induction r as [|x r [IH1 IH2]]; [done|].
  destruct r as [|y t]; [by destruct x|].
  rewrite start_nans_row_cons2, stop_nans_row_cons2.
  change (start_nans_row (y :: t))
    with (y :: tail (start_nans_row (y :: t))) in IH1.
  remember (tail (start_nans_row (y :: t))) as T eqn:HT. clear HT.
  remember (stop_nans_row (y :: t)) as P eqn:HP. clear HP.
  assert (∀ bs, (map shift bs).*1 = map S bs.*1) as E1.
  { intros bs. rewrite <- !list_fmap_compose. done. }
  assert (∀ bs, (map shift bs).*2 = map S bs.*2) as E2.
  { intros bs. rewrite <- !list_fmap_compose. done. }
  destruct x.
  - destruct y.
    + destruct (runs_true_head t) as (e & bs & Hr).
      rewrite runs_true, Hr. rewrite Hr in IH1, IH2.
      cbn [where_from negb andb fmap list_fmap fst snd] in *.
      injection IH1 as IH1.
      rewrite (where_from_S 1 T), IH1, (where_from_S 0 P), IH2, E1, E2. done.
    + pose proof (runs_false_head t) as Hh.
      rewrite runs_true.
      cbn [where_from negb andb] in *.
      rewrite (where_from_S 1 T), IH1, (where_from_S 0 P), IH2.
      destruct (runs (false :: t)) as [|[[|s] e] bs] eqn:Hr.
      * done.
      * apply Forall_cons_1 in Hh as [Hh _]. simpl in Hh. lia.
      * change ((S (S s), S e) :: map shift bs) with (map shift ((S s, e) :: bs)).
        cbn [fmap list_fmap fst snd]. rewrite E1, E2. done.
  - rewrite runs_false. rewrite E1, E2, <- IH1, <- IH2.
    cbn [where_from negb andb].
    rewrite (where_from_S 0 P).
    split; [|done]. destruct y; cbn [where_from]; by rewrite ?(where_from_S 1), ?(where_from_S 0).
Qed.

Lemma separated_shift lo bs :
  separated lo bs → separated (S lo) (map shift bs).
Proof.
  revert lo. induction bs as [|[s e] bs IH]; intros lo; simpl; [done|].
  intros (? & ? & ?). repeat split; [lia..|]. by apply IH.
Qed.

Lemma separated_weaken lo lo' bs :
  (lo' ≤ lo)%nat → separated lo bs → separated lo' bs.
Proof. destruct bs as [|[s e] bs]; simpl; [done|]. intros ? (? & ? & ?). repeat split; auto; lia. Qed.

Lemma runs_separated r : separated 0 (runs r).
Proof.
  induction r as [|[] r IH].
  - done.
  - rewrite runs_true. destruct (runs r) as [|[[|s] e] bs]; simpl in *.
    + done.
    + destruct IH as (_ & _ & IH). repeat split; [lia..|].
      by apply (separated_shift (S (S e))).
    + destruct IH as (_ & ? & IH). repeat split; [lia..|].
      by apply (separated_shift (S (S e))).
  - rewrite runs_false. eapply separated_weaken; [|by apply separated_shift]. lia.
Qed.

Lemma separated_lookup lo bs k k' s e s' e' :
  separated lo bs → (k < k')%nat →
  bs !! k = Some (s, e) → bs !! k' = Some (s', e') →
  (lo ≤ s ∧ s ≤ e ∧ S e < s' ∧ s' ≤ e')%nat.
Proof.
  revert lo k k'. induction bs as [|[s0 e0] bs IH]; intros lo k k' Hsep Hk; [done|].
  destruct Hsep as (? & ? & Hsep).
  destruct k' as [|k']; [lia|]. destruct k as [|k]; simpl.
  - intros [= -> ->] Hk'. clear IH Hk.
    assert (S (S e) ≤ s' ∧ s' ≤ e')%nat; [|lia].
    revert Hsep Hk'. generalize (S (S e)). clear.
    revert k'. induction bs as [|[s1 e1] bs IH]; intros k' lo; [done|].
    intros (? & ? & Hsep). destruct k' as [|k']; simpl.
    + intros [= -> ->]. lia.
    + intros Hk'. specialize (IH _ _ Hsep Hk'). lia.
  - intros H1 H2. specialize (IH (S (S e0)) k k' Hsep ltac:(lia) H1 H2). lia.
Qed.

Lemma separated_elem lo bs s e :
  separated lo bs → (s, e) ∈ bs → (lo ≤ s ∧ s ≤ e)%nat.
Proof.
  revert lo. induction bs as [|[s0 e0] bs IH]; intros lo; [by intros _ ?%elem_of_nil|].
  intros (? & ? & Hsep) [[= -> ->]|Hin]%elem_of_cons; [lia|].
  specialize (IH _ Hsep Hin). lia.
Qed.

Lemma elem_of_shift bs s e :
  (s, e) ∈ map shift bs ↔ ∃ s0 e0, s = S s0 ∧ e = S e0 ∧ (s0, e0) ∈ bs.
Proof.
  rewrite list_elem_of_fmap. split.
  - intros ([s0 e0] & [= -> ->] & ?). eauto.
  - intros (s0 & e0 & -> & -> & ?). by exists (s0, e0).
Qed.

(** Every cell of a run is true, and a run ends inside the column. *)
Lemma runs_cells r s e i :
  (s, e) ∈ runs r → (s ≤ i ≤ e)%nat → r !! i = Some true.
Proof.
  revert s e i. induction r as [|[] r IH]; intros s e i.
  - by intros ?%elem_of_nil.
  - rewrite runs_true. destruct (runs r) as [|[[|s0] e0] bs] eqn:Hr.
    + intros [= -> ->]%list_elem_of_singleton ?. by replace i with 0%nat by lia.
    + intros [[= -> ->]|Hin]%elem_of_cons Hi.
      * destruct i as [|i]; [done|]. simpl. apply (IH 0%nat e0); [left|lia].
      * apply elem_of_shift in Hin as (s1 & e1 & -> & -> & Hin).
        destruct i as [|i]; [lia|]. simpl. apply (IH s1 e1); [by right|lia].
    + intros [[= -> ->]|Hin]%elem_of_cons Hi.
      * by replace i with 0%nat by lia.
      * change ((S (S s0), S e0) :: map shift bs) with (map shift ((S s0, e0) :: bs)) in Hin.
        apply elem_of_shift in Hin as (s1 & e1 & -> & -> & Hin).
        destruct i as [|i]; [lia|]. simpl. by apply (IH s1 e1); [|lia].
  - rewrite runs_false. intros (s1 & e1 & -> & -> & Hin)%elem_of_shift Hi.
    destruct i as [|i]; [lia|]. simpl. apply (IH s1 e1); [done|lia].
Qed.

(** Every true cell lies in a run. *)
Lemma runs_cover r i :
  r !! i = Some true → ∃ s e, (s, e) ∈ runs r ∧ (s ≤ i ≤ e)%nat.
Proof.
  revert i. induction r as [|x r IH]; intros i; [done|].
  destruct x.
  - destruct i as [|i]; intros Hi; simpl in Hi.
    + destruct (runs_true_head r) as (e & bs & Hr).
      exists 0%nat, e. rewrite Hr. split; [left|lia].
    + apply IH in Hi as (s & e & Hin & Hi). rewrite runs_true.
      destruct (runs r) as [|[[|s0] e0] bs] eqn:Hr.
      * by apply elem_of_nil in Hin.
      * apply elem_of_cons in Hin as [[= -> ->]|Hin].
        -- exists 0%nat, (S e0). split; [left|lia].
        -- exists (S s), (S e). split; [|lia].
           right. apply elem_of_shift. eauto.
      * exists (S s), (S e). split; [|lia]. right.
        change ((S (S s0), S e0) :: map shift bs)
          with (map shift ((S s0, e0) :: bs)).
        apply elem_of_shift. eauto.
  - destruct i as [|i]; [done|]. intros Hi; simpl in Hi.
    apply IH in Hi as (s & e & Hin & Hi). rewrite runs_false.
    exists (S s), (S e). split; [|lia]. apply elem_of_shift. eauto.
Qed.

Lemma sum_lengths_cons s e bs :
  sum_lengths ((s, e) :: bs) = (e - s + 1 + sum_lengths bs)%nat.
Proof. reflexivity. Qed.

Lemma sum_lengths_shift bs : sum_lengths (map shift bs) = sum_lengths bs.
Proof.
  induction bs as [|[s e] bs IH]; [done|].
  change (map shift ((s, e) :: bs)) with ((S s, S e) :: map shift bs).
  rewrite !sum_lengths_cons, IH. lia.
Qed.

Lemma count_true_cons x r :
  count_true (x :: r) = ((if x then 1 else 0) + count_true r)%nat.
Proof. by destruct x. Qed.

Lemma runs_sum r : sum_lengths (runs r) = count_true r.
Proof.
  induction r as [|[] r IH]; [done| |]; rewrite count_true_cons, <- IH.
  - rewrite runs_true.
    destruct (runs r) as [|[[|s0] e0] bs]; [done| |].
    + rewrite !sum_lengths_cons, sum_lengths_shift. lia.
    + change ((S (S s0), S e0) :: map shift bs) with (map shift ((S s0, e0) :: bs)).
      by rewrite sum_lengths_cons, sum_lengths_shift.
  - rewrite runs_false, sum_lengths_shift. done.
Qed.
End runs.

Section matrix.
Implicit Types (m : list (list bool)) (mask : DataFrame bool).

Lemma np_where_start ci m :
  np_where_from ci (map start_nans_row m) =
  map (λ x, (x.1, x.2.1)) (col_runs_from ci m).
Proof.
  revert ci. induction m as [|r m IH]; intros ci; [done|].
  cbn [map np_where_from col_runs_from].
  rewrite IH, map_app. f_equal.
  rewrite (proj1 (where_start_stop r)).
  rewrite <- !list_fmap_compose. done.
Qed.

Lemma np_where_stop ci m :
  np_where_from ci (map stop_nans_row m) =
  map (λ x, (x.1, x.2.2)) (col_runs_from ci m).
Proof.
  revert ci. induction m as [|r m IH]; intros ci; [done|].
  cbn [map np_where_from col_runs_from].
  rewrite IH, map_app. f_equal.
  rewrite (proj2 (where_start_stop r)).
  rewrite <- !list_fmap_compose. done.
Qed.

Lemma elem_of_np_where_from ci m c i :
  (c, i) ∈ np_where_from ci m ↔
  ∃ k r, c = (ci + k)%nat ∧ m !! k = Some r ∧ r !! i = Some true.
Proof.
  revert ci. induction m as [|r m IH]; intros ci; simpl.
  - split; [by intros ?%elem_of_nil | by intros (? & ? & _ & ? & _)].
  - rewrite elem_of_app, IH, list_elem_of_fmap. split.
    + intros [(j & [= -> ->] & Hj) | (k & r' & -> & ? & ?)].
      * apply elem_of_where_from in Hj as (i' & -> & ?).
        exists 0%nat, r. split; [lia|done].
      * exists (S k), r'. split; [lia|done].
    + intros ([|k] & r' & -> & Hk & Hi); simpl in Hk.
      * left. injection Hk as ->. exists i. split; [f_equal; lia|].
        apply elem_of_where_from. by exists i.
      * right. exists k, r'. split; [lia|done].
Qed.

Lemma zip_fmap_same {A B C} (f : A → B) (g : A → C) (l : list A) :
  zip (map f l) (map g l) = map (λ x, (f x, g x)) l.
Proof. induction l; simpl; by f_equal. Qed.

(** What the four lists of [block] hold, entry by entry. *)
Lemma find_blocks_entries mask b :
  find_blocks mask = Ok b →
  block_entries b =
    map (λ x, ((x.2.1, x.1), (x.2.2, x.1)))
        (col_runs_from 0 (map snd (columns mask))) ∧
  zip (Start_Row b) (Start_Col b) =
    map (λ x, (x.2, x.1)) (np_where (map start_nans_row (map snd (columns mask)))) ∧
  zip (Stop_Row b) (Stop_Col b) =
    map (λ x, (x.2, x.1)) (np_where (map stop_nans_row (map snd (columns mask)))).
Proof.
  unfold find_blocks. case_decide; [done|]. intros [= <-].
  unfold block_entries. cbn [Start_Row Start_Col Stop_Row Stop_Col].
  unfold np_where. rewrite !zip_fmap_same.
  split; [|done].
  rewrite np_where_start, np_where_stop.
  rewrite <- !list_fmap_compose, zip_fmap_same. done.
Qed.

Lemma col_runs_from_lookup ci m k c s e :
  col_runs_from ci m !! k = Some (c, (s, e)) →
  ∃ r, (ci ≤ c)%nat ∧ m !! (c - ci)%nat = Some r ∧ (s, e) ∈ runs r.
Proof.
  revert ci k. induction m as [|r m IH]; intros ci k; [done|].
  cbn [col_runs_from]. intros [Hk|Hk]%lookup_app_Some.
  - apply list_lookup_fmap_Some in Hk as (p & [= -> <-] & Hp).
    exists r. rewrite Nat.sub_diag. split; [lia|]. split; [done|].
    by eapply list_elem_of_lookup_2.
  - destruct Hk as [_ Hk]. apply IH in Hk as (r' & ? & Hr' & ?).
    exists r'. split; [lia|]. split; [|done].
    replace (c - ci)%nat with (S (c - S ci)) by lia. done.
Qed.

Lemma col_runs_from_elem ci m c r s e :
  m !! c = Some r → (s, e) ∈ runs r →
  ((ci + c)%nat, (s, e)) ∈ col_runs_from ci m.
Proof.
  revert ci c. induction m as [|r0 m IH]; intros ci c; [done|].
  cbn [col_runs_from]. rewrite elem_of_app. destruct c as [|c]; simpl.
  - intros [= ->] Hin. left. rewrite Nat.add_0_r.
    apply list_elem_of_fmap. by exists (s, e).
  - intros Hc Hin. right. replace (ci + S c)%nat with (S ci + c)%nat by lia.
    by apply IH.
Qed.

Lemma col_runs_from_ordered ci m k k' c s e c' s' e' :
  (k < k')%nat →
  col_runs_from ci m !! k = Some (c, (s, e)) →
  col_runs_from ci m !! k' = Some (c', (s', e')) →
  (c < c')%nat ∨ (c = c' ∧ S e < s')%nat.
Proof.
  revert ci k k'. induction m as [|r m IH]; intros ci k k' Hlt; [done|].
  cbn [col_runs_from]. rewrite !lookup_app_Some, length_map.
  intros [Hk|[Hge Hk]] [Hk'|[Hge' Hk']].
  - apply list_lookup_fmap_Some in Hk as (p & [= -> <-] & Hp).
    apply list_lookup_fmap_Some in Hk' as (p' & [= -> <-] & Hp').
    right. split; [done|].
    pose proof (separated_lookup 0 (runs r) k k' _ _ _ _
                  (runs_separated r) Hlt Hp Hp'). lia.
  - apply list_lookup_fmap_Some in Hk as (p & [= -> <-] & Hp).
    apply col_runs_from_lookup in Hk' as (? & ? & _). left. lia.
  - apply lookup_lt_Some in Hk'. rewrite length_map in Hk'. lia.
  - eapply (IH (S ci)); [|done..]. lia.
Qed.

Lemma sum_lengths_app bs bs' :
  sum_lengths (bs ++ bs') = (sum_lengths bs + sum_lengths bs')%nat.
Proof.
  induction bs as [|[s e] bs IH]; [done|].
  rewrite <- app_comm_cons, !sum_lengths_cons, IH. lia.
Qed.

Lemma col_runs_from_sum ci m :
  sum_lengths (col_runs_from ci m).*2 = sum_list (map count_true m).
Proof.
  revert ci. induction m as [|r m IH]; intros ci; [done|].
  cbn [col_runs_from map sum_list_with]. rewrite fmap_app.
  rewrite sum_lengths_app, IH. unfold id at 1. f_equal.
  rewrite <- list_fmap_compose, <- (runs_sum r). f_equal.
  by rewrite list_fmap_id.
Qed.
End matrix.

Section extraction.
Implicit Types (mask : DataFrame bool).

Lemma cell_np_mask {A} (d : DataFrame A) c i v :
  cell d c i = Some v ↔
  ∃ r, map snd (columns d) !! c = Some r ∧ r !! i = Some v.
Proof.
  unfold cell. change (map snd (columns d)) with (snd <$> columns d).
  rewrite list_lookup_fmap.
  destruct (columns d !! c) as [[n col]|]; simpl; naive_solver.
Qed.

Lemma frame_ok_np_mask {A} (d : DataFrame A) c r :
  frame_ok d → map snd (columns d) !! c = Some r →
  length r = length (index d).
Proof.
  intros Hok Hr. change (map snd (columns d)) with (snd <$> columns d) in Hr.
  apply list_lookup_fmap_Some in Hr as (col & -> & Hc).
  unfold frame_ok in Hok. rewrite Forall_lookup in Hok. by eapply Hok.
Qed.

Lemma frame_no_rows_sum mask :
  frame_ok mask → index mask = [] → sum_mask mask = 0%nat.
Proof.
  unfold frame_ok, sum_mask. intros Hok Hnil. rewrite Hnil in Hok.
  induction Hok as [|[n col] cols Hcol _ IH]; [done|].
  simpl in *. destruct col; [|done]. by rewrite IH.
Qed.

Lemma sum_mask_rows mask :
  frame_ok mask → sum_mask mask ≠ 0%nat → index mask ≠ [].
Proof. intros Hok Hs Hnil. by apply Hs, frame_no_rows_sum. Qed.

Lemma elem_of_swap_np_where m i c :
  (i, c) ∈ map (λ x : nat * nat, (x.2, x.1)) (np_where m) ↔
  ∃ r, m !! c = Some r ∧ r !! i = Some true.
Proof.
  unfold np_where. rewrite list_elem_of_fmap. split.
  - intros ([c' i'] & [= -> ->] & Hin).
    apply elem_of_np_where_from in Hin as (k & r & -> & ? & ?). eauto.
  - intros (r & ? & ?). exists (c, i). split; [done|].
    apply elem_of_np_where_from. by exists c, r.
Qed.

Lemma run_lengths_sum (xs : list (nat * (nat * nat))) :
  Forall (λ x, (x.2.1 ≤ x.2.2)%nat) xs →
  foldr Z.add 0
    (map run_length (map (λ x, ((x.2.1, x.1), (x.2.2, x.1))) xs)) =
  Z.of_nat (sum_lengths xs.*2).
Proof.
  induction 1 as [|[c [s e]] xs Hx _ IH]; [done|].
  cbn [map foldr fmap list_fmap snd]. rewrite sum_lengths_cons.
  cbn [map] in IH. rewrite IH. unfold run_length. simpl in *. lia.
Qed.

Lemma col_runs_from_le ci m :
  Forall (λ x, (x.2.1 ≤ x.2.2)%nat) (col_runs_from ci m).
Proof.
  apply Forall_lookup. intros k [c [s e]] Hk.
  apply col_runs_from_lookup in Hk as (r & _ & _ & Hin).
  apply (separated_elem 0 _ _ _ (runs_separated r)) in Hin. simpl. lia.
Qed.
End extraction.

(** C1. For every boolean failure matrix the block-extraction step of
    [_append_test_results] yields, column by column, exactly the maximal
    contiguous runs of true cells.  A matrix without rows has no true cell, so
    the guard of line 165 returns before the extraction; on every other matrix
    the extraction succeeds and: a start is recorded at [(i, c)] iff the cell
    is true and is the first of its column or follows a false cell; a stop is
    recorded at [(j, c)] iff the cell is true and is the last of its column or
    precedes a false cell; the k-th start and the k-th stop lie in the same
    column and enclose true cells only; two runs of one column do not overlap;
    and the run lengths add up to the number of true cells. *)
Theorem find_blocks_maximal_runs (mask : DataFrame bool) :
  frame_ok mask →
  (index mask = [] → sum_mask mask = 0%nat) ∧
  (index mask ≠ [] →
   ∃ b, find_blocks mask = Ok b ∧
     (length (Start_Col b) = length (Start_Row b) ∧
      length (Stop_Row b) = length (Start_Row b) ∧
      length (Stop_Col b) = length (Start_Row b)) ∧
     (∀ i c, (i, c) ∈ zip (Start_Row b) (Start_Col b) ↔
        cell mask c i = Some true ∧
        (i = 0%nat ∨ cell mask c (pred i) = Some false)) ∧
     (∀ j c, (j, c) ∈ zip (Stop_Row b) (Stop_Col b) ↔
        cell mask c j = Some true ∧
        (S j = length (index mask) ∨ cell mask c (S j) = Some false)) ∧
     (∀ k s c e c',
        block_entries b !! k = Some ((s, c), (e, c')) →
        c = c' ∧ (s ≤ e)%nat ∧
        ∀ i, (s ≤ i ≤ e)%nat → cell mask c i = Some true) ∧
     (∀ k k' s c e c' s' d e' d',
        (k < k')%nat →
        block_entries b !! k = Some ((s, c), (e, c')) →
        block_entries b !! k' = Some ((s', d), (e', d')) →
        c = d → (e < s')%nat) ∧
     foldr Z.add 0 (map run_length (block_entries b)) =
       Z.of_nat (sum_mask mask)).
Proof.
  intros Hok. split; [by apply frame_no_rows_sum|]. intros Hrows.
  destruct (find_blocks mask) as [b|] eqn:Hb;
    [|unfold find_blocks in Hb; by case_decide].
  exists b. split; [done|].
  destruct (find_blocks_entries _ _ Hb) as (Hent & Hstart & Hstop).
  set (M := map snd (columns mask)) in *.
  split; [|split; [|split; [|split; [|split]]]].
  - unfold find_blocks in Hb. case_decide; [done|]. injection Hb as <-.
    cbn [Start_Row Start_Col Stop_Row Stop_Col]. fold M.
    unfold np_where. rewrite np_where_start, np_where_stop.
    by rewrite !length_fmap.
  - intros i c. rewrite Hstart, elem_of_swap_np_where. split.
    + intros (r' & Hr' & Hi).
      change (map start_nans_row M) with (start_nans_row <$> M) in Hr'.
      apply list_lookup_fmap_Some in Hr' as (r & -> & Hr).
      apply start_nans_row_lookup in Hi as [Hi Hp].
      split; [apply cell_np_mask; eauto|].
      destruct Hp as [?|Hp]; [by left|right]. apply cell_np_mask; eauto.
    + intros [(r & Hr & Hi)%cell_np_mask Hp]. fold M in Hr.
      exists (start_nans_row r). split.
      { change (map start_nans_row M) with (start_nans_row <$> M).
        by rewrite list_lookup_fmap, Hr. }
      apply start_nans_row_lookup. split; [done|].
      destruct Hp as [?|(r' & Hr' & Hp)%cell_np_mask]; [by left|right].
      fold M in Hr'. congruence.
  - intros j c. rewrite Hstop, elem_of_swap_np_where. split.
    + intros (r' & Hr' & Hj).
      change (map stop_nans_row M) with (stop_nans_row <$> M) in Hr'.
      apply list_lookup_fmap_Some in Hr' as (r & -> & Hr).
      apply stop_nans_row_lookup in Hj as [Hj Hp].
      split; [apply cell_np_mask; eauto|].
      destruct Hp as [Hp|Hp]; [left|right; apply cell_np_mask; eauto].
      by rewrite Hp, (frame_ok_np_mask mask c r).
    + intros [(r & Hr & Hj)%cell_np_mask Hp]. fold M in Hr.
      exists (stop_nans_row r). split.
      { change (map stop_nans_row M) with (stop_nans_row <$> M).
        by rewrite list_lookup_fmap, Hr. }
      apply stop_nans_row_lookup. split; [done|].
      destruct Hp as [Hp|(r' & Hr' & Hp)%cell_np_mask]; [left|right].
      * by rewrite Hp, (frame_ok_np_mask mask c r).
      * fold M in Hr'. congruence.
  - intros k s c e c'. rewrite Hent.
    intros ([c0 [s0 e0]] & [= -> -> -> ->] & Hk)%list_lookup_fmap_Some.
    apply col_runs_from_lookup in Hk as (r & _ & Hr & Hin).
    rewrite Nat.sub_0_r in Hr.
    split; [done|]. split.
    + apply (separated_elem 0 _ _ _ (runs_separated r)) in Hin. lia.
    + intros i Hi. apply cell_np_mask. exists r. split; [done|].
      by eapply runs_cells.
  - intros k k' s c e c' s' d e' d' Hlt. rewrite Hent.
    intros ([c0 [s0 e0]] & [= -> -> -> ->] & Hk)%list_lookup_fmap_Some.
    intros ([c1 [s1 e1]] & [= -> -> -> ->] & Hk')%list_lookup_fmap_Some.
    intros ->.
    destruct (col_runs_from_ordered _ _ _ _ _ _ _ _ _ _ Hlt Hk Hk'); lia.
  - rewrite Hent, run_lengths_sum by apply col_runs_from_le.
    rewrite col_runs_from_sum. unfold sum_mask, M.
    by rewrite <- list_fmap_compose.
Qed.

(** * The recording loop *)

Section record.
Implicit Types (b : block) (w : World) (sub_df : Axes).

Lemma block_entries_lookup b i sr sc er ec :
  block_entries b !! i = Some ((sr, sc), (er, ec)) ↔
  Start_Row b !! i = Some sr ∧ Start_Col b !! i = Some sc ∧
  Stop_Row b !! i = Some er ∧ Stop_Col b !! i = Some ec.
Proof. unfold block_entries. rewrite !lookup_zip_Some. naive_solver. Qed.

(** One turn of the loop on a block whose labels exist. *)
Lemma record_block_run sub_df b msg k umo i e w :
  block_entries b !! i = Some e →
  record_block sub_df b msg k umo i w =
  if decide (k ≤ run_length e)
  then match record_of sub_df umo msg e with
       | Some r => (Ok tt, with_results w [r])
       | None => (Raise IndexError, w)
       end
  else (Ok tt, w).
Proof.
  destruct e as [[sr sc] [er ec]].
  intros (Hsr & Hsc & Her & Hec)%block_entries_lookup.
  unfold record_block, record_of, run_length, py_index. simpl.
  unfold lift, mbind, M_bind. rewrite Her, Hsr.
  case_decide; [|done]. destruct umo; simpl.
  - destruct (ax_index sub_df !! sr); simpl; [|done].
    by destruct (ax_index sub_df !! er).
  - rewrite Hsc. destruct (ax_columns sub_df !! sc); simpl; [|done].
    destruct (ax_index sub_df !! sr); simpl; [|done].
    by destruct (ax_index sub_df !! er).
Qed.

Lemma for_each_record sub_df b msg k umo (es : list ((nat * nat) * (nat * nat)))
    off new w :
  (∀ i e, es !! i = Some e → block_entries b !! (off + i)%nat = Some e) →
  mapM (record_of sub_df umo msg)
       (List.filter (λ e, bool_decide (k ≤ run_length e)) es) = Some new →
  for_each (seq off (length es)) (record_block sub_df b msg k umo) w =
  (Ok tt, with_results w new).
Proof.
  revert off new w. induction es as [|e es IH]; intros off new w Hes Hnew.
  - injection Hnew as <-. by rewrite with_results_nil.
  - cbn [length seq for_each]. rewrite bind_unfold.
    rewrite (record_block_run _ _ _ _ _ _ e).
    2:{ specialize (Hes 0%nat e eq_refl). by rewrite Nat.add_0_r in Hes. }
    assert (∀ i e', es !! i = Some e' →
                    block_entries b !! (S off + i)%nat = Some e') as Hes'.
    { intros i e' Hi. specialize (Hes (S i) e' Hi).
      by replace (S off + i)%nat with (off + S i)%nat by lia. }
    cbn [List.filter] in Hnew.
    destruct (decide (k ≤ run_length e)) as [Hk|Hk].
    + rewrite bool_decide_eq_true_2 in Hnew by done.
      cbn [mapM] in Hnew.
      destruct (record_of sub_df umo msg e) as [r|]; [|done].
      cbn [mbind option_bind] in Hnew.
      destruct (mapM _ _) as [rest|] eqn:Hrest; [|done].
      injection Hnew as <-.
      rewrite (IH (S off) rest _ Hes' eq_refl).
      by rewrite with_results_app.
    + rewrite bool_decide_eq_false_2 in Hnew by done.
      by apply IH.
Qed.
End record.

Section append.
Implicit Types (mask : DataFrame bool) (w : World) (msg : string) (k : Z).
Implicit Types (umo : bool) (sub_df : Axes) (b : block).

Lemma getitem_cols_length {A} (cols : list (label * list A)) names found :
  getitem_cols cols names = Ok found → (length names ≤ length found)%nat.
Proof.
  revert found. induction names as [|n names IH]; intros found; simpl.
  - intros [= <-]. done.
  - destruct (List.filter _ cols) as [|c cs]; [done|].
    destruct (getitem_cols cols names) as [rest|]; [|done].
    intros [= <-]. specialize (IH rest eq_refl).
    simpl. rewrite length_app. lia.
Qed.

(** A block found in a well-shaped mask lies inside the mask. *)
Lemma block_entries_bounds mask b i e :
  frame_ok mask → find_blocks mask = Ok b →
  block_entries b !! i = Some e →
  (e.1.2 < length (columns mask) ∧ e.1.1 ≤ e.2.1 ∧
   e.2.1 < length (index mask))%nat.
Proof.
  intros Hok Hb. destruct (find_blocks_entries _ _ Hb) as (-> & _ & _).
  intros ([c [s e']] & -> & Hk)%list_lookup_fmap_Some. simpl.
  apply col_runs_from_lookup in Hk as (r & _ & Hr & Hin).
  rewrite Nat.sub_0_r in Hr.
  pose proof (separated_elem 0 _ _ _ (runs_separated r) Hin) as [_ Hle].
  pose proof (runs_cells r s e' e' Hin ltac:(lia)) as He.
  apply lookup_lt_Some in He.
  rewrite (frame_ok_np_mask mask c r Hok Hr) in He.
  apply lookup_lt_Some in Hr. rewrite length_map in Hr. lia.
Qed.

Lemma length_block_entries mask b :
  find_blocks mask = Ok b → length (block_entries b) = length (Start_Col b).
Proof.
  intros Hb. unfold find_blocks in Hb. case_decide; [done|].
  injection Hb as <-. unfold block_entries. simpl.
  rewrite !length_zip, !length_fmap. unfold np_where.
  rewrite np_where_start, np_where_stop, !length_map. lia.
Qed.

Lemma record_of_Timesteps sub_df umo msg e r :
  record_of sub_df umo msg e = Some r → Timesteps r = run_length e.
Proof.
  unfold record_of. intros Hr.
  destruct (if umo then _ else _); simpl in Hr; [|done].
  destruct (ax_index sub_df !! e.1.1); simpl in Hr; [|done].
  destruct (ax_index sub_df !! e.2.1); simpl in Hr; [|done].
  by injection Hr as <-.
Qed.

(** What a call does on a mask whose labels the dataset knows. *)
Lemma append_test_results_run mask mask' msg k umo w sub_df :
  apply_tfilter (tfilter (self w)) mask = Ok mask' →
  frame_ok mask' →
  (if umo then sub_df = axes mask'
   else ∃ d, getitem (df (self w)) (colnames mask') = Ok d ∧ sub_df = axes d ∧
             (length (index mask') ≤ length (index d))%nat) →
  ∃ new,
    _append_test_results mask msg k umo w = (Ok tt, with_results w new) ∧
    (sum_mask mask' = 0%nat → new = []) ∧
    (sum_mask mask' ≠ 0%nat →
     ∃ b, find_blocks mask' = Ok b ∧
       mapM (record_of sub_df umo msg)
            (List.filter (λ e, bool_decide (k ≤ run_length e))
                         (block_entries b)) = Some new).
Proof.
  intros Hf Hok Hsub.
  unfold _append_test_results.
  rewrite (bind_Ok get_self _ w (self w) w eq_refl).
  rewrite (bind_lift_Ok _ _ _ _ Hf).
  destruct (decide (sum_mask mask' = 0%nat)) as [Hz|Hnz].
  { exists []. rewrite with_results_nil. repeat split; auto; done. }
  pose proof (sum_mask_rows _ Hok Hnz) as Hrows.
  destruct (find_blocks mask') as [b|] eqn:Hb;
    [|unfold find_blocks in Hb; by case_decide].
  set (es := List.filter (λ e, bool_decide (k ≤ run_length e)) (block_entries b)).
  assert (∀ e, e ∈ block_entries b → is_Some (record_of sub_df umo msg e)) as Hrec.
  { intros e (i & Hi)%list_elem_of_lookup_1.
    destruct (block_entries_bounds _ _ _ _ Hok Hb Hi) as (Hc & Hse & He).
    unfold record_of. destruct umo.
    - subst sub_df. simpl.
      destruct (lookup_lt_is_Some_2 (index mask') e.1.1 ltac:(lia)) as [t0 ->].
      destruct (lookup_lt_is_Some_2 (index mask') e.2.1 ltac:(lia)) as [t1 ->].
      simpl. eauto.
    - destruct Hsub as (d & Hd & -> & Hlen). simpl.
      unfold getitem in Hd.
      destruct (getitem_cols (columns (df (self w))) (colnames mask'))
        as [cols|] eqn:Hcols; [|done].
      injection Hd as <-. simpl in *.
      apply getitem_cols_length in Hcols.
      unfold colnames in Hcols. rewrite length_fmap in Hcols.
      destruct (lookup_lt_is_Some_2 (cols.*1) e.1.2) as [n Hn].
      { rewrite length_fmap. lia. }
      unfold colnames. simpl. rewrite Hn. simpl.
      destruct (lookup_lt_is_Some_2 (index (df (self w))) e.1.1 ltac:(lia)) as [t0 ->].
      destruct (lookup_lt_is_Some_2 (index (df (self w))) e.2.1 ltac:(lia)) as [t1 ->].
      simpl. eauto. }
  assert (is_Some (mapM (record_of sub_df umo msg) es)) as [new Hnew].
  { apply mapM_is_Some, Forall_forall. intros e He.
    apply Hrec. unfold es in He. apply list_elem_of_In, filter_In in He as [He _].
    by apply list_elem_of_In. }
  exists new. split; [|split; [done|]].
  - destruct umo.
    + subst sub_df. rewrite bind_unfold. cbn [mret M_ret].
      rewrite (bind_lift_Ok _ _ _ b eq_refl).
      rewrite <- (length_block_entries _ _ Hb).
      by apply (for_each_record _ _ _ _ _ (block_entries b) 0%nat).
    + destruct Hsub as (d & Hd & -> & Hlen).
      rewrite bind_unfold, (bind_lift_Ok _ _ _ _ Hd). cbn [mret M_ret].
      rewrite (bind_lift_Ok _ _ _ b eq_refl).
      rewrite <- (length_block_entries _ _ Hb).
      by apply (for_each_record _ _ _ _ _ (block_entries b) 0%nat).
  - intros _. by exists b.
Qed.

(** What a call appends does not depend on what was recorded before. *)
Lemma append_test_results_after mask mask' msg k umo w sub_df rs new :
  apply_tfilter (tfilter (self w)) mask = Ok mask' →
  frame_ok mask' →
  (if umo then sub_df = axes mask'
   else ∃ d, getitem (df (self w)) (colnames mask') = Ok d ∧ sub_df = axes d ∧
             (length (index mask') ≤ length (index d))%nat) →
  _append_test_results mask msg k umo w = (Ok tt, with_results w new) →
  _append_test_results mask msg k umo (with_results w rs) =
    (Ok tt, with_results (with_results w rs) new).
Proof.
  intros Hf Hok Hsub Hrun.
  destruct (append_test_results_run _ _ msg k _ _ _ Hf Hok Hsub)
    as (n1 & Hr1 & Hz1 & Hnz1).
  destruct (append_test_results_run mask mask' msg k umo (with_results w rs)
              sub_df Hf Hok Hsub) as (n2 & Hr2 & Hz2 & Hnz2).
  assert (new = n1) as ->.
  { rewrite Hrun in Hr1. injection Hr1 as Hr1.
    by apply app_inv_head in Hr1. }
  assert (n1 = n2) as ->; [|done].
  destruct (decide (sum_mask mask' = 0%nat)) as [Hs|Hs].
  - by rewrite (Hz1 Hs), (Hz2 Hs).
  - destruct (Hnz1 Hs) as (b1 & Hb1 & Hn1).
    destruct (Hnz2 Hs) as (b2 & Hb2 & Hn2).
    rewrite Hb1 in Hb2. injection Hb2 as <-. congruence.
Qed.

(** With [min_failures <= 1] no run is discarded. *)
Lemma filter_min_failures_all mask b k :
  frame_ok mask → find_blocks mask = Ok b → k ≤ 1 →
  List.filter (λ e, bool_decide (k ≤ run_length e)) (block_entries b) =
  block_entries b.
Proof.
  intros Hok Hb Hk. apply forallb_filter_id, forallb_forall.
  intros e (i & Hi)%list_elem_of_In%list_elem_of_lookup_1.
  destruct (block_entries_bounds _ _ _ _ Hok Hb Hi) as (_ & Hse & _).
  apply bool_decide_eq_true. unfold run_length. lia.
Qed.

(** The intervals appended by a call span true cells of the filtered mask
    only, and with [min_failures <= 1] every true cell is spanned. *)
Lemma append_test_results_spans mask mask' msg k umo w sub_df :
  apply_tfilter (tfilter (self w)) mask = Ok mask' →
  frame_ok mask' →
  (if umo then sub_df = axes mask'
   else ∃ d, getitem (df (self w)) (colnames mask') = Ok d ∧ sub_df = axes d ∧
             (length (index mask') ≤ length (index d))%nat) →
  ∃ new,
    _append_test_results mask msg k umo w = (Ok tt, with_results w new) ∧
    (∀ r, r ∈ new →
       ∃ c s e, record_of sub_df umo msg ((s, c), (e, c)) = Some r ∧
                (s ≤ e)%nat ∧
                ∀ i, (s ≤ i ≤ e)%nat → cell mask' c i = Some true) ∧
    (k ≤ 1 → ∀ c i, cell mask' c i = Some true →
       ∃ r s e, r ∈ new ∧ (s ≤ i ≤ e)%nat ∧
                record_of sub_df umo msg ((s, c), (e, c)) = Some r).
Proof.
  intros Hf Hok Hsub.
  destruct (append_test_results_run _ _ msg k _ _ _ Hf Hok Hsub)
    as (new & Hrun & Hz & Hnz).
  exists new. split; [done|].
  destruct (decide (sum_mask mask' = 0%nat)) as [Hs|Hs].
  { rewrite (Hz Hs). split; [by intros r ?%elem_of_nil|].
    intros _ c i (r & Hr & Hi)%cell_np_mask. exfalso.
    unfold sum_mask in Hs.
    change (map snd (columns mask')) with (snd <$> columns mask') in Hr.
    apply list_lookup_fmap_Some in Hr as (col & -> & Hc).
    apply list_elem_of_lookup_2 in Hc.
    assert (count_true col.2 = 0%nat) as Hcol.
    { clear -Hs Hc. induction (columns mask') as [|x xs IH];
        [by apply elem_of_nil in Hc|].
      simpl in Hs. apply elem_of_cons in Hc as [->|Hc]; [lia|].
      apply IH; [lia|done]. }
    rewrite <- (runs_sum col.2) in Hcol.
    destruct (runs_cover _ _ Hi) as (s & e & Hin & _).
    destruct (runs col.2) as [|[s0 e0] bs]; [by apply elem_of_nil in Hin|].
    rewrite sum_lengths_cons in Hcol. lia. }
  destruct (Hnz Hs) as (b & Hb & Hnew).
  destruct (find_blocks_entries _ _ Hb) as (Hent & _ & _).
  apply mapM_Some in Hnew. split.
  - intros r (p & Hp)%list_elem_of_lookup_1.
    destruct (Forall2_lookup_r _ _ _ _ _ Hnew Hp) as (e & He & Hrec).
    apply list_elem_of_lookup_2, list_elem_of_In, filter_In in He as [He _].
    apply list_elem_of_In in He. rewrite Hent in He.
    apply list_elem_of_fmap in He as ([c [s e']] & -> & Hin).
    apply list_elem_of_lookup_1 in Hin as (q & Hq).
    apply col_runs_from_lookup in Hq as (col & _ & Hcol & Hin).
    rewrite Nat.sub_0_r in Hcol. simpl in Hrec.
    exists c, s, e'. split; [done|]. split.
    + apply (separated_elem 0 _ _ _ (runs_separated col)) in Hin. lia.
    + intros i Hi. apply cell_np_mask. exists col. split; [done|].
      by eapply runs_cells.
  - intros Hk c i (col & Hcol & Hi)%cell_np_mask.
    rewrite (filter_min_failures_all _ _ _ Hok Hb Hk) in Hnew.
    destruct (runs_cover _ _ Hi) as (s & e & Hin & Hse).
    pose proof (col_runs_from_elem 0 _ _ _ _ _ Hcol Hin) as Hel.
    assert (((s, c), (e, c)) ∈ block_entries b) as Hbe.
    { rewrite Hent. apply list_elem_of_fmap.
      by exists (c, (s, e)). }
    apply list_elem_of_lookup_1 in Hbe as (p & Hp).
    destruct (Forall2_lookup_l _ _ _ _ _ Hnew Hp) as (r & Hr & Hrec).
    exists r, s, e. split; [by eapply list_elem_of_lookup_2|done].
Qed.
End append.

(** C2. For every failure matrix and every [min_failures = k],
    [_append_test_results] (on a mask whose labels the dataset knows)
    returns, and what it appends is exactly the record of each extracted run
    whose inclusive length [stop - start + 1] is at least [k], in the order of
    extraction: a run is recorded iff it is that long.  No recorded interval
    has length below [k], and with [k <= 1] every extracted run is recorded. *)
Theorem append_test_results_min_failures (mask mask' : DataFrame bool)
    (msg : string) (k : Z) (umo : bool) (w : World) (sub_df : Axes) :
  apply_tfilter (tfilter (self w)) mask = Ok mask' →
  frame_ok mask' →
  (if umo then sub_df = axes mask'
   else ∃ d, getitem (df (self w)) (colnames mask') = Ok d ∧ sub_df = axes d ∧
             (length (index mask') ≤ length (index d))%nat) →
  ∃ new,
    _append_test_results mask msg k umo w = (Ok tt, with_results w new) ∧
    Forall (λ r, k ≤ Timesteps r) new ∧
    (sum_mask mask' = 0%nat → new = []) ∧
    (sum_mask mask' ≠ 0%nat →
     ∃ b, find_blocks mask' = Ok b ∧
       mapM (record_of sub_df umo msg)
            (List.filter (λ e, bool_decide (k ≤ run_length e))
                         (block_entries b)) = Some new ∧
       (k ≤ 1 → length new = length (block_entries b))).
Proof.
  intros Hf Hok Hsub.
  destruct (append_test_results_run _ _ msg k _ _ _ Hf Hok Hsub)
    as (new & Hrun & Hz & Hnz).
  exists new. split; [done|].
  assert (sum_mask mask' ≠ 0%nat →
          ∃ b, find_blocks mask' = Ok b ∧
            mapM (record_of sub_df umo msg)
                 (List.filter (λ e, bool_decide (k ≤ run_length e))
                              (block_entries b)) = Some new ∧
            Forall (λ r, k ≤ Timesteps r) new ∧
            (k ≤ 1 → length new = length (block_entries b))) as Hfull.
  { intros Hs. destruct (Hnz Hs) as (b & Hb & Hnew). exists b.
    split; [done|]. split; [done|].
    pose proof Hnew as HF. apply mapM_Some in HF. split.
    - assert (Forall (λ e, k ≤ run_length e)
          (List.filter (λ e, bool_decide (k ≤ run_length e)) (block_entries b)))
        as Hes.
      { apply Forall_forall. intros e He.
        apply list_elem_of_In, filter_In in He as [_ He].
        by apply bool_decide_eq_true in He. }
      clear -HF Hes. induction HF as [|e r es' new' Hr _ IH]; [constructor|].
      apply Forall_cons_1 in Hes as [He Hes]. constructor; [|by apply IH].
      by rewrite (record_of_Timesteps _ _ _ _ _ Hr).
    - intros Hk. apply Forall2_length in HF. rewrite <- HF.
      by rewrite (filter_min_failures_all _ _ _ Hok Hb Hk). }
  destruct (decide (sum_mask mask' = 0%nat)) as [Hs|Hs].
  - rewrite (Hz Hs). split; [constructor|]. split; [done|]. by intros ?.
  - destruct (Hfull Hs) as (b & Hb & Hnew & Hmin & Hall).
    split; [done|]. split; [done|]. intros _. by exists b.
Qed.

(** * The aggregate mask *)

Section set_where.
Context {A : Type}.
Implicit Types (sel : list bool) (col : list A) (v : A).

Lemma length_set_where sel v col : length (set_where sel v col) = length col.
Proof.
  revert sel. induction col as [|x col IH]; intros [|b sel]; simpl; auto.
Qed.

Lemma set_where_idem sel v col :
  set_where sel v (set_where sel v col) = set_where sel v col.
Proof.
  revert sel. induction col as [|x col IH]; intros [|b sel]; simpl; auto.
  rewrite IH. by destruct b.
Qed.

Lemma set_where_comm sel sel' v col :
  set_where sel v (set_where sel' v col) =
  set_where sel' v (set_where sel v col).
Proof.
  revert sel sel'.
  induction col as [|x col IH]; intros [|b sel] [|b' sel']; simpl; auto.
  rewrite IH. by destruct b, b'.
Qed.

Lemma set_where_lookup sel v col i :
  set_where sel v col !! i =
  match sel !! i with
  | Some true => match col !! i with Some _ => Some v | None => None end
  | _ => col !! i
  end.
Proof.
  revert sel i. induction col as [|x col IH]; intros sel i.
  - destruct sel; simpl; rewrite ?lookup_nil; [done|].
    by destruct ((b :: sel) !! i) as [[]|].
  - destruct sel as [|b sel]; [done|].
    destruct i as [|i]; simpl; [by destruct b|apply IH].
Qed.

Lemma set_where_keeps sel v col i :
  col !! i = Some v → set_where sel v col !! i = Some v.
Proof.
  intros Hi. rewrite set_where_lookup, Hi. by destruct (sel !! i) as [[]|].
Qed.
End set_where.

Section punch.
Context `{Extern}.
Implicit Types (m : DataFrame bool) (r : TestResult) (pm : PerformanceMonitoring).

Lemma set_rows_col_absent {A} rows name (v : A) (d : DataFrame A) :
  name ∉ colnames d → set_rows_col rows name v d = d.
Proof.
  destruct d as [idx cols]. unfold set_rows_col, colnames. simpl.
  intros Hn. f_equal. induction cols as [|c cols IH]; [done|].
  simpl in *. apply not_elem_of_cons in Hn as [Hc Hn].
  rewrite bool_decide_eq_false_2 by done. by rewrite IH.
Qed.

(** The membership test of line 77 only saves work. *)
Lemma punch_columns m r :
  punch m r =
  mkDF (index m)
       (map (punch_col (rows_of (index m) r) (Variable_Name r)) (columns m)).
Proof.
  assert (∀ n, m = mkDF (index m) (map (punch_col None n) (columns m))) as Hid.
  { intros n. destruct m as [idx cols]. simpl. f_equal.
    induction cols; simpl; by f_equal. }
  unfold punch, rows_of. case_bool_decide as Hin.
  - destruct (loc_slice _ _ _) as [rows|e]; [reflexivity|apply Hid].
  - destruct (loc_slice _ _ _) as [rows|e]; [|apply Hid].
    rewrite <- (set_rows_col_absent rows _ false m Hin) at 1. reflexivity.
Qed.

Lemma punch_index m r : index (punch m r) = index m.
Proof. by rewrite punch_columns. Qed.

Lemma punch_col_comm o o' n n' c :
  punch_col o n (punch_col o' n' c) = punch_col o' n' (punch_col o n c).
Proof.
  destruct o as [rows|], o' as [rows'|]; simpl; try done.
  destruct c as [l col]. simpl.
  repeat (case_bool_decide; simpl); try done.
  by rewrite set_where_comm.
Qed.

Lemma punch_col_idem o n c : punch_col o n (punch_col o n c) = punch_col o n c.
Proof.
  destruct o as [rows|]; simpl; [|done]. destruct c as [l col]. simpl.
  repeat (case_bool_decide; simpl); try done.
  by rewrite set_where_idem.
Qed.

Lemma punch_comm m r r' : punch (punch m r) r' = punch (punch m r') r.
Proof.
  rewrite !punch_columns. simpl. f_equal.
  rewrite <- !list_fmap_compose. apply list_fmap_ext.
  intros _ c _. simpl. apply punch_col_comm.
Qed.

Lemma punch_idem m r r' :
  Variable_Name r' = Variable_Name r → Start_Time r' = Start_Time r →
  End_Time r' = End_Time r →
  punch (punch m r) r' = punch m r.
Proof.
  intros Hn Hs He. rewrite !punch_columns. simpl. f_equal.
  unfold rows_of. rewrite Hn, Hs, He.
  rewrite <- !list_fmap_compose. apply list_fmap_ext.
  intros _ c _. simpl. apply punch_col_idem.
Qed.

Lemma fold_punch_comm rs m r :
  punch (fold_left punch rs m) r = fold_left punch rs (punch m r).
Proof.
  revert m. induction rs as [|x rs IH]; intros m; simpl; [done|].
  by rewrite IH, punch_comm.
Qed.

Lemma fold_punch_absorb rs m r r' :
  r ∈ rs →
  Variable_Name r' = Variable_Name r → Start_Time r' = Start_Time r →
  End_Time r' = End_Time r →
  punch (fold_left punch rs m) r' = fold_left punch rs m.
Proof.
  intros Hin Hn Hs He. revert m.
  induction rs as [|x rs IH]; intros m; [by apply elem_of_nil in Hin|].
  simpl. apply elem_of_cons in Hin as [<-|Hin].
  - by rewrite fold_punch_comm, punch_idem.
  - by apply IH.
Qed.

Lemma punch_cell_false m r c i :
  cell m c i = Some false → cell (punch m r) c i = Some false.
Proof.
  rewrite punch_columns. unfold cell. simpl. rewrite list_lookup_fmap.
  destruct (columns m !! c) as [[l col]|]; simpl; [|done].
  intros Hi. unfold punch_col. destruct (rows_of _ _); [|done].
  simpl. case_bool_decide; simpl; [|done].
  by apply set_where_keeps.
Qed.

Lemma fold_punch_cell_false rs m c i :
  cell m c i = Some false → cell (fold_left punch rs m) c i = Some false.
Proof.
  revert m. induction rs as [|x rs IH]; intros m Hm; simpl; [done|].
  by apply IH, punch_cell_false.
Qed.

Lemma mask_run (w : World) :
  mask w =
  if empty (df (self w))
  then (Ok None, mkWorld (self w) (objects w)
                         (logged w ++ [(INFO, "Empty database")]))
  else (Ok (Some (aggregate_mask (self w))), w).
Proof.
  unfold mask. rewrite bind_unfold. cbn [get_self].
  by destruct (empty (df (self w))).
Qed.
End punch.

(** C3. The fold of the recorded intervals into the aggregate mask is
    idempotent and monotone: after a second copy of an interval already
    recorded (same variable name, start time and end time) is appended, the
    sequence of results is one longer and the mask read from the engine is the
    same; and whatever intervals are appended, a cell of the mask that was
    false (fail) is false afterwards. *)
Theorem mask_fold_idempotent `{Extern} (w : World) (r r' : TestResult)
    (new : list TestResult) :
  r ∈ test_results (self w) →
  Variable_Name r' = Variable_Name r →
  Start_Time r' = Start_Time r →
  End_Time r' = End_Time r →
  length (test_results (self (with_results w [r']))) =
    S (length (test_results (self w))) ∧
  (mask (with_results w [r'])).1 = (mask w).1 ∧
  (∀ m m' c i,
     (mask w).1 = Ok (Some m) →
     (mask (with_results w new)).1 = Ok (Some m') →
     cell m c i = Some false → cell m' c i = Some false).
Proof.
  intros Hin Hn Hs He. split; [|split].
  - simpl. rewrite length_app. simpl. lia.
  - rewrite !mask_run. simpl. destruct (empty _); [done|]. simpl.
    do 2 f_equal. unfold aggregate_mask. simpl.
    rewrite fold_left_app. simpl. by apply (fold_punch_absorb _ _ r).
  - intros m m' c i. rewrite !mask_run. simpl.
    destruct (empty _); [done|]. simpl. intros [= <-] [= <-].
    unfold aggregate_mask. simpl. rewrite fold_left_app.
    apply fold_punch_cell_false.
Qed.

(** C9. On an engine without data the [mask] property returns None, not an
    empty table, and reading [cleaned_data] raises; once data is loaded both
    return a table. *)
Theorem mask_none_without_data `{Extern} (w : World) :
  (empty (df (self w)) = true →
   (mask w).1 = Ok None ∧ (cleaned_data w).1 = Raise KeyError) ∧
  (empty (df (self w)) = false →
   (mask w).1 = Ok (Some (aggregate_mask (self w))) ∧
   (cleaned_data w).1 =
     Ok (frame_where (df (self w)) (aggregate_mask (self w)))).
Proof.
  split; intros He.
  - rewrite mask_run, He. split; [done|].
    unfold cleaned_data. rewrite bind_unfold, mask_run, He. done.
  - rewrite mask_run, He. split; [done|].
    unfold cleaned_data. rewrite bind_unfold, mask_run, He. done.
Qed.

(** * Frame rules *)

Section preserves.
Context (R : World → World → Prop).
Context (R_refl : ∀ w, R w w) (R_trans : ∀ w1 w2 w3, R w1 w2 → R w2 w3 → R w1 w3).

Lemma preserves_ret {A} (a : A) : preserves R (mret a).
Proof. intros w. apply R_refl. Qed.

Lemma preserves_lift {A} (r : res A) : preserves R (lift r).
Proof. intros w. apply R_refl. Qed.

Lemma preserves_raise {A} e : preserves R (@raise A e).
Proof. intros w. apply R_refl. Qed.

Lemma preserves_get_self : preserves R get_self.
Proof. intros w. apply R_refl. Qed.

Lemma preserves_bind {A B} (m : M A) (k : A → M B) :
  preserves R m → (∀ a, preserves R (k a)) → preserves R (m ≫= k).
Proof.
  intros Hm Hk w. rewrite bind_unfold. specialize (Hm w).
  destruct (m w) as [[a|e] w']; simpl in *; [|done].
  eapply R_trans; [done|apply Hk].
Qed.

Lemma preserves_for_each {A} (l : list A) (body : A → M unit) :
  (∀ x, preserves R (body x)) → preserves R (for_each l body).
Proof.
  intros Hb. induction l as [|x l IH]; simpl.
  - apply preserves_ret.
  - apply preserves_bind; auto.
Qed.
End preserves.

Section relations.
Lemma appends_only_refl w : appends_only w w.
Proof. split; [exists []; by rewrite app_nil_r|done]. Qed.

Lemma appends_only_trans w1 w2 w3 :
  appends_only w1 w2 → appends_only w2 w3 → appends_only w1 w3.
Proof.
  intros ([n1 H1] & ? & ?) ([n2 H2] & ? & ?). split; [|split; congruence].
  exists (n1 ++ n2). by rewrite H2, H1, app_assoc.
Qed.

Lemma same_df_refl w : same_df w w.
Proof. done. Qed.
Lemma same_df_trans w1 w2 w3 : same_df w1 w2 → same_df w2 w3 → same_df w1 w3.
Proof. unfold same_df. congruence. Qed.

Lemma same_objects_refl w : same_objects w w.
Proof. done. Qed.
Lemma same_objects_trans w1 w2 w3 :
  same_objects w1 w2 → same_objects w2 w3 → same_objects w1 w3.
Proof. unfold same_objects. congruence. Qed.
End relations.

Global Hint Resolve appends_only_refl appends_only_trans same_df_refl
  same_df_trans same_objects_refl same_objects_trans : core.

Create HintDb frame.

Global Hint Resolve preserves_ret preserves_lift preserves_raise
  preserves_get_self preserves_for_each : frame.
Global Hint Resolve appends_only_refl appends_only_trans same_df_refl
  same_df_trans same_objects_refl same_objects_trans : frame.

(** Splits a computation along its binds and branches. *)
Ltac frame_tac :=
  repeat (intros; cbv beta zeta;
    match goal with
    | |- preserves _ (mbind _ _) =>
        apply preserves_bind; [solve [eauto with frame]| |]
    | |- preserves _ (for_each _ _) =>
        apply preserves_for_each;
        [solve [eauto with frame]|solve [eauto with frame]|]
    | |- preserves _ (if ?c then _ else _) => destruct c
    | |- preserves _ (match ?x with _ => _ end) => destruct x
    | |- preserves _ _ => solve [eauto with frame]
    end).

Section primitives.
Lemma log_appends_only l msg : preserves appends_only (log l msg).
Proof. intros w. split; [exists []; simpl; by rewrite app_nil_r|done]. Qed.
Lemma log_same_df l msg : preserves same_df (log l msg).
Proof. by intros w. Qed.
Lemma log_same_objects l msg : preserves same_objects (log l msg).
Proof. by intros w. Qed.

Lemma append_result_appends_only r : preserves appends_only (append_result r).
Proof. intros w. split; [by exists [r]|done]. Qed.
Lemma append_result_same_df r : preserves same_df (append_result r).
Proof. by intros w. Qed.
Lemma append_result_same_objects r : preserves same_objects (append_result r).
Proof. by intros w. Qed.

Lemma set_df_appends_only d : preserves appends_only (set_df d).
Proof. intros w. split; [exists []; simpl; by rewrite app_nil_r|done]. Qed.
Lemma set_df_same_objects d : preserves same_objects (set_df d).
Proof. by intros w. Qed.

Lemma obj_len_preserves R ref : (∀ w, R w w) → preserves R (obj_len ref).
Proof. intros HR w. unfold obj_len. by destruct (objects w !! ref). Qed.
Lemma obj_get_preserves R ref i : (∀ w, R w w) → preserves R (obj_get ref i).
Proof. intros HR w. unfold obj_get. by destruct (objects w !! ref). Qed.

Lemma obj_set_appends_only ref i v : preserves appends_only (obj_set ref i v).
Proof.
  intros w. unfold obj_set. destruct (objects w !! ref); [|done].
  case_decide; [|apply appends_only_refl].
  split; [exists []; simpl; by rewrite app_nil_r|done].
Qed.
Lemma obj_set_same_df ref i v : preserves same_df (obj_set ref i v).
Proof.
  intros w. unfold obj_set. destruct (objects w !! ref); [|done].
  by case_decide.
Qed.

Lemma str_add_preserves R s key : (∀ w, R w w) → preserves R (str_add s key).
Proof. intros HR w. by destruct key. Qed.
End primitives.

Global Hint Resolve log_appends_only log_same_df log_same_objects
  append_result_appends_only append_result_same_df append_result_same_objects
  set_df_appends_only set_df_same_objects obj_len_preserves obj_get_preserves
  obj_set_appends_only obj_set_same_df str_add_preserves : frame.

Section composite.
Context `{Extern}.
Context (R : World → World → Prop).
Context (R_refl : ∀ w, R w w) (R_trans : ∀ w1 w2 w3, R w1 w2 → R w2 w3 → R w1 w3).
Context (R_log : ∀ l msg, preserves R (log l msg)).
Context (R_append : ∀ r, preserves R (append_result r)).

Local Hint Resolve R_refl R_trans R_log R_append : frame.

Lemma append_test_results_preserves mask msg k umo :
  preserves R (_append_test_results mask msg k umo).
Proof. unfold _append_test_results, record_block. frame_tac. Qed.

Lemma setup_data_preserves key : preserves R (_setup_data key).
Proof. unfold _setup_data. frame_tac. Qed.

Local Hint Resolve append_test_results_preserves setup_data_preserves : frame.

Lemma check_missing_preserves key k : preserves R (check_missing key k).
Proof. unfold check_missing. frame_tac. Qed.

Section with_set_df.
Context (R_set_df : ∀ d, preserves R (set_df d)).
Local Hint Resolve R_set_df : frame.

Lemma check_corrupt_preserves cv key k : preserves R (check_corrupt cv key k).
Proof. unfold check_corrupt. frame_tac. Qed.

Lemma check_timestamp_preserves fr s e k ex :
  preserves R (check_timestamp fr s e k ex).
Proof. unfold check_timestamp. frame_tac. Qed.
End with_set_df.

Section with_obj_set.
Context (R_obj_set : ∀ ref i v, preserves R (obj_set ref i v)).
Local Hint Resolve R_obj_set : frame.

Lemma normalize_bound_preserves ref : preserves R (normalize_bound ref).
Proof. unfold normalize_bound. frame_tac. Qed.

Local Hint Resolve normalize_bound_preserves : frame.

Lemma generate_test_results_preserves d ref k prefix :
  preserves R (_generate_test_results d ref k prefix).
Proof. unfold _generate_test_results. frame_tac. Qed.

Local Hint Resolve generate_test_results_preserves : frame.

Lemma check_range_preserves ref key k : preserves R (check_range ref key k).
Proof. unfold check_range. frame_tac. Qed.

Lemma check_increment_preserves ref key inc a k :
  preserves R (check_increment ref key inc a k).
Proof. unfold check_increment. frame_tac. Qed.

Lemma check_delta_preserves ref key win a k :
  preserves R (check_delta ref key win a k).
Proof. unfold check_delta, delta_bound. frame_tac. Qed.

Lemma check_outlier_preserves ref key win a k :
  preserves R (check_outlier ref key win a k).
Proof. unfold check_outlier. frame_tac. Qed.
End with_obj_set.
End composite.

(** * Resolving the sub-table *)

Section setup.
Context `{Extern}.
Implicit Types (w : World) (key : option string).

Lemma setup_data_Some key w d :
  subtable (self w) key = Some d → _setup_data key w = (Ok (Some d), w).
Proof.
  unfold subtable, _setup_data. rewrite bind_unfold. cbn [get_self].
  destruct (empty (df (self w))); [done|].
  destruct key as [k|]; [|by intros [= <-]].
  destruct (trans (self w) !! k) as [names|]; simpl; [|done].
  destruct (getitem (df (self w)) names); [|done]. by intros [= <-].
Qed.

Lemma setup_data_None key w :
  subtable (self w) key = None →
  ∃ msg, _setup_data key w = (Ok None, add_log w [msg]).
Proof.
  unfold subtable, _setup_data. rewrite bind_unfold. cbn [get_self].
  destruct (empty (df (self w))); [by eexists|].
  destruct key as [k|]; [|done].
  destruct (trans (self w) !! k) as [names|]; simpl; [|by eexists].
  destruct (getitem (df (self w)) names); [done|]. by eexists.
Qed.

(** An empty dataset or an unknown key leaves no sub-table. *)
Lemma subtable_unresolved (pm : PerformanceMonitoring) key :
  (empty (df pm) = true ∨
   ∃ k, key = Some k ∧
        (trans pm !! k = None ∨
         ∃ names e, trans pm !! k = Some names ∧
                    getitem (df pm) names = Raise e)) →
  subtable pm key = None.
Proof.
  unfold subtable. intros [->|(k & -> & Hk)]; [done|].
  destruct (empty (df pm)); [done|].
  destruct Hk as [->|(names & e & -> & Hg)]; [done|].
  simpl. by rewrite Hg.
Qed.

Lemma add_log_add_log w l l' : add_log (add_log w l) l' = add_log w (l ++ l').
Proof. unfold add_log. simpl. by rewrite app_assoc. Qed.

Lemma log_run l msg w : log l msg w = (Ok tt, add_log w [(l, msg)]).
Proof. reflexivity. Qed.
End setup.

(** C7. Calling any detector on an empty dataset, or with a translation key
    that is unknown (absent from the dictionary, or naming a column the
    dataset does not have), is a no-op: the call returns without raising, the
    engine (dataset, recorded intervals, filter, dictionary) and the caller's
    objects are as before, and only log lines were added. *)
Theorem detector_noop_unresolved `{Extern} (det : detector) (w : World) :
  (empty (df (self w)) = true ∨
   ∃ k, key_of det = Some k ∧
        (trans (self w) !! k = None ∨
         ∃ names e, trans (self w) !! k = Some names ∧
                    getitem (df (self w)) names = Raise e)) →
  ∃ msgs, call det w = (Ok tt, add_log w msgs).
Proof.
  intros Hun. pose proof (subtable_unresolved _ _ Hun) as Hsub.
  destruct det; cbn [call key_of] in *.
  1:{ (* check_timestamp *)
      destruct Hun as [He|(k & ? & _)]; [|done].
      unfold check_timestamp. rewrite bind_unfold, log_run.
      rewrite bind_unfold. cbn [get_self add_log self]. rewrite He.
      rewrite log_run, add_log_add_log. by eexists. }
  all: match goal with
       | |- ∃ _, ?c _ = _ =>
           let h := eval cbv delta [check_range check_increment check_delta
                     check_outlier check_missing check_corrupt] in c in
           change c with h
       end; cbv beta.
  all: rewrite bind_unfold, log_run, bind_unfold.
  all: match goal with
       | |- context [_setup_data ?k ?w1] =>
           destruct (setup_data_None k w1 Hsub) as [msg ->]
       end.
  all: rewrite add_log_add_log; by eexists.
Qed.

(** * The loop over the caller's bound *)

Section normalize.
Context `{Extern}.
Implicit Types (w : World) (ref : nat) (l pre suf : list pyval).

Lemma set_obj_set_obj w ref l l' :
  set_obj (set_obj w ref l) ref l' = set_obj w ref l'.
Proof. unfold set_obj. simpl. by rewrite insert_insert_eq. Qed.

Lemma set_obj_id w ref l : objects w !! ref = Some l → set_obj w ref l = w.
Proof.
  intros Hl. destruct w as [pm objs lg]. unfold set_obj. simpl in *.
  by rewrite insert_id.
Qed.

Lemma normalized_idem x : normalized (normalized x) = normalized x.
Proof. unfold normalized. by destruct (py_in x none_list) eqn:Hx; [|rewrite Hx]. Qed.

Lemma normalize_loop ref pre suf w :
  objects w !! ref = Some (pre ++ suf) →
  for_each (seq (length pre) (length suf))
    (λ i, x ← obj_get ref i;
          if py_in x none_list then obj_set ref i PNone else mret tt) w =
  (Ok tt, set_obj w ref (pre ++ (normalized <$> suf))).
Proof.
  revert pre w. induction suf as [|x suf IH]; intros pre w Hw.
  - simpl. by rewrite set_obj_id.
  - cbn [length seq for_each]. rewrite bind_unfold, bind_unfold.
    unfold obj_get at 1. rewrite Hw. unfold py_index.
    rewrite lookup_app_r, Nat.sub_diag by lia. cbn [lookup list_lookup].
    assert (pre ++ x :: suf = (pre ++ [x]) ++ suf) as Hsplit
      by (by rewrite <- app_assoc).
    assert (∀ y, length (pre ++ [y]) = S (length pre)) as Hlen
      by (intros y; rewrite length_app; simpl; lia).
    unfold normalized at 1. cbn [fmap list_fmap].
    destruct (py_in x none_list) eqn:Hx.
    + unfold obj_set. rewrite Hw.
      rewrite decide_True by (rewrite length_app; simpl; lia).
      rewrite <- (Hlen PNone).
      rewrite (IH (pre ++ [PNone])).
      * change (mkWorld (self w) ?o (logged w))
          with (set_obj w ref (<[length pre:=PNone]> (pre ++ x :: suf))).
        rewrite set_obj_set_obj, <- app_assoc. reflexivity.
      * simpl. rewrite lookup_insert_eq. f_equal.
        rewrite <- app_assoc. simpl.
        replace (length pre) with (length pre + 0)%nat by lia.
        by rewrite insert_app_r.
    + cbn [mret M_ret]. rewrite <- (Hlen x).
      rewrite (IH (pre ++ [x])) by by rewrite <- app_assoc.
      by rewrite <- app_assoc.
Qed.

Lemma normalize_bound_run ref l w :
  objects w !! ref = Some l →
  normalize_bound ref w = (Ok tt, set_obj w ref (normalized <$> l)).
Proof.
  intros Hl. unfold normalize_bound. rewrite bind_unfold.
  unfold obj_len. rewrite Hl. by apply (normalize_loop ref []).
Qed.

(** What follows the loop does not touch the caller's objects. *)
Lemma normalize_then {A} (tail : M A) ref l w :
  objects w !! ref = Some l →
  preserves same_objects tail →
  objects ((normalize_bound ref ;; tail) w).2 =
    <[ref := normalized <$> l]> (objects w) ∧
  (normalize_bound ref ;; tail) (set_obj w ref (normalized <$> l)) =
    (normalize_bound ref ;; tail) w.
Proof.
  intros Hl Htail. rewrite !bind_unfold.
  rewrite (normalize_bound_run ref l w Hl).
  rewrite (normalize_bound_run ref (normalized <$> l)).
  2:{ simpl. by rewrite lookup_insert_eq. }
  rewrite set_obj_set_obj.
  assert (normalized <$> (normalized <$> l) = normalized <$> l) as ->.
  { rewrite <- list_fmap_compose. apply list_fmap_ext.
    intros _ x _. apply normalized_idem. }
  split; [|done]. apply (Htail (set_obj w ref (normalized <$> l))).
Qed.
End normalize.

Section bound.
Context `{Extern}.

Lemma set_obj_add_log w ref l msgs :
  add_log (set_obj w ref l) msgs = set_obj (add_log w msgs) ref l.
Proof. reflexivity. Qed.

Local Hint Resolve append_test_results_preserves : frame.

Lemma generate_tail_objects d ref k prefix l w :
  objects w !! ref = Some l →
  objects (_generate_test_results d ref k prefix w).2 =
    <[ref := normalized <$> l]> (objects w) ∧
  _generate_test_results d ref k prefix (set_obj w ref (normalized <$> l)) =
    _generate_test_results d ref k prefix w.
Proof.
  intros Hl. unfold _generate_test_results.
  apply normalize_then; [done|]. frame_tac.
Qed.

Lemma delta_bound_same_objects diff_df tmin tmax b cmp msg k :
  preserves same_objects (delta_bound diff_df tmin tmax b cmp msg k).
Proof. unfold delta_bound. frame_tac. Qed.
End bound.

Global Hint Resolve delta_bound_same_objects : frame.

(** C10. The [bound] argument of [check_range], [check_increment],
    [check_delta] and [check_outlier] is a reference to the caller's list, and
    whenever the detector gets as far as reading it (the key resolves on a
    dataset with data; for [check_increment] the sub-table is not entirely
    absent; for a rolling window the timestamps are in order and the window
    is shorter than 2^63 nanoseconds) the list is changed in
    place: every entry equal to one of the no-bound sentinels is overwritten
    with None, the other entries and the caller's other objects are kept.
    This holds whether the call then returns or raises, and the call behaves
    exactly as if the caller had passed the list already overwritten: the
    comparisons only see the overwritten entries. *)
Theorem bound_overwritten_in_place `{Extern} (det : detector) (w : World)
    (ref : nat) (l : list pyval) :
  bound_of det = Some ref →
  objects w !! ref = Some l →
  reads_bound (self w) det →
  objects (call det w).2 = <[ref := normalized <$> l]> (objects w) ∧
  call det (set_obj w ref (normalized <$> l)) = call det w.
Proof.
  intros Hb Hl Hreads.
  destruct det; cbn [bound_of] in Hb; try done; injection Hb as ->;
    cbn [call reads_bound] in *.
  - (* check_range *)
    destruct Hreads as [d Hd]. unfold check_range.
    rewrite !bind_unfold, !log_run, !bind_unfold.
    rewrite !(setup_data_Some key _ d) by done.
    rewrite set_obj_add_log.
    by apply (generate_tail_objects _ _ _ _ l (add_log w [_])).
  - (* check_increment *)
    destruct Hreads as (d & Hd & Hnull). unfold check_increment.
    rewrite !bind_unfold, !log_run, !bind_unfold.
    rewrite !(setup_data_Some key _ d) by done. rewrite Hnull.
    rewrite set_obj_add_log.
    by apply (generate_tail_objects _ _ _ _ l (add_log w [_])).
  - (* check_delta *)
    destruct Hreads as (d & Hd & Hmono & Hwin). unfold check_delta.
    rewrite !bind_unfold, !log_run, !bind_unfold.
    rewrite !(setup_data_Some key _ d) by done. rewrite Hmono.
    apply Z.leb_gt in Hwin. rewrite Hwin.
    cbn [negb]. rewrite set_obj_add_log.
    apply (normalize_then _ _ l (add_log w [_])); [done|].
    frame_tac.
  - (* check_outlier *)
    destruct Hreads as (d & Hd & Hwin). unfold check_outlier.
    rewrite !bind_unfold, !log_run, !bind_unfold.
    rewrite !(setup_data_Some key _ d) by done.
    rewrite set_obj_add_log.
    destruct window as [win|].
    + destruct Hwin as [?|(win' & [= <-] & Hmono & Hwin)]; [done|].
      rewrite Hmono. apply Z.leb_gt in Hwin. rewrite Hwin.
      cbn [negb]. rewrite !bind_unfold. cbn [mret M_ret].
      by apply (generate_tail_objects _ _ _ _ l (add_log w [_])).
    + rewrite !bind_unfold. cbn [mret M_ret].
      by apply (generate_tail_objects _ _ _ _ l (add_log w [_])).
Qed.

(** * What the detectors do to the dataset *)

Section dataset.
Context `{Extern}.

Lemma scrubbed_refl d : scrubbed d d.
Proof. repeat split. by left. Qed.

Lemma scrub_aligned_scrubbed d (m : DataFrame bool) :
  scrubbed d (scrub_aligned d m).
Proof.
  split; [done|]. split.
  - unfold colnames, scrub_aligned. simpl. rewrite <- list_fmap_compose.
    apply list_fmap_ext. intros _ c _. simpl.
    by destruct (List.filter _ (columns m)).
  - intros c i. unfold cell, scrub_aligned. simpl. rewrite list_lookup_fmap.
    destruct (columns d !! c) as [[n col]|]; simpl; [|by left].
    destruct (List.filter _ (columns m)) as [|k ?]; simpl; [by left|].
    rewrite set_where_lookup.
    destruct (k.2 !! i) as [[]|]; [|by left..].
    destruct (col !! i); [right; eauto|by left].
Qed.

Lemma colnames_scrub_same d (m : DataFrame bool) :
  colnames m = colnames d → colnames (scrub_same d m) = colnames d.
Proof.
  unfold colnames, scrub_same. simpl. generalize (columns m).
  induction (columns d) as [|c cols IH]; intros [|k ks] Hc; simpl;
    try done.
  injection Hc as _ Hc. f_equal. by apply IH.
Qed.

Lemma scrub_same_scrubbed d (m : DataFrame bool) :
  colnames m = colnames d → scrubbed d (scrub_same d m).
Proof.
  intros Hc. split; [done|]. split; [by apply colnames_scrub_same|].
  intros c i. unfold cell, scrub_same. simpl. rewrite lookup_zip_with.
  assert (colnames m !! c = colnames d !! c) as Hl by by rewrite Hc.
  unfold colnames in Hl. rewrite !list_lookup_fmap in Hl.
  destruct (columns d !! c) as [[n col]|]; simpl; [|by left].
  destruct (columns m !! c) as [k|]; simpl; [|done].
  rewrite set_where_lookup.
  destruct (k.2 !! i) as [[]|]; [|by left..].
  destruct (col !! i); [right; eauto|by left].
Qed.

Lemma scrub_scrubbed d (m : DataFrame bool) d' :
  scrub d m = Ok d' → scrubbed d d'.
Proof.
  unfold scrub. case_bool_decide as Hc.
  - intros [= <-]. by apply scrub_same_scrubbed.
  - case_bool_decide; [|done]. intros [= <-]. apply scrub_aligned_scrubbed.
Qed.

Local Hint Resolve append_test_results_preserves setup_data_preserves : frame.

Lemma check_corrupt_scrubs cv key k w :
  scrubbed (df (self w)) (df (self (check_corrupt cv key k w).2)).
Proof.
  unfold check_corrupt. rewrite bind_unfold, log_run, bind_unfold.
  pose proof (setup_data_preserves same_df same_df_refl same_df_trans
                log_same_df key (add_log w [(INFO, "Check for corrupt data")]))
    as Hs.
  destruct (_setup_data key _) as [[[d|]|e] w1]; unfold same_df in Hs;
    simpl in Hs; [|simpl; rewrite Hs; apply scrubbed_refl..].
  rewrite bind_unfold. cbn [get_self]. rewrite bind_unfold.
  set (m := fold_left _ cv _).
  destruct (scrub (df (self w1)) m) as [d'|e] eqn:Hscrub; cbn [lift];
    [|simpl; rewrite Hs; apply scrubbed_refl].
  rewrite bind_unfold.
  change (set_df d' w1)
    with (Ok tt, mkWorld (mkPM d' (trans (self w1))
                          (tfilter (self w1)) (test_results (self w1)))
                         (objects w1) (logged w1)).
  cbv beta iota.
  match goal with
  | |- scrubbed _ (df (self (_append_test_results ?a ?b ?c ?d ?w2).2)) =>
      pose proof (append_test_results_preserves same_df same_df_refl
                    same_df_trans append_result_same_df a b c d w2) as Ha
  end.
  unfold same_df in Ha. rewrite Ha. simpl. rewrite <- Hs.
  by eapply scrub_scrubbed.
Qed.
End dataset.

(** C5, as the code has it. Every detector only appends to the recorded
    intervals (none is removed or altered, and the translation dictionary and
    the time filter are kept), whether it returns or raises.  [check_range],
    [check_increment], [check_delta], [check_outlier] and [check_missing]
    leave the dataset as it was; [check_corrupt] only overwrites cells with
    NaN; [check_timestamp] is the one detector that may reshape the dataset
    (it sorts it, drops duplicated timestamps and, with exact times, reindexes
    it onto the expected grid). *)
Theorem detectors_frame `{Extern} (det : detector) (w : World) :
  appends_only w (call det w).2 ∧
  match det with
  | CheckTimestamp _ _ _ _ _ => True
  | CheckCorrupt _ _ _ => scrubbed (df (self w)) (df (self (call det w).2))
  | _ => df (self (call det w).2) = df (self w)
  end.
Proof.
  split.
  - destruct det; cbn [call].
    + apply check_timestamp_preserves; eauto with frame.
    + apply check_range_preserves; eauto with frame.
    + apply check_increment_preserves; eauto with frame.
    + apply check_delta_preserves; eauto with frame.
    + apply check_outlier_preserves; eauto with frame.
    + apply check_missing_preserves; eauto with frame.
    + apply check_corrupt_preserves; eauto with frame.
  - destruct det; cbn [call]; [done| | | | | |apply check_corrupt_scrubs].
    + apply (check_range_preserves same_df); eauto with frame.
    + apply (check_increment_preserves same_df); eauto with frame.
    + apply (check_delta_preserves same_df); eauto with frame.
    + apply (check_outlier_preserves same_df); eauto with frame.
    + apply (check_missing_preserves same_df); eauto with frame.
Qed.

(** * Column selection *)

Section getitem.
Context {A : Type}.
Implicit Types (cols found : list (label * list A)) (names : list label).

Lemma filter_label_absent cols n :
  n ∉ cols.*1 → List.filter (λ k, bool_decide (k.1 = n)) cols = [].
Proof.
  induction cols as [|k cols IH]; [done|]. rewrite fmap_cons.
  intros [Hk Hn]%not_elem_of_cons. simpl.
  rewrite bool_decide_eq_false_2 by done. by apply IH.
Qed.

Lemma filter_label_unique cols c :
  NoDup cols.*1 → c ∈ cols →
  List.filter (λ k, bool_decide (k.1 = c.1)) cols = [c].
Proof.
  induction cols as [|k cols IH]; [by intros _ ?%elem_of_nil|].
  rewrite fmap_cons. intros [Hk Hnd]%NoDup_cons [->|Hin]%elem_of_cons.
  - simpl. rewrite bool_decide_eq_true_2 by done. f_equal.
    by apply filter_label_absent.
  - simpl. rewrite bool_decide_eq_false_2; [by apply IH|].
    intros Heq. apply Hk. rewrite Heq. by apply list_elem_of_fmap_2.
Qed.

Lemma getitem_cols_elem cols names found c :
  getitem_cols cols names = Ok found → c ∈ found → c ∈ cols.
Proof.
  revert found. induction names as [|n names IH]; intros found; simpl.
  - intros [= <-]. by intros ?%elem_of_nil.
  - destruct (List.filter _ cols) as [|k ks] eqn:Hf; [done|].
    destruct (getitem_cols cols names) as [rest|]; [|done].
    intros [= <-] Hc.
    apply (elem_of_app (k :: ks) rest c) in Hc as [Hc|Hc]; [|by eapply IH].
    rewrite <- Hf in Hc. by apply list_elem_of_In, filter_In in Hc as [?%list_elem_of_In _].
Qed.

Lemma getitem_cols_again cols names found :
  NoDup cols.*1 → getitem_cols cols names = Ok found →
  getitem_cols cols found.*1 = Ok found.
Proof.
  intros Hnd. revert found. induction names as [|n names IH]; intros found; simpl.
  - by intros [= <-].
  - destruct (List.filter _ cols) as [|k ks] eqn:Hf; [done|].
    destruct (getitem_cols cols names) as [rest|]; [|done].
    intros [= <-].
    assert (k ∈ cols ∧ k.1 = n) as [Hk Hkn].
    { assert (In k (List.filter (λ c, bool_decide (c.1 = n)) cols)) as Hin
        by (rewrite Hf; by left).
      apply filter_In in Hin as [Hin Hb]. apply bool_decide_eq_true in Hb.
      split; [by apply list_elem_of_In|done]. }
    rewrite <- Hkn, (filter_label_unique cols k Hnd Hk) in Hf.
    injection Hf as <-. simpl.
    rewrite (filter_label_unique cols k Hnd Hk).
    change (list_fmap (label * list A)%type label fst rest) with (rest.*1).
    by rewrite (IH rest eq_refl).
Qed.

Lemma getitem_cols_self cols :
  NoDup cols.*1 → getitem_cols cols cols.*1 = Ok cols.
Proof.
  intros Hnd.
  assert (∀ suf, suf ⊆ cols → getitem_cols cols suf.*1 = Ok suf) as Hsuf.
  { induction suf as [|c suf IH]; [done|]. intros Hsub. simpl.
    rewrite (filter_label_unique cols c Hnd) by (apply Hsub; left).
    change (list_fmap (label * list A)%type label fst suf) with (suf.*1).
    rewrite IH; [done|]. intros x Hx. apply Hsub. by right. }
  by apply Hsuf.
Qed.
End getitem.

(** * Frames and the time filter *)

Section frames.
Lemma cell_frame_map {A B} (g : A → B) (d : DataFrame A) c i :
  cell (frame_map g d) c i = g <$> cell d c i.
Proof.
  unfold cell, frame_map. simpl. rewrite list_lookup_fmap.
  destruct (columns d !! c) as [[n col]|]; simpl; [|done].
  by rewrite list_lookup_fmap.
Qed.

Lemma cell_set_rows {A} sel (v : A) (d : DataFrame A) c i :
  cell (set_rows sel v d) c i =
  match sel !! i with
  | Some true => match cell d c i with Some _ => Some v | None => None end
  | _ => cell d c i
  end.
Proof.
  unfold cell, set_rows. simpl. rewrite list_lookup_fmap.
  destruct (columns d !! c) as [[n col]|]; simpl.
  - apply set_where_lookup.
  - by destruct (sel !! i) as [[]|].
Qed.

Lemma frame_ok_frame_map {A B} (g : A → B) (d : DataFrame A) :
  frame_ok d → frame_ok (frame_map g d).
Proof.
  unfold frame_ok, frame_map. simpl. rewrite Forall_fmap. intros Hd.
  eapply Forall_impl; [exact Hd|]. intros [n col]. simpl.
  by rewrite length_map.
Qed.

Lemma frame_ok_set_rows {A} sel (v : A) (d : DataFrame A) :
  frame_ok d → frame_ok (set_rows sel v d).
Proof.
  unfold frame_ok, set_rows. simpl. rewrite Forall_fmap. intros Hd.
  eapply Forall_impl; [exact Hd|]. intros [n col]. simpl.
  by rewrite length_set_where.
Qed.

Lemma colnames_frame_map {A B} (g : A → B) (d : DataFrame A) :
  colnames (frame_map g d) = colnames d.
Proof.
  unfold colnames, frame_map. simpl. rewrite <- list_fmap_compose.
  by apply list_fmap_ext.
Qed.

Lemma colnames_set_rows {A} sel (v : A) (d : DataFrame A) :
  colnames (set_rows sel v d) = colnames d.
Proof.
  unfold colnames, set_rows. simpl. rewrite <- list_fmap_compose.
  by apply list_fmap_ext.
Qed.

Lemma set_where_none {A} (idx : list Z) (v : A) col :
  set_where (map negb (map (λ _, true) idx)) v col = col.
Proof.
  revert idx. induction col as [|x col IH]; intros [|t idx]; simpl; auto.
  by rewrite IH.
Qed.

Lemma apply_tfilter_kept tf (m : DataFrame bool) keep :
  kept_rows tf (index m) = Ok keep →
  apply_tfilter tf m = Ok (set_rows (map negb keep) false m).
Proof.
  unfold kept_rows, apply_tfilter. case_bool_decide.
  - intros [= <-]. f_equal. destruct m as [idx cols]. unfold set_rows.
    simpl. f_equal. induction cols as [|[n col] cols IH]; simpl; [done|].
    by rewrite set_where_none, <- IH.
  - by intros ->.
Qed.

Lemma subtable_axes pm key d :
  subtable pm key = Some d →
  NoDup (colnames (df pm)) → frame_ok (df pm) →
  index d = index (df pm) ∧ frame_ok d ∧
  getitem (df pm) (colnames d) = Ok d.
Proof.
  unfold subtable. destruct (empty (df pm)); [done|].
  intros Hd Hnd Hok. destruct key as [k|].
  - destruct (trans pm !! k) as [names|]; simpl in Hd; [|done].
    unfold getitem in *.
    destruct (getitem_cols (columns (df pm)) names) as [found|] eqn:Hf;
      [|done].
    injection Hd as <-. simpl. split; [done|]. split.
    + unfold frame_ok in *. simpl. apply Forall_forall. intros c Hc.
      rewrite Forall_forall in Hok. apply Hok.
      by eapply getitem_cols_elem.
    + unfold colnames at 1. simpl.
      by rewrite (getitem_cols_again _ _ _ Hnd Hf).
  - injection Hd as <-. split; [done|]. split; [done|].
    unfold getitem, colnames. rewrite getitem_cols_self by done.
    by destruct (df pm).
Qed.
End frames.

(** * Comparing a frame with a bound and recording the failures *)

Section compare.
Context `{Extern}.

Lemma record_of_Error_Flag sub_df umo msg e r :
  record_of sub_df umo msg e = Some r → Error_Flag r = msg.
Proof.
  unfold record_of. intros Hr.
  destruct (if umo then _ else _); simpl in Hr; [|done].
  destruct (ax_index sub_df !! e.1.1); simpl in Hr; [|done].
  destruct (ax_index sub_df !! e.2.1); simpl in Hr; [|done].
  by injection Hr as <-.
Qed.

Lemma compare_append (cmp : float → bool) (d : DataFrame float)
    (msg : string) (k : Z) (w : World) (keep : list bool) :
  frame_ok d →
  getitem (df (self w)) (colnames d) = Ok d →
  kept_rows (tfilter (self w)) (index d) = Ok keep →
  ∃ new,
    (∀ rs, _append_test_results (frame_map cmp d) msg k false
             (with_results w rs) =
           (Ok tt, with_results (with_results w rs) new)) ∧
    Forall (λ r, Error_Flag r = msg) new ∧
    (∀ r, r ∈ new →
       ∃ c s e, record_of (axes d) false msg ((s, c), (e, c)) = Some r ∧
                (s ≤ e)%nat ∧
                ∀ i, (s ≤ i ≤ e)%nat →
                     ∃ x, cell d c i = Some x ∧ cmp x = true) ∧
    (k ≤ 1 → ∀ c i x,
       cell d c i = Some x → keep !! i = Some true → cmp x = true →
       ∃ r s e, r ∈ new ∧ (s ≤ i ≤ e)%nat ∧
                record_of (axes d) false msg ((s, c), (e, c)) = Some r).
Proof.
  intros Hok Hget Hkeep.
  set (m := frame_map cmp d).
  set (m' := set_rows (map negb keep) false m).
  assert (apply_tfilter (tfilter (self w)) m = Ok m') as Hf
    by by apply apply_tfilter_kept.
  assert (frame_ok m') as Hok'
    by by apply frame_ok_set_rows, frame_ok_frame_map.
  assert (colnames m' = colnames d) as Hcols
    by (unfold m', m; by rewrite colnames_set_rows, colnames_frame_map).
  destruct (append_test_results_spans m m' msg k false w (axes d) Hf Hok')
    as (new & Hrun & Hsound & Hcomplete).
  { exists d. rewrite Hcols. done. }
  exists new. split.
  { intros rs. eapply append_test_results_after; [exact Hf|exact Hok'| |done].
    exists d. rewrite Hcols. done. }
  assert (∀ c i, cell m' c i = Some true →
                 ∃ x, cell d c i = Some x ∧ cmp x = true) as Hcell.
  { intros c i. unfold m', m. rewrite cell_set_rows, cell_frame_map.
    destruct (map negb keep !! i) as [[]|];
      destruct (cell d c i) as [x|]; simpl; try done;
      intros [= ?]; eauto. }
  split; [|split].
  - apply Forall_forall. intros r Hr.
    destruct (Hsound r Hr) as (c & s & e & Hrec & _).
    by eapply record_of_Error_Flag.
  - intros r Hr. destruct (Hsound r Hr) as (c & s & e & Hrec & Hse & Hall).
    exists c, s, e. split; [done|]. split; [done|].
    intros i Hi. by apply Hcell, Hall.
  - intros Hk c i x Hx Hi Hcmp. apply (Hcomplete Hk).
    unfold m', m. rewrite cell_set_rows, cell_frame_map, Hx.
    rewrite list_lookup_fmap, Hi. simpl. by rewrite Hcmp.
Qed.
End compare.

Section floats.
Lemma feq_not_flt x y : feq x y = true → flt x y = false.
Proof.
  destruct x as [| |p|], y as [| |q|]; simpl; try done.
  intros Heq%Qeq_bool_iff. unfold Qltb.
  apply Qeq_alt in Heq. by rewrite Heq.
Qed.

Lemma feq_not_fgt x y : feq x y = true → fgt x y = false.
Proof.
  destruct x as [| |p|], y as [| |q|]; simpl; try done.
  intros Heq%Qeq_bool_iff. unfold fgt, flt, Qltb.
  symmetry in Heq. apply Qeq_alt in Heq. by rewrite Heq.
Qed.

Lemma range_messages_differ (prefix s t : string) :
  (prefix ++ " < lower bound, " ++ s)%string ≠
  (prefix ++ " > upper bound, " ++ t)%string.
Proof.
  induction prefix as [|a prefix IH]; simpl; [done|].
  intros [= Heq]. by apply IH.
Qed.
End floats.

(** C6. In [check_range] with a lower and an upper bound, on a sub-table that
    resolves: the two bounds are checked independently, each with its own
    message; what is recorded is what the lower check alone records followed
    by what the upper check alone records.  The comparisons are strict: a value equal to a bound does
    not fail that bound's comparison, and every interval recorded under the
    lower (upper) message spans only cells strictly below the lower (strictly
    above the upper) bound.  Conversely, with [min_failures <= 1], every cell
    strictly below the lower bound, or strictly above the upper bound, on a
    row the time filter lets through, lies in an interval recorded under the
    corresponding message. *)
Theorem check_range_strict_bounds `{Extern} (w : World) (bound : nat)
    (key : option string) (k : Z) (d : DataFrame float) (lo hi : float)
    (keep : list bool) :
  subtable (self w) key = Some d →
  NoDup (colnames (df (self w))) →
  frame_ok (df (self w)) →
  objects w !! bound = Some [PNum lo; PNum hi] →
  kept_rows (tfilter (self w)) (index d) = Ok keep →
  ("Data" ++ " < lower bound, " ++ py_str (PNum lo))%string ≠
    ("Data" ++ " > upper bound, " ++ py_str (PNum hi))%string ∧
  (∀ x, feq x lo = true → flt x lo = false) ∧
  (∀ x, feq x hi = true → fgt x hi = false) ∧
  ∃ new_lo new_hi,
    check_range bound key k w =
      (Ok tt, with_results (add_log w [(INFO, "Check data range")])
                           (new_lo ++ new_hi)) ∧
    _append_test_results (frame_map (λ x, flt x lo) d)
      ("Data" ++ " < lower bound, " ++ py_str (PNum lo)) k false
      (add_log w [(INFO, "Check data range")]) =
      (Ok tt, with_results (add_log w [(INFO, "Check data range")]) new_lo) ∧
    _append_test_results (frame_map (λ x, fgt x hi) d)
      ("Data" ++ " > upper bound, " ++ py_str (PNum hi)) k false
      (add_log w [(INFO, "Check data range")]) =
      (Ok tt, with_results (add_log w [(INFO, "Check data range")]) new_hi) ∧
    Forall (λ r, Error_Flag r =
                 ("Data" ++ " < lower bound, " ++ py_str (PNum lo))%string)
           new_lo ∧
    Forall (λ r, Error_Flag r =
                 ("Data" ++ " > upper bound, " ++ py_str (PNum hi))%string)
           new_hi ∧
    (∀ r, r ∈ new_lo →
       ∃ c s e,
         record_of (axes d) false
           ("Data" ++ " < lower bound, " ++ py_str (PNum lo))
           ((s, c), (e, c)) = Some r ∧
         (s ≤ e)%nat ∧
         ∀ i, (s ≤ i ≤ e)%nat → ∃ x, cell d c i = Some x ∧ flt x lo = true) ∧
    (∀ r, r ∈ new_hi →
       ∃ c s e,
         record_of (axes d) false
           ("Data" ++ " > upper bound, " ++ py_str (PNum hi))
           ((s, c), (e, c)) = Some r ∧
         (s ≤ e)%nat ∧
         ∀ i, (s ≤ i ≤ e)%nat → ∃ x, cell d c i = Some x ∧ fgt x hi = true) ∧
    (k ≤ 1 → ∀ c i x,
       cell d c i = Some x → keep !! i = Some true →
       (flt x lo = true →
        ∃ r s e, r ∈ new_lo ∧ (s ≤ i ≤ e)%nat ∧
          record_of (axes d) false
            ("Data" ++ " < lower bound, " ++ py_str (PNum lo))
            ((s, c), (e, c)) = Some r) ∧
       (fgt x hi = true →
        ∃ r s e, r ∈ new_hi ∧ (s ≤ i ≤ e)%nat ∧
          record_of (axes d) false
            ("Data" ++ " > upper bound, " ++ py_str (PNum hi))
            ((s, c), (e, c)) = Some r)).
Proof.
  intros Hd Hnd Hok Hb Hkeep.
  split; [apply range_messages_differ|].
  split; [intros x; apply feq_not_flt|].
  split; [intros x; apply feq_not_fgt|].
  destruct (subtable_axes _ _ _ Hd Hnd Hok) as (Hidx & Hokd & Hget).
  set (w1 := add_log w [(INFO, "Check data range")]).
  destruct (compare_append (λ x, flt x lo) d
              ("Data" ++ " < lower bound, " ++ py_str (PNum lo)) k w1 keep
              Hokd Hget Hkeep)
    as (new_lo & Hrun_lo & Hmsg_lo & Hsound_lo & Hcompl_lo).
  destruct (compare_append (λ x, fgt x hi) d
              ("Data" ++ " > upper bound, " ++ py_str (PNum hi)) k
              w1 keep Hokd Hget Hkeep)
    as (new_hi & Hrun_hi & Hmsg_hi & Hsound_hi & Hcompl_hi).
  exists new_lo, new_hi.
  pose proof (Hrun_lo []) as Hlo. pose proof (Hrun_hi []) as Hhi.
  rewrite !with_results_nil in Hlo, Hhi.
  split; [|split; [done|split; [done|split; [done|split; [done|split;
    [done|split; [done|]]]]]]].
  - unfold check_range. rewrite bind_unfold, log_run. fold w1.
    rewrite bind_unfold, (setup_data_Some key w1 d) by done.
    unfold _generate_test_results.
    rewrite bind_unfold, (normalize_bound_run bound _ w1 Hb).
    change (normalized <$> [PNum lo; PNum hi]) with [PNum lo; PNum hi].
    rewrite (set_obj_id w1) by done.
    rewrite bind_unfold. unfold obj_get at 1. cbn [objects w1 add_log].
    rewrite Hb. cbn [py_index lookup list_lookup is_None].
    rewrite !bind_unfold. cbn [frame_lt lift].
    fold w1. rewrite Hlo.
    rewrite bind_unfold. unfold obj_get. cbn [objects with_results w1 add_log].
    rewrite Hb. cbn [py_index lookup list_lookup is_None].
    rewrite !bind_unfold. cbn [frame_gt lift].
    fold w1. rewrite (Hrun_hi new_lo). by rewrite with_results_app.
  - intros Hk c i x Hx Hi. split; intros Hcmp.
    + by apply (Hcompl_lo Hk c i x).
    + by apply (Hcompl_hi Hk c i x).
Qed.

(** * Rolling windows *)

Section rolling.
Context `{Extern}.
Implicit Types (d : DataFrame float) (w : Z) (col : list float).

Lemma f_insufficient data method :
  (notnull_count data < 2)%nat → f data method = NaN.
Proof. intros Hn. unfold f. by rewrite decide_True. Qed.

Lemma cell_rolling_apply d w g c i n col :
  columns d !! c = Some (n, col) → (i < length col)%nat →
  cell (rolling_apply d w g) c i =
  Some (g (window_series (index d) (map replace_inf col) w i)).
Proof.
  intros Hc Hi. unfold cell, rolling_apply. simpl.
  rewrite list_lookup_fmap, Hc. simpl.
  rewrite list_lookup_imap.
  destruct (lookup_lt_is_Some_2 col i Hi) as [x ->]. done.
Qed.

Lemma cell_frame_zip {A B C} (g : A → B → C) (a : DataFrame A)
    (b : DataFrame B) c i x y :
  cell a c i = Some x → cell b c i = Some y →
  cell (frame_zip g a b) c i = Some (g x y).
Proof.
  unfold cell, frame_zip. simpl. rewrite lookup_zip_with.
  destruct (columns a !! c) as [[n col]|]; simpl; [|done].
  destruct (columns b !! c) as [[n' col']|]; simpl; [|done].
  rewrite lookup_zip_with. intros -> ->. done.
Qed.

(** The window of a column with its infinities made NaN is the window of
    the column, with its infinities made NaN. *)
Lemma window_series_replace_inf idx col w i :
  window_series idx (map replace_inf col) w i =
  map (λ p, (p.1, replace_inf p.2)) (window_series idx col w i).
Proof.
  unfold window_series. induction (window_rows idx w i) as [|j js IH];
    [done|].
  cbn [omap list_omap].
  change (map replace_inf col) with (replace_inf <$> col).
  rewrite (list_lookup_fmap replace_inf col j).
  destruct (idx !! j) as [t|]; [|exact IH].
  destruct (col !! j) as [x|]; simpl; [f_equal|]; exact IH.
Qed.

(** An infinity does not count as a sample of a window. *)
Lemma notnull_count_replace_inf (data : list (Z * float)) :
  (notnull_count (map (λ p, (p.1, replace_inf p.2)) data)
   ≤ notnull_count data)%nat.
Proof.
  unfold notnull_count. induction data as [|[t x] data IH]; [done|].
  cbn [map List.filter fst snd].
  destruct x; cbn [replace_inf is_nan negb length]; lia.
Qed.

(** A window with fewer than two values has no delta. *)
Lemma diff_df_insufficient d w absolute_value c i n col :
  columns d !! c = Some (n, col) → (i < length col)%nat →
  (notnull_count (window_series (index d) (map replace_inf col) w i) < 2)%nat →
  cell (diff_df d w absolute_value) c i = Some NaN.
Proof.
  intros Hc Hi Hn.
  assert (∀ method, cell (rolling_apply d w (λ x, f x method)) c i = Some NaN)
    as Hcell.
  { intros method. rewrite (cell_rolling_apply _ _ _ _ _ n col) by done.
    by rewrite f_insufficient. }
  assert (cell (frame_zip fsub (max_df d w) (min_df d w)) c i = Some NaN)
    as Hdiff.
  { by rewrite (cell_frame_zip _ _ _ _ _ NaN NaN) by apply Hcell. }
  unfold diff_df. destruct absolute_value; [done|].
  erewrite cell_frame_zip; [|exact Hdiff|].
  2:{ apply cell_frame_zip; unfold tmax_df, tmin_df;
        rewrite cell_frame_map, Hcell; reflexivity. }
  done.
Qed.
End rolling.

(** * The exact-position back-mapping *)

Section set_rows_col.
Context {A : Type}.
Implicit Types (m : DataFrame A) (sel : list bool) (name : label) (v : A).

Lemma colnames_set_rows_col sel name v m :
  colnames (set_rows_col sel name v m) = colnames m.
Proof.
  unfold colnames, set_rows_col. simpl. rewrite <- list_fmap_compose.
  apply list_fmap_ext. intros _ c _. simpl. by case_bool_decide.
Qed.

Lemma frame_ok_set_rows_col sel name v m :
  frame_ok m → frame_ok (set_rows_col sel name v m).
Proof.
  unfold frame_ok, set_rows_col. simpl. rewrite Forall_fmap. intros Hm.
  eapply Forall_impl; [exact Hm|]. intros [n col]. simpl.
  case_bool_decide; simpl; by rewrite ?length_set_where.
Qed.

Lemma cell_set_rows_col sel name v m c i :
  cell (set_rows_col sel name v m) c i =
  if bool_decide (colnames m !! c = Some name ∧ sel !! i = Some true)
  then match cell m c i with Some _ => Some v | None => None end
  else cell m c i.
Proof.
  unfold cell, set_rows_col, colnames. simpl. rewrite !list_lookup_fmap.
  destruct (columns m !! c) as [[n col]|]; simpl; [|done].
  case_bool_decide as Hn; simpl.
  - subst n. rewrite set_where_lookup.
    destruct (sel !! i) as [[]|].
    + by rewrite bool_decide_eq_true_2.
    + rewrite bool_decide_eq_false_2; [done|]. by intros [_ ?].
    + rewrite bool_decide_eq_false_2; [done|]. by intros [_ ?].
  - rewrite bool_decide_eq_false_2; [done|]. intros [[= ?] _]. done.
Qed.
End set_rows_col.

Section extract.
Context `{Extern}.
Implicit Types (m mask : DataFrame bool) (t u : Z) (col : label).
Implicit Types (tmin tmax : DataFrame (option Z)).

Lemma loc_slice_monotonic idx a b :
  is_monotonic idx = true →
  loc_slice idx a b = Ok (map (λ t, (a <=? t) && (t <=? b)) idx).
Proof. intros Hm. unfold loc_slice. by rewrite Hm. Qed.

(** The frame a turn of the loop leaves. *)
Lemma mark_exact_shape tmin tmax m t col m' :
  mark_exact tmin tmax m (t, col) = Ok m' →
  ∃ rows,
    m' = set_rows_col rows col true
           (set_rows_col (map (λ x, bool_decide (x = t)) (index m)) col false m).
Proof.
  unfold mark_exact.
  destruct (loc_scalar tmin t col) as [[a|]|]; [| |done].
  - destruct (loc_scalar tmax t col) as [[b|]|]; [|done..].
    destruct (if a <? b then _ else _) as [rows|]; [|done].
    intros [= <-]. by exists rows.
  - by destruct (loc_scalar tmax t col) as [[b|]|].
Qed.

Lemma mark_exact_coincide tmin tmax m t col u :
  loc_scalar tmin t col = Ok (Some u) →
  loc_scalar tmax t col = Ok (Some u) →
  is_monotonic (index m) = true →
  mark_exact tmin tmax m (t, col) =
    Ok (set_rows_col (map (λ x, (u <=? x) && (x <=? u)) (index m)) col true
          (set_rows_col (map (λ x, bool_decide (x = t)) (index m)) col false m)).
Proof.
  intros Hmin Hmax Hmono. unfold mark_exact. rewrite Hmin, Hmax.
  rewrite Z.ltb_irrefl. cbn [index set_rows_col].
  by rewrite loc_slice_monotonic.
Qed.

Lemma mark_exact_axes tmin tmax m tc m' :
  mark_exact tmin tmax m tc = Ok m' →
  index m' = index m ∧ colnames m' = colnames m ∧ (frame_ok m → frame_ok m').
Proof.
  destruct tc as [t col]. intros (rows & ->)%mark_exact_shape.
  split; [done|]. split.
  - by rewrite !colnames_set_rows_col.
  - intros ?. by do 2 apply frame_ok_set_rows_col.
Qed.

Lemma mark_exact_other tmin tmax m t col m' u col' :
  mark_exact tmin tmax m (t, col) = Ok m' →
  ¬ (t = u ∧ col = col') →
  marked m u col' → marked m' u col'.
Proof.
  intros (rows & ->)%mark_exact_shape Hne Hm c i Hc Hi.
  rewrite colnames_set_rows_col in Hc. rewrite colnames_set_rows_col in Hc.
  cbn [index set_rows_col] in Hi.
  specialize (Hm c i Hc Hi).
  rewrite cell_set_rows_col.
  assert (cell (set_rows_col (map (λ x, bool_decide (x = t)) (index m))
                  col false m) c i = Some true) as ->.
  { rewrite cell_set_rows_col, Hm.
    rewrite bool_decide_eq_false_2; [done|].
    rewrite list_lookup_fmap, Hi. simpl. intros [Hcol [= Ht]].
    apply bool_decide_eq_true in Ht. apply Hne. split; [done|]. congruence. }
  by case_bool_decide.
Qed.

Lemma mark_exact_marks tmin tmax m t col m' u :
  mark_exact tmin tmax m (t, col) = Ok m' →
  loc_scalar tmin t col = Ok (Some u) →
  loc_scalar tmax t col = Ok (Some u) →
  is_monotonic (index m) = true → frame_ok m →
  marked m' u col.
Proof.
  intros Hm' Hmin Hmax Hmono Hok.
  rewrite (mark_exact_coincide _ _ _ _ _ u) in Hm' by done.
  injection Hm' as <-. intros c i Hc Hi.
  rewrite !colnames_set_rows_col in Hc. cbn [index set_rows_col] in Hi.
  rewrite cell_set_rows_col, colnames_set_rows_col.
  rewrite bool_decide_eq_true_2.
  2:{ split; [done|]. cbn [index set_rows_col].
      rewrite list_lookup_fmap, Hi. simpl. by rewrite Z.leb_refl. }
  rewrite cell_set_rows_col.
  assert (is_Some (cell m c i)) as [x ->].
  { unfold cell. unfold colnames in Hc. rewrite list_lookup_fmap in Hc.
    destruct (columns m !! c) as [[n column]|] eqn:Hcol; [|done]. simpl.
    apply lookup_lt_is_Some_2.
    unfold frame_ok in Hok. rewrite Forall_lookup in Hok.
    pose proof (Hok _ _ Hcol) as Hl. simpl in Hl. rewrite Hl.
    by eapply lookup_lt_Some. }
  by case_bool_decide.
Qed.

Lemma fold_res_app {A B} (g : B → A → res B) (l1 l2 : list A) (b : B) :
  fold_res g (l1 ++ l2) b =
  match fold_res g l1 b with
  | Ok b' => fold_res g l2 b'
  | Raise e => Raise e
  end.
Proof.
  revert b. induction l1 as [|x l1 IH]; intros b; simpl; [done|].
  by destruct (g b x).
Qed.

Lemma fold_mark_axes tmin tmax l m m' :
  fold_res (mark_exact tmin tmax) l m = Ok m' →
  index m' = index m ∧ colnames m' = colnames m ∧ (frame_ok m → frame_ok m').
Proof.
  revert m. induction l as [|tc l IH]; intros m; simpl.
  - by intros [= <-].
  - destruct (mark_exact tmin tmax m tc) as [m1|] eqn:H1; [|done].
    intros (Hi & Hc & Hok)%IH.
    destruct (mark_exact_axes _ _ _ _ _ H1) as (Hi1 & Hc1 & Hok1).
    split; [congruence|]. split; [congruence|].
    intros Hm. by apply Hok, Hok1.
Qed.

Lemma fold_mark_other tmin tmax l m m' u col :
  fold_res (mark_exact tmin tmax) l m = Ok m' →
  (∀ y, y ∈ l → ¬ (y.1 = u ∧ y.2 = col)) →
  marked m u col → marked m' u col.
Proof.
  revert m. induction l as [|[t c] l IH]; intros m; cbn [fold_res].
  - by intros [= <-].
  - destruct (mark_exact tmin tmax m (t, c)) as [m1|] eqn:H1; [|done].
    intros Hm' Hne Hm. apply (IH m1 Hm').
    + intros y Hy. apply Hne. by right.
    + eapply mark_exact_other; [done| |done].
      apply (Hne (t, c)). by left.
Qed.
End extract.

Section stack.
Context `{Extern}.

Lemma is_monotonic_sorted idx :
  is_monotonic idx = true → StronglySorted Z.le idx.
Proof.
  intros Hm. apply Sorted_StronglySorted; [intros ???; lia|].
  induction idx as [|t idx IH]; [constructor|].
  destruct idx as [|u idx]; [by repeat constructor|].
  cbn [is_monotonic] in Hm. apply andb_true_iff in Hm as [Htu Hm].
  constructor; [by apply IH|]. constructor. lia.
Qed.

Lemma concat_imap_sorted (F : nat → Z → list (Z * label)) idx :
  (∀ i t y, y ∈ F i t → y.1 = t) →
  StronglySorted Z.le idx →
  StronglySorted Z.le (concat (imap F idx)).*1 ∧
  ∀ y, y ∈ concat (imap F idx) → y.1 ∈ idx.
Proof.
  revert F. induction idx as [|t idx IH]; intros F HF Hs.
  - split; [constructor|]. by intros y ?%elem_of_nil.
  - cbn [imap concat]. apply StronglySorted_inv in Hs as [Hs Ht].
    destruct (IH (F ∘ S)) as [IHs IHe]; [intros i u y; apply HF|done|].
    split.
    + rewrite fmap_app. apply StronglySorted_app_2; [| |done].
      * intros x1 x2 (y1 & -> & Hy1)%list_elem_of_fmap
          (y2 & -> & Hy2)%list_elem_of_fmap.
        rewrite (HF _ _ _ Hy1).
        rewrite Forall_forall in Ht. by apply Ht, IHe.
      * assert (Forall (λ x, x = t) (F 0%nat t).*1) as Hall.
        { apply Forall_fmap, Forall_forall. intros y Hy. simpl. by eapply HF. }
        clear -Hall. induction Hall as [|x l -> Hl IH']; constructor; [done|].
        eapply Forall_impl; [exact Hl|]. intros ? ->. done.
    + intros y [Hy|Hy]%elem_of_app; apply elem_of_cons.
      * left. by eapply HF.
      * right. by apply IHe.
Qed.

Lemma stack_true_sorted (mask1 : DataFrame bool) :
  is_monotonic (index mask1) = true →
  StronglySorted Z.le (stack_true mask1).*1.
Proof.
  intros Hm. apply concat_imap_sorted; [|by apply is_monotonic_sorted].
  intros i t y (c & Hc & Hy)%list_elem_of_omap.
  destruct (c.2 !! i) as [[]|]; [|done..]. by injection Hy as <-.
Qed.

(** A flagged window whose minimum and maximum fall on one timestamp [u]
    leaves the rows of [u] marked in the frame the back-mapping returns. *)
Lemma extract_marks_coinciding (mask1 mask2 : DataFrame bool)
    (tmin tmax : DataFrame (option Z)) t col u :
  frame_ok mask1 → is_monotonic (index mask1) = true →
  (t, col) ∈ stack_true mask1 →
  loc_scalar tmin t col = Ok (Some u) →
  loc_scalar tmax t col = Ok (Some u) →
  u ≤ t →
  extract_exact_position mask1 tmin tmax = Ok mask2 →
  index mask2 = index mask1 ∧ colnames mask2 = colnames mask1 ∧
  marked mask2 u col.
Proof.
  intros Hok Hmono Hin Hmin Hmax Hut. unfold extract_exact_position.
  set (m0 := frame_map (λ _, false) mask1).
  assert (frame_ok m0) as Hok0 by by apply frame_ok_frame_map.
  assert (colnames m0 = colnames mask1) as Hc0 by apply colnames_frame_map.
  intros Hfold.
  destruct (fold_mark_axes _ _ _ _ _ Hfold) as (Hi2 & Hc2 & _).
  split; [done|]. split; [congruence|].
  pose proof (stack_true_sorted mask1 Hmono) as Hsorted.
  destruct (list_elem_of_split_r _ _ Hin) as (l1 & l2 & Hl & Hnotin).
  rewrite Hl in Hfold, Hsorted.
  rewrite fold_res_app in Hfold.
  destruct (fold_res _ l1 m0) as [m1|] eqn:H1; [|done].
  destruct (fold_mark_axes _ _ _ _ _ H1) as (Hi1 & Hc1 & Hok1).
  cbn [fold_res] in Hfold.
  destruct (mark_exact tmin tmax m1 (t, col)) as [m2|] eqn:H2; [|done].
  apply (fold_mark_other _ _ _ _ _ _ _ Hfold).
  - intros [t' col'] Hy [Ht' Hcol']. simpl in *. subst t' col'.
    assert (t ≤ u) as Htu.
    { rewrite fmap_app, fmap_cons in Hsorted.
      apply StronglySorted_app_1_r, StronglySorted_inv in Hsorted as [_ Hall].
      rewrite Forall_forall in Hall.
      apply (Hall u). apply list_elem_of_fmap. by exists (u, col). }
    assert (u = t) as -> by lia. done.
  - eapply mark_exact_marks; [done..| |by apply Hok1].
    by rewrite Hi1.
Qed.
End stack.

Section window_times.
Context `{Extern}.

Lemma loc_scalar_inv {A} (D : DataFrame A) t col v :
  loc_scalar D t col = Ok v →
  ∃ c column i,
    columns D !! c = Some (col, column) ∧ index D !! i = Some t ∧
    column !! i = Some v.
Proof.
  unfold loc_scalar.
  destruct (List.filter _ (columns D)) as [|c0 [|? ?]] eqn:Hc; [done| |done].
  destruct (List.filter _ (zip (index D) c0.2)) as [|p [|? ?]] eqn:Hp;
    [done| |done].
  intros [= <-].
  assert (In c0 (List.filter (λ c, bool_decide (c.1 = col)) (columns D)))
    as Hc0 by (rewrite Hc; by left).
  apply filter_In in Hc0 as [Hc0 Hn]. apply bool_decide_eq_true in Hn.
  apply list_elem_of_In, list_elem_of_lookup_1 in Hc0 as [c Hcl].
  assert (In p (List.filter (λ p, bool_decide (p.1 = t)) (zip (index D) c0.2)))
    as Hp0 by (rewrite Hp; by left).
  apply filter_In in Hp0 as [Hp0 Ht]. apply bool_decide_eq_true in Ht.
  apply list_elem_of_In, list_elem_of_lookup_1 in Hp0 as [i Hi].
  destruct p as [t' v']. apply lookup_zip_Some in Hi as [Hi1 Hi2].
  simpl in *. subst t'. destruct c0 as [n column]. simpl in *. subst n.
  by exists c, column, i.
Qed.

Lemma first_min_elem data p : first_min data = Some p → p ∈ data.
Proof.
  revert p. induction data as [|[t x] data IH]; intros p; simpl; [done|].
  destruct (is_nan x).
  - intros Hp. right. by apply IH.
  - destruct (first_min data) as [[u y]|].
    + destruct (flt y x); intros [= <-]; [right; by apply IH|left].
    + intros [= <-]. left.
Qed.

Lemma window_series_elem idx col w i t x :
  (t, x) ∈ window_series idx col w i →
  ∃ j, (j ≤ i)%nat ∧ idx !! j = Some t.
Proof.
  unfold window_series, window_rows.
  intros (j & Hj & Hjx)%list_elem_of_omap.
  destruct (idx !! i) as [ti|]; [|by apply elem_of_nil in Hj].
  apply list_elem_of_In, filter_In in Hj as [Hj _].
  apply in_seq in Hj.
  destruct (idx !! j) as [tj|] eqn:Htj; [|done].
  destruct (col !! j); [|done]. injection Hjx as -> ->.
  exists j. split; [lia|done].
Qed.

Lemma sorted_lookup_le idx i j ti tj :
  StronglySorted Z.le idx → (j ≤ i)%nat →
  idx !! j = Some tj → idx !! i = Some ti → tj ≤ ti.
Proof.
  intros Hs. revert i j. induction Hs as [|t idx Hs IH Hall]; intros i j Hji;
    [done|].
  destruct j as [|j]; destruct i as [|i]; simpl; try lia.
  - intros [= <-] [= <-]. lia.
  - intros [= <-] Hi. rewrite Forall_forall in Hall.
    apply Hall. by eapply list_elem_of_lookup_2.
  - apply IH. lia.
Qed.

(** In the frame [tmin_df] of [check_delta] the time of the minimum of a
    window is a timestamp of the dataset, not after the one the window ends
    at, and it is read from a column of the dataset. *)
Lemma tmin_df_le (d : DataFrame float) w t col u :
  Forall float_exact (index d) →
  is_monotonic (index d) = true →
  loc_scalar (tmin_df d w) t col = Ok (Some u) →
  u ≤ t ∧ u ∈ index d ∧ col ∈ colnames d.
Proof.
  intros Hexact Hm (c & column & i & Hc & Hi & Hv)%loc_scalar_inv.
  unfold tmin_df, frame_map, rolling_apply in Hc, Hi. simpl in Hc, Hi.
  rewrite !list_lookup_fmap in Hc.
  destruct (columns d !! c) as [[n col0]|] eqn:Hcd; [|done].
  simpl in Hc. injection Hc as -> <-.
  rewrite list_lookup_fmap, list_lookup_imap in Hv.
  destruct (col0 !! i) as [x0|]; [|done]. simpl in Hv.
  injection Hv as Hv. unfold f in Hv.
  case_decide; [done|]. rewrite bool_decide_eq_true_2 in Hv by done.
  destruct (first_min _) as [[t' x]|] eqn:Hfm; [|done].
  apply first_min_elem, window_series_elem in Hfm as (j & Hji & Hj).
  assert (float_exact t') as Ht'.
  { rewrite Forall_forall in Hexact. apply Hexact.
    by eapply list_elem_of_lookup_2. }
  rewrite Ht' in Hv.
  cbn [to_datetime] in Hv. rewrite Qfloor_Z in Hv. injection Hv as ->.
  split; [|split].
  - eapply sorted_lookup_le; [by apply is_monotonic_sorted|done..].
  - by eapply list_elem_of_lookup_2.
  - unfold colnames. apply list_elem_of_fmap. exists (col, col0).
    split; [done|]. by eapply list_elem_of_lookup_2.
Qed.
End window_times.

(** C4, as the code has it. In [check_delta]: a rolling window holding fewer
    than two non-absent samples (an infinity counts as absent in a rolling
    window) has no delta, so its cell fails neither comparison, whatever the
    number it is compared with; but a flagged window whose minimum and
    maximum fall on one and the same timestamp is not dropped when the
    timestamps of the dataset pass through float64 unchanged: the
    exact-position back-mapping then marks the row of that timestamp as
    failing in the frame it returns. *)
Theorem check_delta_windows `{Extern} (d : DataFrame float) (window : positive)
    (absolute_value : bool) :
  (∀ c i n col y m,
     columns d !! c = Some (n, col) → (i < length col)%nat →
     (notnull_count (window_series (index d) col (ms window) i) < 2)%nat ∨
     (notnull_count (window_series (index d) (map replace_inf col)
                       (ms window) i) < 2)%nat →
     frame_lt (diff_df d (ms window) absolute_value) (PNum y) = Ok m ∨
     frame_gt (diff_df d (ms window) absolute_value) (PNum y) = Ok m →
     cell m c i = Some false) ∧
  (∀ mask1 mask2 t col u,
     Forall float_exact (index d) →
     frame_ok mask1 → index mask1 = index d → colnames mask1 = colnames d →
     is_monotonic (index d) = true →
     (t, col) ∈ stack_true mask1 →
     loc_scalar (tmin_df d (ms window)) t col = Ok (Some u) →
     loc_scalar (tmax_df d (ms window)) t col = Ok (Some u) →
     extract_exact_position mask1 (tmin_df d (ms window))
                            (tmax_df d (ms window)) = Ok mask2 →
     marked mask2 u col ∧
     ∃ c i, colnames mask2 !! c = Some col ∧ index mask2 !! i = Some u ∧
            cell mask2 c i = Some true).
Proof.
  split.
  - intros c i n col y m Hc Hi Hn Hm.
    assert (notnull_count (window_series (index d) (map replace_inf col)
                             (ms window) i) < 2)%nat as Hn'.
    { destruct Hn as [Hn|Hn]; [|done].
      rewrite window_series_replace_inf.
      pose proof (notnull_count_replace_inf
                    (window_series (index d) col (ms window) i)). lia. }
    pose proof (diff_df_insufficient d (ms window) absolute_value c i n col
                  Hc Hi Hn') as Hcell.
    destruct Hm as [Hm|Hm]; injection Hm as <-;
      rewrite cell_frame_map, Hcell; simpl.
    + by destruct y.
    + unfold fgt. by destruct y.
  - intros mask1 mask2 t col u Hexact Hok Hidx Hcols Hmono Hin Hmin Hmax Hex.
    destruct (tmin_df_le _ _ _ _ _ Hexact Hmono Hmin) as (Hut & Hu & Hcol).
    rewrite <- Hidx in Hmono.
    destruct (extract_marks_coinciding _ _ _ _ _ _ _ Hok Hmono Hin Hmin Hmax
                Hut Hex) as (Hi2 & Hc2 & Hmarked).
    split; [done|].
    apply list_elem_of_lookup_1 in Hu as [i Hi].
    apply list_elem_of_lookup_1 in Hcol as [c Hc].
    exists c, i.
    assert (colnames mask2 !! c = Some col) as Hc' by congruence.
    assert (index mask2 !! i = Some u) as Hi' by congruence.
    split; [done|]. split; [done|]. by apply Hmarked.
Qed.

(** * Increments of absent data *)

Section increment.
Context `{Extern}.

Lemma diff_col_absent periods col i x :
  forallb is_nan col = true → diff_col periods col !! i = Some x → x = NaN.
Proof.
  intros Hall. unfold diff_col. rewrite list_lookup_imap.
  destruct (col !! i) as [xi|] eqn:Hi; [|done]. simpl.
  assert (xi = NaN) as ->.
  { rewrite forallb_forall in Hall.
    apply list_elem_of_lookup_2, list_elem_of_In, Hall in Hi.
    by destruct xi. }
  case_decide; [|by intros [= <-]].
  intros Hx. injection Hx as <-.
  destruct (col !! Z.to_nat _) as [y|]; [by destruct y|done].
Qed.

Lemma generate_same_logged d ref k prefix :
  preserves same_logged (_generate_test_results d ref k prefix).
Proof.
  apply generate_test_results_preserves.
  - done.
  - unfold same_logged. congruence.
  - by intros r w.
  - intros ref' i v w. unfold obj_set.
    destruct (objects w !! ref'); [|done]. by case_decide.
Qed.
End increment.

(** C8, as the code has it. [check_increment] looks at the sub-table as a
    whole.  When every column of it is entirely absent and the key is a
    string, the call logs a warning naming the key and returns, without
    raising and without recording or changing anything else.  When some data
    is present, no warning is logged and all columns are processed together:
    an entirely absent column is not skipped, its increments are absent and
    fail neither comparison, whatever the bound. *)
Theorem check_increment_absent_data `{Extern} (w : World) (bound : nat)
    (key : option string) (increment : Z) (absolute_value : bool) (k : Z)
    (d : DataFrame float) :
  subtable (self w) key = Some d →
  (all_null d = true → ∀ name, key = Some name →
   check_increment bound key increment absolute_value k w =
     (Ok tt,
      add_log w
        [(INFO, "Check increment range");
         (WARNING,
          ("Check increment range failed (all data is Null): " ++ name)%string)])) ∧
  (all_null d = false →
   check_increment bound key increment absolute_value k w =
     _generate_test_results
       (if absolute_value then frame_map fabs (frame_diff increment d)
        else frame_diff increment d)
       bound k (if absolute_value then "|Increment|" else "Increment")
       (add_log w [(INFO, "Check increment range")]) ∧
   logged (check_increment bound key increment absolute_value k w).2 =
     logged w ++ [(INFO, "Check increment range")] ∧
   ∀ c n col, columns d !! c = Some (n, col) → forallb is_nan col = true →
     ∀ i x y,
       cell (if absolute_value then frame_map fabs (frame_diff increment d)
             else frame_diff increment d) c i = Some x →
       flt x y = false ∧ fgt x y = false).
Proof.
  intros Hd. split.
  - intros Hnull name ->. unfold check_increment.
    rewrite bind_unfold, log_run, bind_unfold.
    rewrite (setup_data_Some _ _ d) by done. rewrite Hnull.
    rewrite bind_unfold. cbn [str_add mret M_ret].
    by rewrite log_run, add_log_add_log.
  - intros Hnull.
    assert (check_increment bound key increment absolute_value k w =
      _generate_test_results
        (if absolute_value then frame_map fabs (frame_diff increment d)
         else frame_diff increment d)
        bound k (if absolute_value then "|Increment|" else "Increment")
        (add_log w [(INFO, "Check increment range")])) as Hrun.
    { unfold check_increment. rewrite bind_unfold, log_run, bind_unfold.
      rewrite (setup_data_Some _ _ d) by done. by rewrite Hnull. }
    split; [done|]. split.
    + rewrite Hrun. by rewrite generate_same_logged.
    + intros c n col Hc Hall i x y Hx.
      assert (x = NaN) as ->; [|by destruct y].
      assert (∀ x', cell (frame_diff increment d) c i = Some x' → x' = NaN)
        as Hdiff.
      { intros x'. unfold cell, frame_diff. simpl.
        rewrite list_lookup_fmap, Hc. simpl. by apply diff_col_absent. }
      destruct absolute_value; [|by apply Hdiff].
      rewrite cell_frame_map in Hx.
      destruct (cell (frame_diff increment d) c i) as [x'|]; [|done].
      injection Hx as <-. by rewrite (Hdiff x' eq_refl).
Qed.

(** * The aggregate mask, cell by cell *)

Section mask_cells.
Context `{Extern}.
Implicit Types (m : DataFrame bool) (r : TestResult) (rs : list TestResult).

Lemma punch_colnames m r : colnames (punch m r) = colnames m.
Proof.
  rewrite punch_columns. unfold colnames. simpl.
  rewrite <- list_fmap_compose. apply list_fmap_ext. intros _ c _. simpl.
  unfold punch_col. destruct (rows_of _ _); [|done]. by case_bool_decide.
Qed.

Lemma fold_punch_index rs m : index (fold_left punch rs m) = index m.
Proof.
  revert m. induction rs as [|r rs IH]; intros m; simpl; [done|].
  by rewrite IH, punch_index.
Qed.

Lemma fold_punch_colnames rs m : colnames (fold_left punch rs m) = colnames m.
Proof.
  revert m. induction rs as [|r rs IH]; intros m; simpl; [done|].
  by rewrite IH, punch_colnames.
Qed.

(** A turn of the loop leaves a cell as it is or makes it false. *)
Lemma punch_cell_inv m r c i :
  cell (punch m r) c i = cell m c i ∨
  (is_Some (cell m c i) ∧ cell (punch m r) c i = Some false).
Proof.
  unfold punch. case_bool_decide; [|by left].
  destruct (loc_slice _ _ _) as [rows|e]; [|by left].
  rewrite cell_set_rows_col. case_bool_decide; [|by left].
  destruct (cell m c i); [right; eauto|by left].
Qed.

Lemma fold_punch_cell_inv rs m c i :
  cell (fold_left punch rs m) c i = cell m c i ∨
  (is_Some (cell m c i) ∧ cell (fold_left punch rs m) c i = Some false).
Proof.
  revert m. induction rs as [|r rs IH]; intros m; simpl; [by left|].
  destruct (IH (punch m r)) as [Heq|[Hs Hf]];
    destruct (punch_cell_inv m r c i) as [Hp|[Hs' Hp]].
  - left. congruence.
  - right. split; [done|]. congruence.
  - right. split; [by rewrite <- Hp|done].
  - right. done.
Qed.

(** On timestamps in order a recorded interval clears the rows between its
    two times, in the columns that carry its name. *)
Lemma punch_cell m r c i n t :
  is_monotonic (index m) = true →
  colnames m !! c = Some n → index m !! i = Some t →
  cell (punch m r) c i =
  match cell m c i with
  | Some b => Some (b && negb (covers n t r))
  | None => None
  end.
Proof.
  intros Hm Hn Ht. unfold punch, covers. case_bool_decide as Hin.
  - rewrite loc_slice_monotonic by done.
    rewrite cell_set_rows_col, Hn, list_lookup_fmap, Ht. simpl.
    destruct (cell m c i) as [b|]; [|by case_bool_decide].
    case_bool_decide as Hc.
    + destruct Hc as [[= ->] [= Hr]].
      rewrite bool_decide_eq_true_2 by done.
      simpl. rewrite Hr. simpl. by rewrite andb_false_r.
    + f_equal.
      assert (bool_decide (Variable_Name r = n) && (Start_Time r <=? t) &&
              (t <=? End_Time r) = false) as ->; [|by rewrite andb_true_r].
      apply not_true_iff_false. intros Hcov.
      apply Hc. apply andb_true_iff in Hcov as [[Hv Hs]%andb_true_iff He].
      apply bool_decide_eq_true in Hv. split; [by rewrite Hv|].
      f_equal. by rewrite Hs, He.
  - assert (Variable_Name r ≠ n) as Hne.
    { intros Heq. apply Hin. rewrite Heq. by eapply list_elem_of_lookup_2. }
    rewrite bool_decide_eq_false_2 by done. simpl.
    destruct (cell m c i) as [b|]; [|done]. by rewrite andb_true_r.
Qed.

Lemma fold_punch_cell rs m c i n t :
  is_monotonic (index m) = true →
  colnames m !! c = Some n → index m !! i = Some t →
  cell (fold_left punch rs m) c i =
  match cell m c i with
  | Some b => Some (b && negb (existsb (covers n t) rs))
  | None => None
  end.
Proof.
  revert m. induction rs as [|r rs IH]; intros m Hm Hn Ht; simpl.
  - destruct (cell m c i); [|done]. by rewrite andb_true_r.
  - rewrite IH; [|by rewrite punch_index|by rewrite punch_colnames
                 |by rewrite punch_index].
    rewrite (punch_cell m r c i n t) by done.
    destruct (cell m c i) as [b|]; [|done].
    f_equal. rewrite negb_orb. by rewrite andb_assoc.
Qed.

(** A record on a variable that is no column changes nothing. *)
Lemma punch_unknown m r : Variable_Name r ∉ colnames m → punch m r = m.
Proof. intros Hn. unfold punch. by rewrite bool_decide_eq_false_2. Qed.

Lemma fold_punch_unknown rs m :
  Forall (λ r, Variable_Name r ∉ colnames m) rs → fold_left punch rs m = m.
Proof.
  induction 1 as [|r rs Hr _ IH]; simpl; [done|].
  by rewrite punch_unknown.
Qed.

Lemma cell_notnull (d : DataFrame float) c i :
  cell (frame_map (λ x, negb (is_nan x)) d) c i =
  (λ x, negb (is_nan x)) <$> cell d c i.
Proof. apply cell_frame_map. Qed.

Lemma aggregate_mask_results_app pm new :
  aggregate_mask (mkPM (df pm) (trans pm) (tfilter pm) (test_results pm ++ new))
  = fold_left punch new (aggregate_mask pm).
Proof. unfold aggregate_mask. simpl. by rewrite fold_left_app. Qed.
End mask_cells.

(** X1. The mask, cell by cell.  The mask has the index and the column labels
    of the dataset.  A cell that is NaN in the dataset is false in the mask,
    whatever was recorded, and a true cell of the mask is a cell with data.
    On a dataset whose timestamps are in order, the cell at timestamp [t] of
    a column labelled [n] is true exactly when it holds data and no recorded
    interval on variable [n] has [Start Time <= t <= End Time]. *)
Theorem mask_cells_covered `{Extern} (w : World) (m : DataFrame bool) :
  (mask w).1 = Ok (Some m) →
  index m = index (df (self w)) ∧
  colnames m = colnames (df (self w)) ∧
  (∀ c i, cell (df (self w)) c i = Some NaN → cell m c i = Some false) ∧
  (∀ c i, cell m c i = Some true →
          ∃ x, cell (df (self w)) c i = Some x ∧ is_nan x = false) ∧
  (is_monotonic (index (df (self w))) = true →
   ∀ c i n t x,
     colnames (df (self w)) !! c = Some n →
     index (df (self w)) !! i = Some t →
     cell (df (self w)) c i = Some x →
     cell m c i =
       Some (negb (is_nan x) &&
             negb (existsb (covers n t) (test_results (self w))))).
Proof.
  rewrite mask_run. destruct (empty _); [done|]. simpl. intros [= <-].
  unfold aggregate_mask.
  split; [by rewrite fold_punch_index|].
  split; [by rewrite fold_punch_colnames, colnames_frame_map|].
  split; [|split].
  - intros c i Hx. apply fold_punch_cell_false.
    by rewrite cell_notnull, Hx.
  - intros c i Ht.
    destruct (fold_punch_cell_inv (test_results (self w))
                (frame_map (λ x, negb (is_nan x)) (df (self w))) c i)
      as [Heq|[_ Hf]]; [|congruence].
    rewrite Ht, cell_notnull in Heq.
    destruct (cell (df (self w)) c i) as [x|]; [|done].
    exists x. split; [done|]. injection Heq as Heq.
    by apply negb_true_iff.
  - intros Hm c i n t x Hn Ht Hx.
    rewrite (fold_punch_cell _ _ c i n t);
      [|done|by rewrite colnames_frame_map|done].
    by rewrite cell_notnull, Hx.
Qed.

(** X2. Reading [cleaned_data] on an engine with data returns, leaves the
    engine as it is, and gives a table over the index and the column labels
    of the dataset; each of its cells is the cell of the dataset where the
    mask is true and NaN where the mask is false, so that the cleaned cell is
    NaN exactly where the mask is false. *)
Theorem cleaned_data_nan_where_masked `{Extern} (w : World) :
  empty (df (self w)) = false →
  ∃ m d',
    mask w = (Ok (Some m), w) ∧
    cleaned_data w = (Ok d', w) ∧
    index d' = index (df (self w)) ∧
    colnames d' = colnames (df (self w)) ∧
    ∀ c i,
      cell d' c i =
        match cell (df (self w)) c i, cell m c i with
        | Some x, Some b => Some (if b then x else NaN)
        | _, _ => None
        end ∧
      (cell d' c i = Some NaN ↔ cell m c i = Some false).
Proof.
  intros He. exists (aggregate_mask (self w)).
  exists (frame_where (df (self w)) (aggregate_mask (self w))).
  assert (mask w = (Ok (Some (aggregate_mask (self w))), w)) as Hmask
    by by rewrite mask_run, He.
  split; [done|]. split.
  { unfold cleaned_data. by rewrite bind_unfold, Hmask. }
  split; [done|].
  set (m := aggregate_mask (self w)).
  assert (colnames m = colnames (df (self w))) as Hcols
    by (unfold m, aggregate_mask; by rewrite fold_punch_colnames,
          colnames_frame_map).
  assert (∀ c i,
    cell (frame_where (df (self w)) m) c i =
    match cell (df (self w)) c i, cell m c i with
    | Some x, Some b => Some (if b then x else NaN)
    | _, _ => None
    end) as Hcell.
  { intros c i. unfold cell, frame_where. simpl.
    rewrite lookup_zip_with.
    destruct (columns (df (self w)) !! c) as [[n col]|]; simpl; [|done].
    destruct (columns m !! c) as [[n' col']|]; simpl;
      [|by destruct (col !! i)].
    rewrite lookup_zip_with.
    destruct (col !! i); simpl; [|done]. by destruct (col' !! i). }
  split.
  { unfold colnames, frame_where. simpl.
    assert (length (columns m) = length (columns (df (self w)))) as Hlen
      by (unfold colnames in Hcols;
          by rewrite <- (length_fmap fst), Hcols, length_fmap).
    clear -Hlen. revert Hlen. generalize (columns m).
    induction (columns (df (self w))) as [|c cols IH]; intros [|k ks] Hlen;
      simpl in *; try done.
    f_equal. apply IH. lia. }
  intros c i. split; [apply Hcell|]. rewrite Hcell.
  (* the mask has a cell wherever the dataset has one *)
  pose proof (fold_punch_cell_inv (test_results (self w))
                (frame_map (λ x, negb (is_nan x)) (df (self w))) c i) as Hinv.
  fold (aggregate_mask (self w)) in Hinv. fold m in Hinv.
  rewrite cell_notnull in Hinv.
  destruct (cell (df (self w)) c i) as [x|] eqn:Hx; simpl in Hinv.
  - destruct Hinv as [->|[_ ->]].
    + destruct x; simpl; split; intros; congruence.
    + done.
  - destruct Hinv as [->|[[? [=]] _]]. done.
Qed.

(** * Recording failures, then reading the mask *)

Section sorted.
Implicit Types (idx : list Z).

Lemma strictly_sorted_monotonic idx :
  StronglySorted Z.lt idx → is_monotonic idx = true.
Proof.
  induction 1 as [|t idx Hs IH Hall]; [done|].
  destruct idx as [|u idx]; [done|].
  change (is_monotonic (t :: u :: idx))
    with ((t <=? u) && is_monotonic (u :: idx)).
  rewrite IH.
  apply Forall_cons in Hall as [Htu _]. rewrite andb_true_r.
  apply Z.leb_le. lia.
Qed.

Lemma sorted_lt_lookup idx i j ti tj :
  StronglySorted Z.lt idx → (i < j)%nat →
  idx !! i = Some ti → idx !! j = Some tj → ti < tj.
Proof.
  intros Hs. revert i j. induction Hs as [|t idx Hs IH Hall]; intros i j Hij;
    [done|].
  destruct i as [|i]; destruct j as [|j]; simpl; try lia.
  - intros [= <-] Hj. rewrite Forall_forall in Hall.
    apply Hall. by eapply list_elem_of_lookup_2.
  - apply IH. lia.
Qed.

Lemma sorted_lt_lookup_le idx i j ti tj :
  StronglySorted Z.lt idx →
  idx !! i = Some ti → idx !! j = Some tj → (ti ≤ tj ↔ (i ≤ j)%nat).
Proof.
  intros Hs Hi Hj. split.
  - intros Hle. destruct (decide (i ≤ j)%nat); [done|].
    assert (tj < ti) by (eapply (sorted_lt_lookup idx j i); [done|lia|done..]).
    lia.
  - intros Hle. destruct (decide (i = j)) as [->|].
    + rewrite Hi in Hj. injection Hj as ->. lia.
    + assert (ti < tj)
        by (eapply (sorted_lt_lookup idx i j); [done|lia|done..]).
      lia.
Qed.
End sorted.

Section labels.
Lemma getitem_cols_names {A} (cols found : list (label * list A)) names :
  NoDup cols.*1 → getitem_cols cols names = Ok found → found.*1 = names.
Proof.
  intros Hnd. revert found. induction names as [|n names IH]; intros found;
    simpl.
  - by intros [= <-].
  - destruct (List.filter _ cols) as [|k ks] eqn:Hf; [done|].
    destruct (getitem_cols cols names) as [rest|]; [|done].
    intros [= <-].
    assert (k ∈ cols ∧ k.1 = n) as [Hk Hkn].
    { assert (In k (List.filter (λ c, bool_decide (c.1 = n)) cols)) as Hin
        by (rewrite Hf; by left).
      apply filter_In in Hin as [Hin Hb]. apply bool_decide_eq_true in Hb.
      split; [by apply list_elem_of_In|done]. }
    rewrite <- Hkn, (filter_label_unique cols k Hnd Hk) in Hf.
    injection Hf as <-. simpl. f_equal; [done|]. by apply IH.
Qed.

Lemma getitem_names {A} (d d' : DataFrame A) names :
  NoDup (colnames d) → getitem d names = Ok d' →
  colnames d' = names ∧ index d' = index d ∧
  ∀ c, c ∈ columns d' → c ∈ columns d.
Proof.
  unfold getitem. intros Hnd.
  destruct (getitem_cols (columns d) names) as [found|] eqn:Hf; [|done].
  intros [= <-]. split; [by eapply getitem_cols_names|]. split; [done|].
  intros c. by eapply getitem_cols_elem.
Qed.

(** With distinct labels, the label finds the column. *)
Lemma same_label_cell {A} (d d' : DataFrame A) c c' n i :
  NoDup (colnames d) → (∀ k, k ∈ columns d' → k ∈ columns d) →
  colnames d !! c = Some n → colnames d' !! c' = Some n →
  cell d' c' i = cell d c i.
Proof.
  intros Hnd Hsub Hc Hc'. unfold colnames in Hc, Hc'.
  apply list_lookup_fmap_Some in Hc as ([n1 col] & Hn1 & Hc).
  apply list_lookup_fmap_Some in Hc' as ([n2 col'] & Hn2 & Hc').
  simpl in *. subst n1 n2.
  assert ((n, col') ∈ columns d) as Hin
    by (apply Hsub; by eapply list_elem_of_lookup_2).
  apply list_elem_of_lookup_1 in Hin as (c0 & Hc0).
  assert (c0 = c) as ->.
  { eapply NoDup_lookup; [exact Hnd| |].
    - unfold colnames. by rewrite list_lookup_fmap, Hc0.
    - unfold colnames. by rewrite list_lookup_fmap, Hc. }
  rewrite Hc in Hc0. injection Hc0 as ->.
  unfold cell. by rewrite Hc, Hc'.
Qed.

Lemma flagged_true (m : DataFrame bool) n i :
  flagged m n i = true ↔
  ∃ c, colnames m !! c = Some n ∧ cell m c i = Some true.
Proof.
  unfold flagged. rewrite existsb_exists. split.
  - intros ([n' col] & Hin & Hb). simpl in Hb.
    apply andb_true_iff in Hb as [Hn Hi].
    apply bool_decide_eq_true in Hn. subst n'.
    apply list_elem_of_In, list_elem_of_lookup_1 in Hin as (c & Hc).
    exists c. unfold colnames, cell. rewrite list_lookup_fmap, Hc. simpl.
    split; [done|]. by destruct (col !! i) as [[]|].
  - intros (c & Hn & Hi). unfold colnames, cell in *.
    rewrite list_lookup_fmap in Hn.
    destruct (columns m !! c) as [[n' col]|] eqn:Hc; [|done].
    simpl in *. injection Hn as ->. exists (n, col). split.
    + by eapply list_elem_of_In, list_elem_of_lookup_2.
    + simpl. rewrite Hi. simpl. by rewrite bool_decide_eq_true_2.
Qed.

Lemma series_lookup_nonempty t (tf : Series) l :
  series_lookup t tf = Some l → (0 < length l)%nat.
Proof.
  unfold series_lookup. destruct (List.filter _ tf) as [|p ps]; [done|].
  intros [= <-]. simpl. lia.
Qed.

Lemma align_concat_length (tf : Series) idx found :
  mapM (λ t, series_lookup t tf) idx = Some found →
  (length idx ≤ length (concat found))%nat.
Proof.
  intros Hm%mapM_Some_1. induction Hm as [|t l idx found Hl _ IH]; simpl;
    [done|].
  apply series_lookup_nonempty in Hl. rewrite length_app. lia.
Qed.

Lemma kept_rows_length tf idx keep :
  kept_rows tf idx = Ok keep → length keep = length idx.
Proof.
  unfold kept_rows, align_filter. case_bool_decide.
  - intros [= <-]. by rewrite length_map.
  - case_bool_decide as Hlen; simpl; [|done].
    case_bool_decide.
    + intros [= <-]. by rewrite length_fmap.
    + destruct (mapM _ idx) as [found|] eqn:Hm; [|done].
      destruct (existsb _ _); [done|]. intros [= <-].
      rewrite length_take. apply align_concat_length in Hm. lia.
Qed.
End labels.

Section punches.
Context `{Extern}.
Implicit Types (w : World) (fm : DataFrame bool).

(** When the timestamps strictly increase, an interval recorded for the
    run from row [s] to row [e] of a column includes the timestamps of
    these rows and no other. *)
Lemma covers_record_of (d : Axes) msg s e c' r n t i :
  record_of d false msg ((s, c'), (e, c')) = Some r →
  StronglySorted Z.lt (ax_index d) → ax_index d !! i = Some t →
  covers n t r = true ↔ ax_columns d !! c' = Some n ∧ (s ≤ i ≤ e)%nat.
Proof.
  unfold record_of, covers. simpl. intros Hr Hs Hi.
  destruct (ax_columns d !! c') as [n'|]; simpl in Hr; [|done].
  destruct (ax_index d !! s) as [ts|] eqn:Hts; simpl in Hr; [|done].
  destruct (ax_index d !! e) as [te|] eqn:Hte; simpl in Hr; [|done].
  injection Hr as <-. simpl.
  rewrite !andb_true_iff, bool_decide_eq_true, !Z.leb_le.
  rewrite (sorted_lt_lookup_le _ s i ts t Hs Hts Hi).
  rewrite (sorted_lt_lookup_le _ i e t te Hs Hi Hte).
  split.
  - intros [[-> ?] ?]. done.
  - intros [[= ->] [? ?]]. done.
Qed.

(** What [_append_test_results] records, seen from the mask: on a dataset
    with distinct column labels and strictly increasing timestamps the
    recorded intervals include flagged cells only, and with
    [min_failures <= 1] all of them. *)
Lemma append_punches fm fm' msg k w d :
  NoDup (colnames (df (self w))) →
  StronglySorted Z.lt (index (df (self w))) →
  apply_tfilter (tfilter (self w)) fm = Ok fm' →
  frame_ok fm' →
  index fm' = index (df (self w)) →
  getitem (df (self w)) (colnames fm') = Ok d →
  ∃ new,
    (∀ rs, _append_test_results fm msg k false (with_results w rs) =
           (Ok tt, with_results (with_results w rs) new)) ∧
    Forall (λ r, Error_Flag r = msg) new ∧
    ∀ n t i, index (df (self w)) !! i = Some t →
      (existsb (covers n t) new = true → flagged fm' n i = true) ∧
      (k ≤ 1 → flagged fm' n i = true → existsb (covers n t) new = true).
Proof.
  intros Hnd Hs Hf Hok Hidx Hget.
  destruct (getitem_names _ _ _ Hnd Hget) as (Hcols & Hidxd & _).
  assert (∃ d0, getitem (df (self w)) (colnames fm') = Ok d0 ∧
                axes d = axes d0 ∧
                (length (index fm') ≤ length (index d0))%nat) as Hsub.
  { exists d. split; [done|]. split; [done|]. rewrite Hidxd, Hidx. lia. }
  destruct (append_test_results_spans fm fm' msg k false w (axes d) Hf Hok
              Hsub) as (new & Hrun & Hsound & Hcompl).
  exists new. split.
  { intros rs. by eapply append_test_results_after. }
  split.
  { apply Forall_forall. intros r Hr.
    destruct (Hsound r Hr) as (c & s & e & Hrec & _).
    by eapply record_of_Error_Flag. }
  assert (StronglySorted Z.lt (ax_index (axes d))) as Hsd
    by (simpl; by rewrite Hidxd).
  intros n t i Hi.
  assert (ax_index (axes d) !! i = Some t) as Hid
    by (simpl; by rewrite Hidxd).
  split.
  - intros (r & Hr & Hcov)%existsb_exists.
    apply list_elem_of_In in Hr.
    destruct (Hsound r Hr) as (c & s & e & Hrec & Hse & Hall).
    destruct (proj1 (covers_record_of _ _ _ _ _ _ n _ _ Hrec Hsd Hid) Hcov)
      as [Hn Hin].
    apply flagged_true. exists c. split; [|by apply Hall].
    simpl in Hn. by rewrite Hcols in Hn.
  - intros Hk (c & Hn & Hc)%flagged_true.
    destruct (Hcompl Hk c i Hc) as (r & s & e & Hr & Hin & Hrec).
    apply existsb_exists. exists r. split; [by apply list_elem_of_In|].
    apply (covers_record_of _ _ _ _ _ _ _ _ _ Hrec Hsd Hid).
    split; [|done]. simpl. by rewrite Hcols.
Qed.

Lemma aggregate_mask_index pm : index (aggregate_mask pm) = index (df pm).
Proof. unfold aggregate_mask. by rewrite fold_punch_index. Qed.

Lemma aggregate_mask_colnames pm :
  colnames (aggregate_mask pm) = colnames (df pm).
Proof.
  unfold aggregate_mask. by rewrite fold_punch_colnames, colnames_frame_map.
Qed.

Lemma mask_after_results w new c i n t :
  is_monotonic (index (df (self w))) = true →
  colnames (df (self w)) !! c = Some n →
  index (df (self w)) !! i = Some t →
  cell (aggregate_mask (self (with_results w new))) c i =
  match cell (aggregate_mask (self w)) c i with
  | Some b => Some (b && negb (existsb (covers n t) new))
  | None => None
  end.
Proof.
  intros Hm Hn Ht. unfold with_results. cbn [self].
  rewrite aggregate_mask_results_app.
  apply fold_punch_cell.
  - by rewrite aggregate_mask_index.
  - by rewrite aggregate_mask_colnames.
  - by rewrite aggregate_mask_index.
Qed.

Lemma mask_with_results w new :
  empty (df (self w)) = false →
  mask (with_results w new) =
  (Ok (Some (aggregate_mask (self (with_results w new)))), with_results w new).
Proof. intros He. rewrite mask_run. simpl. by rewrite He. Qed.
End punches.

(** X3. Recording, then reading the mask.  On a dataset with distinct column
    labels and strictly increasing timestamps, a call of
    [_append_test_results] on a failure matrix over the rows of the dataset
    and columns the dataset knows returns, and in the mask read afterwards a
    cell is true only if it was true before; a cell that was true and is now
    false is flagged in the (time-filtered) failure matrix: the recorded
    intervals reach no cell that did not fail.  With [min_failures <= 1]
    nothing is lost either: the new mask is the old one with exactly the
    flagged cells made false. *)
Theorem append_test_results_then_mask `{Extern} (w : World)
    (fm fm' : DataFrame bool) (d : DataFrame float) (msg : string) (k : Z)
    (m : DataFrame bool) :
  NoDup (colnames (df (self w))) →
  StronglySorted Z.lt (index (df (self w))) →
  apply_tfilter (tfilter (self w)) fm = Ok fm' →
  frame_ok fm' →
  index fm' = index (df (self w)) →
  getitem (df (self w)) (colnames fm') = Ok d →
  (mask w).1 = Ok (Some m) →
  ∃ w' m',
    _append_test_results fm msg k false w = (Ok tt, w') ∧
    (mask w').1 = Ok (Some m') ∧
    ∀ c i n t b,
      colnames (df (self w)) !! c = Some n →
      index (df (self w)) !! i = Some t →
      cell m c i = Some b →
      ∃ b', cell m' c i = Some b' ∧
            (b' = true → b = true) ∧
            (b = true → b' = false → flagged fm' n i = true) ∧
            (k ≤ 1 → b' = b && negb (flagged fm' n i)).
Proof.
  intros Hnd Hs Hf Hok Hidx Hget. rewrite mask_run.
  destruct (empty (df (self w))) eqn:He; [done|]. simpl. intros [= <-].
  destruct (append_punches fm fm' msg k w d Hnd Hs Hf Hok Hidx Hget)
    as (new & Hrun & _ & Hcov).
  specialize (Hrun []). rewrite with_results_nil in Hrun.
  exists (with_results w new), (aggregate_mask (self (with_results w new))).
  split; [done|]. split; [by rewrite mask_with_results|].
  intros c i n t b Hn Ht Hb.
  rewrite (mask_after_results w new c i n t)
    by (try done; by apply strictly_sorted_monotonic).
  rewrite Hb. eexists. split; [done|].
  destruct (Hcov n t i Ht) as [Hsound Hcompl].
  destruct (existsb (covers n t) new) eqn:Hex.
  - rewrite (Hsound eq_refl). simpl. rewrite andb_false_r.
    split; [done|]. split; [done|]. done.
  - simpl. rewrite andb_true_r. split; [done|].
    split; [by intros -> [=]|].
    intros Hk. destruct (flagged fm' n i) eqn:Hfl; [|by rewrite andb_true_r].
    by specialize (Hcompl Hk eq_refl).
Qed.

(** * The detectors, seen from the mask *)

Section bounds.
Context `{Extern}.
Implicit Types (w : World) (d : DataFrame float) (lo hi : option float).

Lemma normalized_bound_entry lo : normalized (bound_entry lo) = bound_entry lo.
Proof. by destruct lo. Qed.

(** The two comparisons of [_generate_test_results], one after the other. *)
Lemma generate_test_results_run d bound k prefix w lo hi new_lo new_hi :
  objects w !! bound = Some [bound_entry lo; bound_entry hi] →
  match lo with
  | Some x =>
      _append_test_results (frame_map (λ y, flt y x) d)
        (prefix ++ " < lower bound, " ++ py_str (PNum x)) k false w =
      (Ok tt, with_results w new_lo)
  | None => new_lo = []
  end →
  match hi with
  | Some x =>
      _append_test_results (frame_map (λ y, fgt y x) d)
        (prefix ++ " > upper bound, " ++ py_str (PNum x)) k false
        (with_results w new_lo) =
      (Ok tt, with_results (with_results w new_lo) new_hi)
  | None => new_hi = []
  end →
  _generate_test_results d bound k prefix w =
  (Ok tt, with_results w (new_lo ++ new_hi)).
Proof.
  intros Hb Hlo Hhi. unfold _generate_test_results.
  rewrite bind_unfold, (normalize_bound_run bound _ w Hb).
  change (normalized <$> [bound_entry lo; bound_entry hi])
    with [normalized (bound_entry lo); normalized (bound_entry hi)].
  rewrite !normalized_bound_entry, (set_obj_id w) by done.
  rewrite bind_unfold. unfold obj_get at 1. rewrite Hb.
  cbn [py_index lookup list_lookup].
  rewrite bind_unfold.
  assert ((if is_None (bound_entry lo) then mret tt
           else mask ← lift (frame_lt d (bound_entry lo));
                _append_test_results mask
                  (prefix ++ " < lower bound, " ++ py_str (bound_entry lo))
                  k false) w = (Ok tt, with_results w new_lo)) as ->.
  { destruct lo as [x|]; simpl.
    - by rewrite bind_unfold.
    - subst new_lo. by rewrite with_results_nil. }
  rewrite bind_unfold. unfold obj_get.
  cbn [objects with_results]. rewrite Hb.
  cbn [py_index lookup list_lookup].
  destruct hi as [x|]; simpl.
  - rewrite bind_unfold. cbn [lift]. rewrite Hhi.
    by rewrite with_results_app.
  - subst new_hi. by rewrite app_nil_r.
Qed.
End bounds.

Section compare_mask.
Context `{Extern}.
Implicit Types (w : World) (d : DataFrame float).

(** The filtered comparison of a sub-table flags the cell of a column of the
    dataset when the column is part of the sub-table, the row passes the
    time filter and the value fails the comparison. *)
Lemma flagged_compare (cmp : float → bool) (pm : PerformanceMonitoring) d
    keep c i n x kb :
  NoDup (colnames (df pm)) →
  (∀ k, k ∈ columns d → k ∈ columns (df pm)) →
  colnames (df pm) !! c = Some n → cell (df pm) c i = Some x →
  keep !! i = Some kb →
  flagged (set_rows (map negb keep) false (frame_map cmp d)) n i =
  bool_decide (n ∈ colnames d) && kb && cmp x.
Proof.
  intros Hnd Hsub Hn Hx Hk. apply eq_true_iff_eq.
  rewrite flagged_true, !andb_true_iff, bool_decide_eq_true.
  rewrite colnames_set_rows, colnames_frame_map. split.
  - intros (c' & Hc' & Hcell).
    rewrite cell_set_rows, cell_frame_map in Hcell.
    rewrite (same_label_cell (df pm) d c c' n i Hnd Hsub Hn Hc'), Hx in Hcell.
    rewrite list_lookup_fmap, Hk in Hcell. simpl in Hcell.
    split; [split|].
    + by eapply list_elem_of_lookup_2.
    + by destruct kb.
    + destruct kb; simpl in Hcell; congruence.
  - intros [[(c' & Hc')%list_elem_of_lookup_1 ->] Hcmp].
    exists c'. split; [done|].
    rewrite cell_set_rows, cell_frame_map.
    rewrite (same_label_cell (df pm) d c c' n i Hnd Hsub Hn Hc'), Hx.
    rewrite list_lookup_fmap, Hk. simpl. by rewrite Hcmp.
Qed.

(** One side of a bound check, seen from the mask. *)
Lemma bound_punches (cmp : float → float → bool) (msg : float → string)
    (b : option float) w key d keep k :
  subtable (self w) key = Some d →
  NoDup (colnames (df (self w))) →
  frame_ok (df (self w)) →
  StronglySorted Z.lt (index (df (self w))) →
  kept_rows (tfilter (self w)) (index d) = Ok keep →
  ∃ new,
    match b with
    | Some y =>
        ∀ rs, _append_test_results (frame_map (λ x, cmp x y) d) (msg y) k
                false (with_results w rs) =
              (Ok tt, with_results (with_results w rs) new)
    | None => new = []
    end ∧
    ∀ c i n t x,
      colnames (df (self w)) !! c = Some n →
      index (df (self w)) !! i = Some t →
      cell (df (self w)) c i = Some x →
      (existsb (covers n t) new = true →
       bool_decide (n ∈ colnames d) && default false (keep !! i) &&
       match b with Some y => cmp x y | None => false end = true) ∧
      (k ≤ 1 →
       existsb (covers n t) new =
       bool_decide (n ∈ colnames d) && default false (keep !! i) &&
       match b with Some y => cmp x y | None => false end).
Proof.
  intros Hd Hnd Hok Hs Hkeep.
  destruct b as [y|].
  2:{ exists []. split; [done|]. intros c i n t x _ _ _. simpl.
      rewrite andb_false_r. done. }
  destruct (subtable_axes _ _ _ Hd Hnd Hok) as (Hidx & Hokd & Hget).
  destruct (getitem_names _ _ _ Hnd Hget) as (_ & _ & Hsub).
  set (fm := frame_map (λ x, cmp x y) d).
  set (fm' := set_rows (map negb keep) false fm).
  assert (apply_tfilter (tfilter (self w)) fm = Ok fm') as Hf
    by by apply apply_tfilter_kept.
  assert (frame_ok fm') as Hok'
    by by apply frame_ok_set_rows, frame_ok_frame_map.
  assert (colnames fm' = colnames d) as Hcols
    by (unfold fm', fm; by rewrite colnames_set_rows, colnames_frame_map).
  destruct (append_punches fm fm' (msg y) k w d Hnd Hs Hf Hok' Hidx)
    as (new & Hrun & _ & Hcov); [by rewrite Hcols|].
  exists new. split; [done|].
  intros c i n t x Hn Ht Hx.
  assert (∃ kb, keep !! i = Some kb) as [kb Hkb].
  { apply lookup_lt_is_Some_2.
    rewrite (kept_rows_length _ _ _ Hkeep), Hidx.
    by eapply lookup_lt_Some. }
  pose proof (flagged_compare (λ x, cmp x y) (self w) d keep c i n x kb
                Hnd Hsub Hn Hx Hkb) as Hfl.
  fold fm in Hfl. fold fm' in Hfl.
  rewrite Hkb. simpl. rewrite <- Hfl.
  destruct (Hcov n t i Ht) as [Hsound Hcompl]. split; [done|].
  intros Hk. apply eq_true_iff_eq. split; [done|by apply Hcompl].
Qed.
End compare_mask.

(** The run of [check_range] on a bound [lo, hi], and the mask after it. *)
Lemma check_range_mask_run `{Extern} (w : World) (bound : nat)
    (key : option string) (k : Z) (d : DataFrame float) (lo hi : option float)
    (keep : list bool) :
  subtable (self w) key = Some d →
  NoDup (colnames (df (self w))) →
  frame_ok (df (self w)) →
  StronglySorted Z.lt (index (df (self w))) →
  objects w !! bound = Some [bound_entry lo; bound_entry hi] →
  kept_rows (tfilter (self w)) (index d) = Ok keep →
  k ≤ 1 →
  ∃ new,
    check_range bound key k w =
      (Ok tt, with_results (add_log w [(INFO, "Check data range")]) new) ∧
    ∀ c i n x b,
      colnames (df (self w)) !! c = Some n →
      cell (df (self w)) c i = Some x →
      cell (aggregate_mask (self w)) c i = Some b →
      cell (aggregate_mask
              (self (with_results (add_log w [(INFO, "Check data range")])
                                  new))) c i =
        Some (b && negb (bool_decide (n ∈ colnames d) &&
                         default false (keep !! i) && outside lo hi x)).
Proof.
  intros Hd Hnd Hok Hs Hb Hkeep Hk.
  set (w1 := add_log w [(INFO, "Check data range")]).
  destruct (bound_punches flt
              (λ y, "Data" ++ " < lower bound, " ++ py_str (PNum y))%string
              lo w1 key d keep k Hd Hnd Hok Hs Hkeep)
    as (new_lo & Hrun_lo & Hcov_lo).
  destruct (bound_punches fgt
              (λ y, "Data" ++ " > upper bound, " ++ py_str (PNum y))%string
              hi w1 key d keep k Hd Hnd Hok Hs Hkeep)
    as (new_hi & Hrun_hi & Hcov_hi).
  exists (new_lo ++ new_hi).
  split.
  - unfold check_range. rewrite bind_unfold, log_run. fold w1.
    rewrite bind_unfold, (setup_data_Some key w1 d) by done.
    apply (generate_test_results_run _ _ _ _ _ lo hi); [done| |].
    + destruct lo; [|done]. specialize (Hrun_lo []).
      by rewrite with_results_nil in Hrun_lo.
    + destruct hi; [|done]. apply Hrun_hi.
  - intros c i n x b Hn Hx Hcell.
    assert (∃ t, index (df (self w)) !! i = Some t) as [t Ht].
    { apply lookup_lt_is_Some_2. unfold cell in Hx.
      destruct (columns (df (self w)) !! c) as [col|] eqn:Hc; [|done].
      simpl in Hx. apply lookup_lt_Some in Hx.
      unfold frame_ok in Hok. rewrite Forall_forall in Hok.
      rewrite <- (Hok col); [done|]. by eapply list_elem_of_lookup_2. }
    rewrite (mask_after_results w1 _ c i n t)
      by (try done; by apply strictly_sorted_monotonic).
    change (aggregate_mask (self w1)) with (aggregate_mask (self w)).
    rewrite Hcell. f_equal. f_equal. f_equal.
    rewrite existsb_app.
    rewrite (proj2 (Hcov_lo c i n t x Hn Ht Hx) Hk).
    rewrite (proj2 (Hcov_hi c i n t x Hn Ht Hx) Hk).
    unfold outside. by rewrite andb_orb_distrib_r.
Qed.

(** X4. [check_range], then the mask.  On a dataset with distinct column
    labels and strictly increasing timestamps, with a bound [lo, hi] (each a
    number or None) and [min_failures <= 1], [check_range] returns and the
    mask read afterwards is the mask read before with exactly these cells
    made false: the cells of the columns of the selected sub-table, on rows
    the time filter lets through, whose value is strictly below [lo] or
    strictly above [hi].  A None bound checks nothing on its side. *)
Theorem check_range_then_mask `{Extern} (w : World) (bound : nat)
    (key : option string) (k : Z) (d : DataFrame float) (lo hi : option float)
    (keep : list bool) (m : DataFrame bool) :
  subtable (self w) key = Some d →
  NoDup (colnames (df (self w))) →
  frame_ok (df (self w)) →
  StronglySorted Z.lt (index (df (self w))) →
  objects w !! bound = Some [bound_entry lo; bound_entry hi] →
  kept_rows (tfilter (self w)) (index d) = Ok keep →
  k ≤ 1 →
  (mask w).1 = Ok (Some m) →
  ∃ w' m',
    check_range bound key k w = (Ok tt, w') ∧
    (mask w').1 = Ok (Some m') ∧
    ∀ c i n x b,
      colnames (df (self w)) !! c = Some n →
      cell (df (self w)) c i = Some x →
      cell m c i = Some b →
      cell m' c i =
        Some (b && negb (bool_decide (n ∈ colnames d) &&
                         default false (keep !! i) && outside lo hi x)).
Proof.
  intros Hd Hnd Hok Hs Hb Hkeep Hk. rewrite mask_run.
  destruct (empty (df (self w))) eqn:He; [done|]. simpl. intros [= <-].
  destruct (check_range_mask_run w bound key k d lo hi keep Hd Hnd Hok Hs Hb
              Hkeep Hk) as (new & Hrun & Hcell).
  eexists _, _. split; [exact Hrun|]. split; [|exact Hcell].
  by rewrite mask_with_results.
Qed.

(** * [check_missing] *)

Section missing.
Context `{Extern}.
Implicit Types (w : World) (d : DataFrame float) (m : DataFrame bool).

Lemma fold_clear_rows rs m :
  is_monotonic (index m) = true →
  ∃ m1, fold_res clear_rows rs m = Ok m1 ∧
        index m1 = index m ∧ colnames m1 = colnames m ∧
        (frame_ok m → frame_ok m1) ∧
        ∀ c i t, index m !! i = Some t →
          cell m1 c i =
          match cell m c i with
          | Some b =>
              Some (b && negb (existsb (λ r, (Start_Time r <=? t) &&
                                             (t <=? End_Time r)) rs))
          | None => None
          end.
Proof.
  revert m. induction rs as [|r rs IH]; intros m Hm.
  - exists m. simpl. repeat split; try done.
    intros c i t _. destruct (cell m c i); [|done]. by rewrite andb_true_r.
  - cbn [fold_res]. unfold clear_rows at 1.
    rewrite loc_slice_monotonic by done.
    set (rows := map (λ t, (Start_Time r <=? t) && (t <=? End_Time r))
                     (index m)).
    destruct (IH (set_rows rows false m) Hm)
      as (m1 & Hrun & Hidx & Hcols & Hok & Hcell).
    exists m1. split; [done|]. split; [done|].
    split; [by rewrite Hcols, colnames_set_rows|].
    split; [intros ?; by apply Hok, frame_ok_set_rows|].
    intros c i t Ht. rewrite (Hcell c i t) by done.
    rewrite cell_set_rows. unfold rows. rewrite list_lookup_fmap, Ht.
    simpl. destruct (cell m c i) as [b|]; [|by destruct (_ && _)].
    destruct ((Start_Time r <=? t) && (t <=? End_Time r)); simpl.
    + by rewrite andb_false_r.
    + done.
Qed.

Lemma existsb_filter {A} (p g : A → bool) (l : list A) :
  existsb g (List.filter p l) = existsb (λ x, p x && g x) l.
Proof.
  induction l as [|x l IH]; [done|]. simpl.
  destruct (p x); simpl; by rewrite IH.
Qed.

Lemma flagged_filtered m keep n i kb :
  keep !! i = Some kb →
  flagged (set_rows (map negb keep) false m) n i = kb && flagged m n i.
Proof.
  intros Hk. apply eq_true_iff_eq.
  rewrite andb_true_iff, !flagged_true, colnames_set_rows.
  split.
  - intros (c & Hc & Hcell). rewrite cell_set_rows in Hcell.
    rewrite list_lookup_fmap, Hk in Hcell. simpl in Hcell.
    destruct kb; simpl in Hcell.
    + split; [done|]. by exists c.
    + by destruct (cell m c i).
  - intros [-> (c & Hc & Hcell)]. exists c. split; [done|].
    rewrite cell_set_rows, list_lookup_fmap, Hk. done.
Qed.

(** A failure matrix computed cell by cell from a sub-table flags a cell
    of the dataset when its column is part of the sub-table and its value
    fails. *)
Lemma flagged_cells (g : float → bool) (pm : PerformanceMonitoring) d m
    c i n x :
  NoDup (colnames (df pm)) →
  (∀ k, k ∈ columns d → k ∈ columns (df pm)) →
  colnames m = colnames d →
  (∀ c', cell m c' i = g <$> cell d c' i) →
  colnames (df pm) !! c = Some n → cell (df pm) c i = Some x →
  flagged m n i = bool_decide (n ∈ colnames d) && g x.
Proof.
  intros Hnd Hsub Hcols Hcell Hn Hx. apply eq_true_iff_eq.
  rewrite flagged_true, andb_true_iff, bool_decide_eq_true, Hcols. split.
  - intros (c' & Hc' & Hc). rewrite Hcell in Hc.
    rewrite (same_label_cell (df pm) d c c' n i Hnd Hsub Hn Hc'), Hx in Hc.
    split; [by eapply list_elem_of_lookup_2|]. simpl in Hc. congruence.
  - intros [(c' & Hc')%list_elem_of_lookup_1 Hg]. exists c'.
    split; [done|]. rewrite Hcell.
    rewrite (same_label_cell (df pm) d c c' n i Hnd Hsub Hn Hc'), Hx.
    simpl. by rewrite Hg.
Qed.

Lemma frame_ext {A} (a b : DataFrame A) :
  index a = index b → colnames a = colnames b →
  (∀ c i, cell a c i = cell b c i) → a = b.
Proof.
  destruct a as [ia ca], b as [ib cb]. unfold colnames, cell. simpl.
  intros -> Hn Hcell. f_equal. apply list_eq. intros c.
  pose proof (f_equal (λ l, l !! c) Hn) as Hc. simpl in Hc.
  rewrite !list_lookup_fmap in Hc.
  destruct (ca !! c) as [[n col]|] eqn:Ha, (cb !! c) as [[n' col']|] eqn:Hb;
    simpl in Hc; try done.
  injection Hc as ->. do 2 f_equal. apply list_eq. intros i.
  specialize (Hcell c i). by rewrite Ha, Hb in Hcell.
Qed.

Lemma cell_index (d0 : DataFrame float) c i x :
  frame_ok d0 → cell d0 c i = Some x → ∃ t, index d0 !! i = Some t.
Proof.
  intros Hok Hx. apply lookup_lt_is_Some_2. unfold cell in Hx.
  destruct (columns d0 !! c) as [col|] eqn:Hc; [|done].
  simpl in Hx. apply lookup_lt_Some in Hx.
  unfold frame_ok in Hok. rewrite Forall_forall in Hok.
  rewrite <- (Hok col); [done|]. by eapply list_elem_of_lookup_2.
Qed.

(** Intervals that include absent cells only leave the mask as it is. *)
Lemma mask_unchanged_by_absent w new :
  frame_ok (df (self w)) →
  is_monotonic (index (df (self w))) = true →
  (∀ c i n t, colnames (df (self w)) !! c = Some n →
              index (df (self w)) !! i = Some t →
              existsb (covers n t) new = true →
              cell (df (self w)) c i = Some NaN) →
  aggregate_mask (self (with_results w new)) = aggregate_mask (self w).
Proof.
  intros Hok Hm Hnan. apply frame_ext.
  - by rewrite !aggregate_mask_index.
  - by rewrite !aggregate_mask_colnames.
  - intros c i.
    destruct (cell (df (self w)) c i) as [x|] eqn:Hx.
    + destruct (cell_index _ _ _ _ Hok Hx) as [t Ht].
      assert (∃ n, colnames (df (self w)) !! c = Some n) as [n Hn].
      { unfold colnames, cell in *. rewrite list_lookup_fmap.
        destruct (columns (df (self w)) !! c); [by eexists|done]. }
      rewrite (mask_after_results w new c i n t) by done.
      destruct (cell (aggregate_mask (self w)) c i) as [b|] eqn:Hb; [|done].
      f_equal. destruct (existsb (covers n t) new) eqn:Hex;
        [|by rewrite andb_true_r].
      rewrite andb_false_r.
      specialize (Hnan c i n t Hn Ht Hex).
      assert (cell (aggregate_mask (self w)) c i = Some false) as Hf.
      { unfold aggregate_mask. apply fold_punch_cell_false.
        by rewrite cell_notnull, Hnan. }
      congruence.
    + assert (∀ rs, cell (fold_left punch rs
                (frame_map (λ x, negb (is_nan x)) (df (self w)))) c i = None)
        as Hnone.
      { intros rs.
        destruct (fold_punch_cell_inv rs
                    (frame_map (λ x, negb (is_nan x)) (df (self w))) c i)
          as [->|[[? Hs] _]].
        - by rewrite cell_notnull, Hx.
        - by rewrite cell_notnull, Hx in Hs. }
      unfold aggregate_mask. by rewrite !Hnone.
Qed.
End missing.

(** X5. [check_missing], then the mask.  On a dataset with distinct column
    labels and strictly increasing timestamps [check_missing] returns and
    what it records is labelled "Missing data".  A recorded interval includes
    only absent (NaN) cells of the selected columns, on rows the time filter
    lets through and whose timestamp lies in no interval recorded before as
    "Missing timestamp"; with [min_failures <= 1] every such cell is
    included.  The mask read afterwards is the mask read before: absent
    cells were false in it already. *)
Theorem check_missing_then_mask `{Extern} (w : World) (key : option string)
    (k : Z) (d : DataFrame float) (keep : list bool) :
  subtable (self w) key = Some d →
  NoDup (colnames (df (self w))) →
  frame_ok (df (self w)) →
  StronglySorted Z.lt (index (df (self w))) →
  kept_rows (tfilter (self w)) (index d) = Ok keep →
  ∃ new,
    check_missing key k w =
      (Ok tt, with_results (add_log w [(INFO, "Check for missing data")]) new) ∧
    Forall (λ r, Error_Flag r = "Missing data") new ∧
    (∀ c i n t x,
       colnames (df (self w)) !! c = Some n →
       index (df (self w)) !! i = Some t →
       cell (df (self w)) c i = Some x →
       (existsb (covers n t) new = true →
        x = NaN ∧ n ∈ colnames d ∧ keep !! i = Some true ∧
        missing_at (test_results (self w)) t = false) ∧
       (k ≤ 1 → x = NaN → n ∈ colnames d → keep !! i = Some true →
        missing_at (test_results (self w)) t = false →
        existsb (covers n t) new = true)) ∧
    (mask (with_results (add_log w [(INFO, "Check for missing data")]) new)).1
      = (mask w).1.
Proof.
  intros Hd Hnd Hok Hs Hkeep.
  pose proof (strictly_sorted_monotonic _ Hs) as Hmono.
  destruct (subtable_axes _ _ _ Hd Hnd Hok) as (Hidx & Hokd & Hget).
  destruct (getitem_names _ _ _ Hnd Hget) as (_ & _ & Hsub).
  set (w1 := add_log w [(INFO, "Check for missing data")]).
  set (rs := List.filter
               (λ r, bool_decide (Error_Flag r = "Missing timestamp"))
               (test_results (self w))).
  destruct (fold_clear_rows rs (frame_map is_nan d))
    as (m1 & Hfold & Hidx1 & Hcols1 & Hok1 & Hcell1);
    [simpl; by rewrite Hidx|].
  simpl in Hidx1. rewrite colnames_frame_map in Hcols1.
  set (fm' := set_rows (map negb keep) false m1).
  assert (apply_tfilter (tfilter (self w1)) m1 = Ok fm') as Hf
    by (apply apply_tfilter_kept; by rewrite Hidx1).
  assert (frame_ok fm') as Hok'
    by by apply frame_ok_set_rows, Hok1, frame_ok_frame_map.
  destruct (append_punches m1 fm' "Missing data" k w1 d Hnd Hs Hf Hok')
    as (new & Hrun & Hmsg & Hcov).
  { simpl. by rewrite Hidx1. }
  { unfold fm'. by rewrite colnames_set_rows, Hcols1. }
  specialize (Hrun []). rewrite with_results_nil in Hrun.
  assert (∀ c i n t x,
    colnames (df (self w)) !! c = Some n →
    index (df (self w)) !! i = Some t →
    cell (df (self w)) c i = Some x →
    flagged fm' n i =
    default false (keep !! i) &&
    (bool_decide (n ∈ colnames d) &&
     (is_nan x && negb (missing_at (test_results (self w)) t)))) as Hfl.
  { intros c i n t x Hn Ht Hx.
    assert (∃ kb, keep !! i = Some kb) as [kb Hkb].
    { apply lookup_lt_is_Some_2.
      rewrite (kept_rows_length _ _ _ Hkeep), Hidx.
      by eapply lookup_lt_Some. }
    unfold fm'. rewrite (flagged_filtered _ _ _ _ kb Hkb), Hkb. simpl.
    f_equal.
    apply (flagged_cells
             (λ x, is_nan x && negb (missing_at (test_results (self w)) t))
             (self w) d m1 c i n x Hnd Hsub Hcols1); [|done..].
    intros c'. rewrite (Hcell1 c' i t) by (simpl; by rewrite Hidx).
    rewrite cell_frame_map. destruct (cell d c' i) as [y|]; [|done].
    simpl. do 2 f_equal. unfold rs, missing_at. by rewrite existsb_filter. }
  exists new. split; [|split; [done|split]].
  - unfold check_missing. rewrite bind_unfold, log_run. fold w1.
    rewrite bind_unfold, (setup_data_Some key w1 d) by done.
    rewrite bind_unfold. cbn [get_self]. rewrite bind_unfold.
    change (test_results (self w1)) with (test_results (self w)).
    fold rs. rewrite Hfold. cbn [lift]. exact Hrun.
  - intros c i n t x Hn Ht Hx.
    destruct (Hcov n t i Ht) as [Hsound Hcompl].
    rewrite (Hfl c i n t x Hn Ht Hx) in Hsound, Hcompl. split.
    + intros Hex. specialize (Hsound Hex).
      apply andb_true_iff in Hsound as [Hk Hrest].
      apply andb_true_iff in Hrest as [Hin Hrest].
      apply andb_true_iff in Hrest as [Hnan Hmiss].
      apply bool_decide_eq_true in Hin. apply negb_true_iff in Hmiss.
      split; [by destruct x|]. split; [done|]. split; [|done].
      by destruct (keep !! i) as [[]|].
    + intros Hk -> Hin Hki Hmiss. apply Hcompl; [done|].
      rewrite Hki, Hmiss. simpl. by rewrite bool_decide_eq_true_2.
  - rewrite !mask_run. change (df (self (with_results w1 new)))
      with (df (self w)).
    destruct (empty (df (self w))); [done|]. simpl. do 2 f_equal.
    apply (mask_unchanged_by_absent w new); [done..|].
    intros c i n t Hn Ht Hex.
    assert (∃ x, cell (df (self w)) c i = Some x) as [x Hx].
    { destruct (Hcov n t i Ht) as [Hsound _]. specialize (Hsound Hex).
      apply flagged_true in Hsound as (c' & Hc' & Hcell).
      unfold fm' in Hc'. rewrite colnames_set_rows, Hcols1 in Hc'.
      unfold fm' in Hcell. rewrite cell_set_rows in Hcell.
      assert (is_Some (cell m1 c' i)) as Hs1.
      { destruct (map negb keep !! i) as [[]|]; [|by eexists..].
        destruct (cell m1 c' i); [by eexists|done]. }
      rewrite (Hcell1 c' i t) in Hs1 by (simpl; by rewrite Hidx).
      rewrite cell_frame_map in Hs1.
      rewrite (same_label_cell (df (self w)) d c c' n i Hnd Hsub Hn Hc') in Hs1.
      destruct (cell (df (self w)) c i) as [x|]; [by exists x|].
      simpl in Hs1. by destruct Hs1. }
    destruct (Hcov n t i Ht) as [Hsound _].
    rewrite (Hfl c i n t x Hn Ht Hx) in Hsound. specialize (Hsound Hex).
    apply andb_true_iff in Hsound as [_ Hrest].
    apply andb_true_iff in Hrest as [_ Hrest].
    apply andb_true_iff in Hrest as [Hnan _].
    rewrite Hx. by destruct x.
Qed.

(** * [check_corrupt] and the dataset *)

Section corrupt.
Context `{Extern}.
Implicit Types (w : World) (d : DataFrame float) (cv : list float).

Lemma cell_frame_zip_bind {A B C} (g : A → B → C) (a : DataFrame A)
    (b : DataFrame B) c i :
  cell (frame_zip g a b) c i =
  x ← cell a c i; y ← cell b c i; Some (g x y).
Proof.
  unfold cell, frame_zip. simpl. rewrite lookup_zip_with.
  destruct (columns a !! c) as [[n col]|]; simpl; [|done].
  destruct (columns b !! c) as [[n' col']|]; simpl;
    [|by destruct (col !! i)].
  rewrite lookup_zip_with. by destruct (col !! i).
Qed.

Lemma colnames_frame_zip {A B C} (g : A → B → C) (a : DataFrame A)
    (b : DataFrame B) :
  length (columns a) = length (columns b) →
  colnames (frame_zip g a b) = colnames a.
Proof.
  unfold colnames, frame_zip. simpl. generalize (columns b).
  induction (columns a) as [|x xs IH]; intros [|y ys] Hlen; simpl in *;
    try done.
  f_equal. apply IH. lia.
Qed.

(** The matrix of corrupt cells (lines 682-684). *)
Lemma corrupt_mask_cells d cv (acc : DataFrame bool) (g : float → bool) :
  colnames acc = colnames d →
  (∀ c i, cell acc c i = g <$> cell d c i) →
  let m := fold_left
             (λ mask v, frame_zip orb mask (frame_map (λ x, feq x v) d))
             cv acc in
  colnames m = colnames d ∧
  ∀ c i, cell m c i = (λ x, g x || existsb (feq x) cv) <$> cell d c i.
Proof.
  revert acc g. induction cv as [|v cv IH]; intros acc g Hcols Hcell; simpl.
  - split; [done|]. intros c i. rewrite Hcell.
    destruct (cell d c i); simpl; [|done]. by rewrite orb_false_r.
  - destruct (IH (frame_zip orb acc (frame_map (λ x, feq x v) d))
                (λ x, g x || feq x v)) as [Hc Hcl].
    + rewrite colnames_frame_zip; [done|].
      unfold frame_map. simpl. rewrite length_map.
      unfold colnames in Hcols.
      by rewrite <- (length_fmap fst), Hcols, length_fmap.
    + intros c i. rewrite cell_frame_zip_bind, Hcell, cell_frame_map.
      by destruct (cell d c i).
    + split; [done|]. intros c i. rewrite Hcl.
      destruct (cell d c i); simpl; [|done]. by rewrite orb_assoc.
Qed.

Lemma scrub_aligned_cell (D : DataFrame float) (m : DataFrame bool) d
    (g : float → bool) c i n x :
  NoDup (colnames D) →
  (∀ k, k ∈ columns d → k ∈ columns D) →
  colnames m = colnames d →
  (∀ c' i, cell m c' i = g <$> cell d c' i) →
  colnames D !! c = Some n → cell D c i = Some x →
  cell (scrub_aligned D m) c i =
  Some (if bool_decide (n ∈ colnames d) && g x then NaN else x).
Proof.
  intros Hnd Hsub Hcols Hcell Hn Hx.
  unfold cell, scrub_aligned. simpl. rewrite list_lookup_fmap.
  unfold colnames in Hn. rewrite list_lookup_fmap in Hn.
  destruct (columns D !! c) as [[n' col]|] eqn:Hc; [|done].
  simpl in Hn. injection Hn as ->. simpl.
  assert (col !! i = Some x) as Hi by (unfold cell in Hx; by rewrite Hc in Hx).
  destruct (List.filter _ (columns m)) as [|k ks] eqn:Hf; simpl.
  - rewrite Hi. rewrite bool_decide_eq_false_2; [done|].
    intros Hin. rewrite <- Hcols in Hin.
    apply list_elem_of_fmap in Hin as (k & Hk & Hin).
    assert (In k (List.filter (λ k, bool_decide (k.1 = n)) (columns m)))
      as Hin'.
    { apply filter_In. split; [by apply list_elem_of_In|].
      by apply bool_decide_eq_true. }
    by rewrite Hf in Hin'.
  - assert (In k (List.filter (λ k, bool_decide (k.1 = n)) (columns m)))
      as Hin by (rewrite Hf; by left).
    apply filter_In in Hin as [Hin Hkn].
    apply bool_decide_eq_true in Hkn.
    apply list_elem_of_In, list_elem_of_lookup_1 in Hin as (c' & Hc').
    assert (colnames d !! c' = Some n) as Hdn.
    { rewrite <- Hcols. unfold colnames. rewrite list_lookup_fmap, Hc'.
      simpl. by rewrite Hkn. }
    rewrite bool_decide_eq_true_2 by by eapply list_elem_of_lookup_2.
    specialize (Hcell c' i). unfold cell at 1 in Hcell.
    rewrite Hc' in Hcell. simpl in Hcell.
    rewrite (same_label_cell D d c c' n i Hnd Hsub) in Hcell; try done.
    2:{ unfold colnames. by rewrite list_lookup_fmap, Hc. }
    rewrite Hx in Hcell. simpl in Hcell.
    rewrite set_where_lookup, Hcell, Hi. simpl. by destruct (g x).
Qed.

Lemma scrub_same_cell (D : DataFrame float) (m : DataFrame bool) d
    (g : float → bool) c i n x :
  NoDup (colnames D) →
  (∀ k, k ∈ columns d → k ∈ columns D) →
  colnames m = colnames d →
  (∀ c' i, cell m c' i = g <$> cell d c' i) →
  colnames m = colnames D →
  colnames D !! c = Some n → cell D c i = Some x →
  cell (scrub_same D m) c i =
  Some (if bool_decide (n ∈ colnames d) && g x then NaN else x).
Proof.
  intros Hnd Hsub Hcols Hcell Hsame Hn Hx.
  assert (colnames d !! c = Some n) as Hdn by (by rewrite <- Hcols, Hsame).
  rewrite bool_decide_eq_true_2 by by eapply list_elem_of_lookup_2.
  specialize (Hcell c i).
  rewrite (same_label_cell D d c c n i Hnd Hsub Hn Hdn), Hx in Hcell.
  simpl in Hcell.
  assert (colnames m !! c = Some n) as Hmn by (by rewrite Hsame).
  unfold cell, scrub_same. simpl. rewrite lookup_zip_with.
  unfold colnames in Hn, Hmn. rewrite list_lookup_fmap in Hn.
  rewrite list_lookup_fmap in Hmn. unfold cell in Hx, Hcell.
  destruct (columns D !! c) as [[n' col]|]; [|done].
  destruct (columns m !! c) as [[n'' sel]|]; [|done].
  simpl in *. rewrite set_where_lookup, Hcell, Hx. simpl.
  by destruct (g x).
Qed.

(** A mask over a sub-table with distinct column labels can be applied. *)
Lemma scrub_run (D : DataFrame float) (m : DataFrame bool) :
  NoDup (colnames m) → ∃ D', scrub D m = Ok D'.
Proof.
  intros Hnd. unfold scrub. case_bool_decide; [by eexists|].
  rewrite bool_decide_eq_true_2 by done. by eexists.
Qed.

Lemma scrub_cell (D : DataFrame float) (m : DataFrame bool) d
    (g : float → bool) c i n x D' :
  NoDup (colnames D) →
  (∀ k, k ∈ columns d → k ∈ columns D) →
  colnames m = colnames d →
  (∀ c' i, cell m c' i = g <$> cell d c' i) →
  scrub D m = Ok D' →
  colnames D !! c = Some n → cell D c i = Some x →
  cell D' c i =
  Some (if bool_decide (n ∈ colnames d) && g x then NaN else x).
Proof.
  intros Hnd Hsub Hcols Hcell Hs Hn Hx. unfold scrub in Hs.
  case_bool_decide as Hsame.
  - injection Hs as <-. by apply scrub_same_cell.
  - case_bool_decide; [|done]. injection Hs as <-.
    by apply scrub_aligned_cell.
Qed.
End corrupt.

(** X6. [check_corrupt] and the dataset.  Let the column labels of the
    dataset be distinct, and those of the selected sub-table too (the key
    lists no column twice).  The dataset is scrubbed before anything is
    recorded, so that whatever the time filter and [min_failures], and
    whether the recording returns or raises: the dataset keeps its index and
    column labels, and each of its cells is NaN if its column is part of the
    selected sub-table and its value equals one of the corrupt values, and
    is as before otherwise.  Afterwards no cell of the selected columns
    equals a corrupt value. *)
Theorem check_corrupt_scrubs_dataset `{Extern} (w : World)
    (corrupt_values : list float) (key : option string) (k : Z)
    (d : DataFrame float) :
  subtable (self w) key = Some d →
  NoDup (colnames (df (self w))) →
  NoDup (colnames d) →
  index (df (self (check_corrupt corrupt_values key k w).2)) =
    index (df (self w)) ∧
  colnames (df (self (check_corrupt corrupt_values key k w).2)) =
    colnames (df (self w)) ∧
  ∀ c i n x,
    colnames (df (self w)) !! c = Some n →
    cell (df (self w)) c i = Some x →
    cell (df (self (check_corrupt corrupt_values key k w).2)) c i =
      Some (if bool_decide (n ∈ colnames d) &&
               existsb (feq x) corrupt_values
            then NaN else x) ∧
    ∀ y v, cell (df (self (check_corrupt corrupt_values key k w).2)) c i =
             Some y →
           n ∈ colnames d → v ∈ corrupt_values → feq y v = false.
Proof.
  intros Hd Hnd Hndd.
  set (m := fold_left
              (λ mask v, frame_zip orb mask (frame_map (λ x, feq x v) d))
              corrupt_values (frame_map (λ _, false) d)).
  destruct (corrupt_mask_cells d corrupt_values (frame_map (λ _, false) d)
              (λ _, false)) as [Hmc Hmcell].
  { by rewrite colnames_frame_map. }
  { intros c i. by rewrite cell_frame_map. }
  fold m in Hmc, Hmcell. simpl in Hmcell.
  destruct (scrub_run (df (self w)) m) as [D' Hscrub]; [by rewrite Hmc|].
  assert (df (self (check_corrupt corrupt_values key k w).2) = D') as ->.
  { unfold check_corrupt. rewrite bind_unfold, log_run, bind_unfold.
    rewrite (setup_data_Some key _ d) by done.
    rewrite bind_unfold. cbn [get_self]. rewrite bind_unfold. fold m.
    set (w1 := add_log w [(INFO, "Check for corrupt data")]).
    change (df (self w1)) with (df (self w)). rewrite Hscrub. cbn [lift].
    rewrite bind_unfold.
    change (set_df D' w1)
      with (Ok tt, mkWorld (mkPM D' (trans (self w1))
                            (tfilter (self w1)) (test_results (self w1)))
                           (objects w1) (logged w1)).
    cbv beta iota.
    match goal with
    | |- df (self (_append_test_results ?a ?b ?c ?d ?w2).2) = _ =>
        pose proof (append_test_results_preserves same_df same_df_refl
                      same_df_trans append_result_same_df a b c d w2) as Ha
    end.
    unfold same_df in Ha. by rewrite Ha. }
  destruct (scrub_scrubbed (df (self w)) m D' Hscrub) as (Hidx & Hcols & _).
  split; [done|]. split; [done|].
  assert (∀ k0, k0 ∈ columns d → k0 ∈ columns (df (self w))) as Hsub.
  { unfold subtable in Hd. destruct (empty _); [done|].
    destruct key as [key|]; [|by injection Hd as <-].
    destruct (trans (self w) !! key) as [names|]; simpl in Hd; [|done].
    destruct (getitem (df (self w)) names) as [d0|] eqn:Hg; [|done].
    injection Hd as <-.
    by destruct (getitem_names _ _ _ Hnd Hg) as (_ & _ & ?). }
  intros c i n x Hn Hx.
  pose proof (scrub_cell (df (self w)) m d (λ x, existsb (feq x) corrupt_values)
                c i n x D' Hnd Hsub Hmc Hmcell Hscrub Hn Hx) as Hcell.
  split; [done|].
  intros y v Hy Hin Hv. rewrite Hcell in Hy. injection Hy as <-.
  rewrite bool_decide_eq_true_2 by done. simpl.
  destruct (existsb (feq x) corrupt_values) eqn:Hex; [done|].
  apply not_true_iff_false. intros Hfeq.
  apply not_true_iff_false in Hex. apply Hex.
  apply existsb_exists. exists v. split; [by apply list_elem_of_In|done].
Qed.

(** * [check_corrupt], seen from the mask *)

Section corrupt_mask.
Context `{Extern}.
Implicit Types (w : World) (d : DataFrame float) (cv : list float).

Lemma getitem_cols_known {A} (cols : list (label * list A)) names :
  Forall (λ n, n ∈ cols.*1) names ↔ ∃ f, getitem_cols cols names = Ok f.
Proof.
  induction names as [|n names IH]; simpl.
  - split; [by eexists|constructor].
  - split.
    + intros [Hn Hns]%Forall_cons. apply IH in Hns as [f Hf]. rewrite Hf.
      destruct (List.filter _ cols) as [|c cs] eqn:Hfl; [|by eexists].
      apply list_elem_of_fmap in Hn as (c & -> & Hc).
      assert (In c (List.filter (λ k, bool_decide (k.1 = c.1)) cols)) as Hin
        by (apply filter_In; split;
            [by apply list_elem_of_In|by apply bool_decide_eq_true]).
      by rewrite Hfl in Hin.
    + intros [f Hf].
      destruct (List.filter _ cols) as [|c cs] eqn:Hfl; [done|].
      destruct (getitem_cols cols names) as [rest|] eqn:Hr; [|done].
      constructor; [|apply IH; by eexists].
      assert (In c (List.filter (λ k, bool_decide (k.1 = n)) cols)) as Hin
        by (rewrite Hfl; by left).
      apply filter_In in Hin as [Hin Hb]. apply bool_decide_eq_true in Hb.
      subst n. by apply list_elem_of_fmap_2, list_elem_of_In.
Qed.

Lemma getitem_same_names {A} (D D' d0 : DataFrame A) names :
  colnames D' = colnames D → getitem D names = Ok d0 →
  ∃ r, getitem D' names = Ok r.
Proof.
  unfold getitem, colnames. intros Hc Hg.
  destruct (getitem_cols (columns D) names) as [f|] eqn:Hf; [|done].
  assert (∃ f', getitem_cols (columns D') names = Ok f') as [f' ->];
    [|by eexists].
  apply getitem_cols_known. rewrite Hc. apply getitem_cols_known.
  by eexists.
Qed.

Lemma index_frame_zip {A B C} (g : A → B → C) (a : DataFrame A)
    (b : DataFrame B) : index (frame_zip g a b) = index a.
Proof. done. Qed.

Lemma frame_ok_frame_zip {A B C} (g : A → B → C) (a : DataFrame A)
    (b : DataFrame B) :
  frame_ok a → frame_ok b → index a = index b →
  frame_ok (frame_zip g a b).
Proof.
  unfold frame_ok, frame_zip. simpl. intros Ha Hb Hidx.
  rewrite <- Hidx in Hb. clear Hidx. revert Hb. generalize (columns b).
  induction Ha as [|x xs Hx _ IH]; intros [|y ys] Hys; simpl;
    try by constructor.
  apply Forall_cons in Hys as [Hy Hys]. constructor; [|by apply IH].
  simpl. rewrite length_zip_with. lia.
Qed.

Lemma corrupt_mask_shape d cv (acc : DataFrame bool) :
  frame_ok d → frame_ok acc → index acc = index d →
  let m := fold_left
             (λ mask v, frame_zip orb mask (frame_map (λ x, feq x v) d))
             cv acc in
  frame_ok m ∧ index m = index d.
Proof.
  intros Hd. revert acc. induction cv as [|v cv IH]; intros acc Ha Hi;
    simpl; [done|].
  apply IH; [|done].
  apply frame_ok_frame_zip; [done|by apply frame_ok_frame_map|done].
Qed.
End corrupt_mask.

(** X19. [check_corrupt], then the mask.  On a rectangular dataset with
    distinct column labels and strictly increasing timestamps, with a key
    that lists no column twice (the column labels of the selected sub-table
    are distinct) and a time filter that can be aligned with the dataset,
    [check_corrupt] returns, and the mask read afterwards is the mask read
    before with exactly the cells of the selected columns that held a
    corrupt value made false.  This is so whatever the time filter lets
    through and whatever [min_failures]: a corrupt value on a filtered row,
    or in a run too short to be recorded, is scrubbed from the dataset all
    the same, and an absent cell is false in the mask. *)
Theorem check_corrupt_then_mask `{Extern} (w : World)
    (corrupt_values : list float) (key : option string) (k : Z)
    (d : DataFrame float) (keep : list bool) (m : DataFrame bool) :
  subtable (self w) key = Some d →
  NoDup (colnames (df (self w))) →
  NoDup (colnames d) →
  frame_ok (df (self w)) →
  StronglySorted Z.lt (index (df (self w))) →
  kept_rows (tfilter (self w)) (index d) = Ok keep →
  (mask w).1 = Ok (Some m) →
  ∃ w' m',
    check_corrupt corrupt_values key k w = (Ok tt, w') ∧
    (mask w').1 = Ok (Some m') ∧
    ∀ c i n x b,
      colnames (df (self w)) !! c = Some n →
      cell (df (self w)) c i = Some x →
      cell m c i = Some b →
      cell m' c i =
        Some (b && negb (bool_decide (n ∈ colnames d) &&
                         existsb (feq x) corrupt_values)).
Proof.
  intros Hd Hnd Hndd Hok Hs Hkeep. rewrite mask_run.
  destruct (empty (df (self w))) eqn:He; [done|]. simpl. intros [= <-].
  pose proof (strictly_sorted_monotonic _ Hs) as Hmono.
  destruct (subtable_axes _ _ _ Hd Hnd Hok) as (Hidx & Hokd & Hget).
  destruct (getitem_names _ _ _ Hnd Hget) as (_ & _ & Hsub).
  set (w1 := add_log w [(INFO, "Check for corrupt data")]).
  set (M := fold_left
              (λ mask v, frame_zip orb mask (frame_map (λ x, feq x v) d))
              corrupt_values (frame_map (λ _, false) d)).
  destruct (corrupt_mask_cells d corrupt_values (frame_map (λ _, false) d)
              (λ _, false)) as [HMc HMcell].
  { by rewrite colnames_frame_map. }
  { intros c i. by rewrite cell_frame_map. }
  fold M in HMc, HMcell. simpl in HMcell.
  destruct (corrupt_mask_shape d corrupt_values (frame_map (λ _, false) d))
    as [HMok HMidx]; [done|by apply frame_ok_frame_map|done|].
  fold M in HMok, HMidx.
  destruct (scrub_run (df (self w)) M) as [df' Hscrub]; [by rewrite HMc|].
  destruct (scrub_scrubbed (df (self w)) M df' Hscrub) as (Hidx' & Hcols' & _).
  set (w2 := with_df w1 df').
  set (fm' := set_rows (map negb keep) false M).
  assert (apply_tfilter (tfilter (self w2)) M = Ok fm') as Hf
    by (apply apply_tfilter_kept; by rewrite HMidx).
  assert (frame_ok fm') as Hok' by by apply frame_ok_set_rows.
  assert (colnames fm' = colnames d) as Hfc
    by (unfold fm'; by rewrite colnames_set_rows).
  destruct (getitem_same_names (df (self w)) df' d (colnames d) Hcols' Hget)
    as [d' Hget'].
  assert (NoDup (colnames (df (self w2)))) as Hnd2
    by (simpl; by rewrite Hcols').
  assert (StronglySorted Z.lt (index (df (self w2)))) as Hs2
    by (simpl; by rewrite ?Hidx').
  assert (index fm' = index (df (self w2))) as Hi2
    by (simpl; rewrite HMidx, Hidx'; exact Hidx).
  assert (getitem (df (self w2)) (colnames fm') = Ok d') as Hg2
    by (by rewrite Hfc).
  destruct (append_punches M fm' "Corrupt data" k w2 d' Hnd2 Hs2 Hf Hok' Hi2
              Hg2) as (new & Hrun & _ & Hcov).
  specialize (Hrun []). rewrite with_results_nil in Hrun.
  exists (with_results w2 new), (aggregate_mask (self (with_results w2 new))).
  split; [|split].
  - unfold check_corrupt. rewrite bind_unfold, log_run. fold w1.
    rewrite bind_unfold, (setup_data_Some key w1 d) by done.
    rewrite bind_unfold. cbn [get_self]. rewrite bind_unfold. fold M.
    change (df (self w1)) with (df (self w)). rewrite Hscrub. cbn [lift].
    rewrite bind_unfold. change (set_df df' w1) with (Ok tt, w2).
    cbv beta iota. exact Hrun.
  - rewrite mask_run. change (df (self (with_results w2 new))) with df'.
    assert (empty df' = false) as ->; [|done].
    unfold empty in *.
    assert (columns df' = [] ↔ columns (df (self w)) = []) as Hnil.
    { unfold colnames in Hcols'. split; intros Hn.
      - rewrite Hn in Hcols'. symmetry in Hcols'.
        by apply fmap_nil_inv in Hcols'.
      - rewrite Hn in Hcols'. by apply fmap_nil_inv in Hcols'. }
    apply orb_false_iff in He as [He1 He2]. apply orb_false_iff. split.
    + apply bool_decide_eq_false. apply bool_decide_eq_false in He1.
      by rewrite Hidx'.
    + apply bool_decide_eq_false. apply bool_decide_eq_false in He2.
      by rewrite Hnil.
  - intros c i n x b Hn Hx Hcell.
    destruct (cell_index _ _ _ _ Hok Hx) as [t Ht].
    assert (cell df' c i =
            Some (if bool_decide (n ∈ colnames d) &&
                     existsb (feq x) corrupt_values then NaN else x)) as Hx'
      by by apply (scrub_cell (df (self w)) M d
                     (λ x, existsb (feq x) corrupt_values)).
    rewrite (mask_after_results w2 new c i n t);
      [|simpl; by rewrite ?Hidx'|simpl; by rewrite Hcols'
       |simpl; by rewrite ?Hidx'].
    unfold aggregate_mask in Hcell |- *. cbn [self w2 with_df df test_results].
    change (test_results (self w1)) with (test_results (self w)).
    rewrite (fold_punch_cell _ _ c i n t) in Hcell;
      [|done|by rewrite colnames_frame_map|done].
    rewrite (fold_punch_cell _ _ c i n t);
      [|simpl; by rewrite ?Hidx'|by rewrite colnames_frame_map, Hcols'
       |simpl; by rewrite ?Hidx'].
    rewrite cell_notnull, Hx in Hcell. simpl in Hcell. injection Hcell as <-.
    rewrite cell_notnull, Hx'. simpl. f_equal.
    destruct (bool_decide (n ∈ colnames d) &&
              existsb (feq x) corrupt_values) eqn:Hcor; simpl.
    + by rewrite andb_false_r.
    + rewrite !andb_true_r.
      destruct (existsb (covers n t) new) eqn:Hex; [|by rewrite andb_true_r].
      exfalso.
      assert (index (df (self w2)) !! i = Some t) as Ht2
        by (simpl; by rewrite ?Hidx').
      destruct (Hcov n t i Ht2) as [Hsound _]. specialize (Hsound Hex).
      apply flagged_true in Hsound as (c' & Hc' & Hfl).
      rewrite Hfc in Hc'. unfold fm' in Hfl. rewrite cell_set_rows in Hfl.
      assert (cell M c' i = Some true) as HM.
      { destruct (map negb keep !! i) as [[]|]; [|done..].
        by destruct (cell M c' i). }
      rewrite HMcell in HM.
      rewrite (same_label_cell (df (self w)) d c c' n i Hnd Hsub Hn Hc'), Hx
        in HM.
      simpl in HM. injection HM as HM. rewrite HM, andb_true_r in Hcor.
      apply bool_decide_eq_false in Hcor. apply Hcor.
      by eapply list_elem_of_lookup_2.
Qed.

(** * [check_timestamp] *)

Section grid.
Implicit Types (idx : list Z) (t u p : Z).

Lemma date_range_sorted start stop p :
  0 < p → StronglySorted Z.lt (date_range start stop p).
Proof.
  intros Hp. unfold date_range. case_decide; [|constructor].
  generalize (S (Z.to_nat ((stop - start) / p))). intros n.
  generalize 0%nat. induction n as [|n IH]; intros k; simpl; [constructor|].
  constructor; [apply IH|].
  apply Forall_forall. intros t (j & -> & Hj)%list_elem_of_fmap.
  apply list_elem_of_In, in_seq in Hj. nia.
Qed.

Lemma strictly_sorted_NoDup idx : StronglySorted Z.lt idx → NoDup idx.
Proof.
  induction 1 as [|t idx Hs IH Hall]; constructor; [|done].
  intros Hin. rewrite Forall_forall in Hall. specialize (Hall t Hin). lia.
Qed.

(** On strictly increasing timestamps no difference is negative or zero. *)
Lemma index_diff_sorted (cmp : Z → bool) prev idx :
  (∀ δ, 0 < δ → cmp δ = false) →
  StronglySorted Z.lt idx →
  (∀ u, prev = Some u → Forall (λ t, u < t) idx) →
  Forall (λ b, b = false) (index_diff cmp prev idx).
Proof.
  intros Hcmp Hs. revert prev.
  induction Hs as [|t idx Hs IH Hall]; intros prev Hprev; simpl;
    [constructor|].
  constructor.
  - destruct prev as [u|]; [|done]. apply Hcmp.
    specialize (Hprev u eq_refl). apply Forall_cons in Hprev as [? _]. lia.
  - apply IH. by intros u [= <-].
Qed.

Lemma length_index_diff cmp prev idx :
  length (index_diff cmp prev idx) = length idx.
Proof.
  revert prev. induction idx as [|t idx IH]; intros prev; simpl; [done|].
  by rewrite IH.
Qed.

Lemma set_where_false_all sel (l : list bool) :
  Forall (λ b, b = false) l → Forall (λ b, b = false) (set_where sel false l).
Proof.
  intros Hl. revert sel. induction Hl as [|b l Hb Hl IH]; intros [|s sel];
    simpl; try by constructor.
  constructor; [by destruct s|apply IH].
Qed.

Lemma clear_first_label_false idx (l : list bool) :
  Forall (λ b, b = false) l → Forall (λ b, b = false) (clear_first_label idx l).
Proof.
  intros Hl. unfold clear_first_label. destruct idx; [done|].
  by apply set_where_false_all.
Qed.

Lemma length_clear_first_label idx (l : list bool) :
  length (clear_first_label idx l) = length l.
Proof.
  unfold clear_first_label. destruct idx; [done|]. apply length_set_where.
Qed.

Lemma count_true_false (l : list bool) :
  Forall (λ b, b = false) l → count_true l = 0%nat.
Proof.
  unfold count_true. induction 1 as [|b l -> _ IH]; simpl; [done|]. exact IH.
Qed.

Lemma sum_mask_single idx n (l : list bool) :
  sum_mask (mkDF idx [(n, l)]) = count_true l.
Proof. unfold sum_mask. simpl. lia. Qed.
End grid.

Lemma omap_lookup_seq {A} (l : list A) :
  omap (λ p, l !! p) (seq 0 (length l)) = l.
Proof.
  assert (∀ (x : A) (l : list A) (ps : list nat),
            omap (λ p, (x :: l) !! p) (S <$> ps) = omap (λ p, l !! p) ps)
    as Hshift.
  { intros x l0 ps. induction ps as [|p ps IH]; [done|].
    rewrite fmap_cons. simpl. destruct (l0 !! p); [f_equal|]; exact IH. }
  induction l as [|x l IH]; [done|].
  change (seq 0 (length (x :: l))) with (0%nat :: seq 1 (length l)).
  rewrite <- fmap_S_seq. simpl. f_equal.
  etrans; [apply Hshift|exact IH].
Qed.

Section rows.
Context {A : Type}.
Implicit Types (d : DataFrame A) (ps : list nat).

Lemma colnames_take_rows ps d : colnames (take_rows ps d) = colnames d.
Proof.
  unfold colnames, take_rows. simpl. rewrite <- list_fmap_compose.
  by apply list_fmap_ext.
Qed.

Lemma length_omap_lookup {B C} (l : list B) (l' : list C) ps :
  length l = length l' →
  length (omap (λ p, l !! p) ps) = length (omap (λ p, l' !! p) ps).
Proof.
  intros Hlen. induction ps as [|p ps IH]; simpl; [done|].
  destruct (l !! p) eqn:Hp, (l' !! p) eqn:Hp'; simpl.
  - f_equal. exact IH.
  - apply lookup_lt_Some in Hp. apply lookup_ge_None in Hp'. lia.
  - apply lookup_lt_Some in Hp'. apply lookup_ge_None in Hp. lia.
  - exact IH.
Qed.

Lemma frame_ok_take_rows ps d : frame_ok d → frame_ok (take_rows ps d).
Proof.
  unfold frame_ok, take_rows. simpl. rewrite Forall_fmap. intros Hd.
  eapply Forall_impl; [exact Hd|]. intros [n col] Hlen. simpl in *.
  by apply length_omap_lookup.
Qed.

Lemma take_rows_all d :
  frame_ok d → take_rows (seq 0 (length (index d))) d = d.
Proof.
  intros Hok. destruct d as [idx cols]. unfold take_rows, frame_ok in *.
  cbn [index columns] in *. rewrite omap_lookup_seq. f_equal.
  induction Hok as [|[n col] cols Hc _ IH]; [done|].
  cbn [map fst snd] in *. rewrite IH. by rewrite <- Hc, omap_lookup_seq.
Qed.
End rows.

Section dedup.
Implicit Types (idx : list Z).

Lemma keep_first_NoDup idx : NoDup idx → keep_first idx = seq 0 (length idx).
Proof.
  intros Hnd. unfold keep_first. apply forallb_filter_id, forallb_forall.
  intros i Hi%in_seq.
  destruct (idx !! i) as [t|] eqn:Ht.
  - apply bool_decide_eq_true. intros (j & Hj)%list_elem_of_lookup_1.
    pose proof (lookup_lt_Some _ _ _ Hj) as Hlt.
    rewrite length_take in Hlt. rewrite lookup_take_lt in Hj by lia.
    assert (j = i) by (by eapply NoDup_lookup). lia.
  - apply lookup_ge_None in Ht. lia.
Qed.

Lemma keep_last_bound idx p : p ∈ keep_last idx → (p < length idx)%nat.
Proof.
  unfold keep_last. intros Hp%list_elem_of_In%filter_In.
  destruct Hp as [Hp%in_seq _]. lia.
Qed.

Lemma find_row_lookup idx p t :
  NoDup idx → idx !! p = Some t → find_row t idx = Some p.
Proof.
  intros Hnd. revert p. induction Hnd as [|u idx Hu Hnd IH]; intros p;
    [done|].
  destruct p as [|p]; simpl.
  - intros [= ->]. by rewrite decide_True.
  - intros Hp. rewrite decide_False.
    + by rewrite (IH p Hp).
    + intros ->. apply Hu. by eapply list_elem_of_lookup_2.
Qed.

Lemma reindex_same (d : DataFrame float) :
  frame_ok d → NoDup (index d) → reindex (index d) d = d.
Proof.
  intros Hok Hnd. destruct d as [idx cols]. unfold reindex, frame_ok in *.
  simpl in *. f_equal.
  induction Hok as [|[n col] cols Hc _ IH]; simpl; [done|].
  rewrite IH. do 2 f_equal. simpl in Hc.
  apply list_eq. intros i. rewrite list_lookup_fmap.
  destruct (idx !! i) as [t|] eqn:Ht; simpl.
  - rewrite (find_row_lookup idx i t Hnd Ht).
    destruct (col !! i) as [x|] eqn:Hx; [done|].
    apply lookup_lt_Some in Ht. apply lookup_ge_None in Hx. lia.
  - symmetry. apply lookup_ge_None. apply lookup_ge_None in Ht. lia.
Qed.

Lemma frame_ok_reindex rng (d : DataFrame float) : frame_ok (reindex rng d).
Proof.
  unfold frame_ok, reindex. simpl. rewrite Forall_fmap.
  apply Forall_forall. intros c _. simpl. by rewrite length_map.
Qed.

Lemma colnames_reindex rng (d : DataFrame float) :
  colnames (reindex rng d) = colnames d.
Proof.
  unfold colnames, reindex. simpl. rewrite <- list_fmap_compose.
  by apply list_fmap_ext.
Qed.
End dedup.

Section temp.
Implicit Types (d : DataFrame float).

Lemma filter_names {A} (p : label → bool) (cols : list (label * list A)) :
  (List.filter (λ c, p c.1) cols).*1 = List.filter p cols.*1.
Proof.
  induction cols as [|c cols IH]; [done|]. simpl.
  destruct (p c.1); simpl; [f_equal|]; exact IH.
Qed.

Lemma colnames_del_TEMP d :
  colnames (del_TEMP d) =
  List.filter (λ n, negb (bool_decide (n = LStr "TEMP"))) (colnames d).
Proof.
  unfold colnames, del_TEMP. simpl.
  pose (p := λ n : label, negb (bool_decide (n = LStr "TEMP"))).
  apply (filter_names p).
Qed.

Lemma colnames_set_TEMP d :
  List.filter (λ n, negb (bool_decide (n = LStr "TEMP")))
              (colnames (set_TEMP d)) =
  List.filter (λ n, negb (bool_decide (n = LStr "TEMP"))) (colnames d).
Proof.
  unfold set_TEMP. case_bool_decide.
  - f_equal. unfold colnames. simpl. rewrite <- list_fmap_compose.
    apply list_fmap_ext. intros _ c _. simpl. by case_bool_decide.
  - unfold colnames. simpl. rewrite fmap_app, List.filter_app. simpl.
    by rewrite app_nil_r.
Qed.

Lemma frame_ok_set_TEMP d : frame_ok d → frame_ok (set_TEMP d).
Proof.
  unfold frame_ok, set_TEMP. intros Hd. case_bool_decide; simpl.
  - rewrite Forall_fmap. eapply Forall_impl; [exact Hd|].
    intros [n col] Hc. simpl. case_bool_decide; simpl; [|done].
    by rewrite length_map.
  - apply Forall_app. split; [done|]. constructor; [|done].
    simpl. by rewrite length_map.
Qed.

Lemma frame_ok_del_TEMP d : frame_ok d → frame_ok (del_TEMP d).
Proof.
  unfold frame_ok, del_TEMP. simpl. intros Hd.
  rewrite Forall_forall in *. intros c Hc. apply Hd.
  by apply list_elem_of_In, filter_In in Hc as [?%list_elem_of_In _].
Qed.

Lemma del_set_TEMP d :
  LStr "TEMP" ∉ colnames d → del_TEMP (set_TEMP d) = d.
Proof.
  intros Hn. unfold set_TEMP. rewrite bool_decide_eq_false_2 by done.
  destruct d as [idx cols]. unfold del_TEMP, colnames in *. simpl in *.
  f_equal. rewrite List.filter_app. simpl. rewrite app_nil_r.
  apply forallb_filter_id, forallb_forall. intros c Hc.
  apply negb_true_iff, bool_decide_eq_false. intros Heq. apply Hn.
  rewrite <- Heq. by apply list_elem_of_fmap_2, list_elem_of_In.
Qed.
End temp.

(** * [check_timestamp], step by step *)

Section steps.
Context `{Extern}.
Implicit Types (w : World) (fm : DataFrame bool) (D : DataFrame float).

Lemma record_of_unnamed sub_df msg e r :
  record_of sub_df true msg e = Some r → Variable_Name r = LStr "".
Proof.
  unfold record_of. simpl. intros Hr.
  destruct (ax_index sub_df !! e.1.1); simpl in Hr; [|done].
  destruct (ax_index sub_df !! e.2.1); simpl in Hr; [|done].
  by injection Hr as <-.
Qed.

(** A call with [use_mask_only], no time filter set. *)
Lemma append_mask_only_run fm msg k w :
  tfilter (self w) = [] → frame_ok fm →
  ∃ new,
    _append_test_results fm msg k true w = (Ok tt, with_results w new) ∧
    Forall (λ r, Variable_Name r = LStr "" ∧ Error_Flag r = msg) new ∧
    (sum_mask fm = 0%nat → new = []).
Proof.
  intros Htf Hok.
  assert (apply_tfilter (tfilter (self w)) fm = Ok fm) as Hf
    by (unfold apply_tfilter; by rewrite Htf).
  destruct (append_test_results_run fm fm msg k true w (axes fm) Hf Hok
              eq_refl) as (new & Hrun & Hz & _).
  destruct (append_test_results_spans fm fm msg k true w (axes fm) Hf Hok
              eq_refl) as (new' & Hrun' & Hsound & _).
  assert (new' = new) as ->.
  { rewrite Hrun in Hrun'. injection Hrun' as Hrun'.
    by apply app_inv_head in Hrun'. }
  exists new. split; [done|]. split; [|done].
  apply Forall_forall. intros r Hr.
  destruct (Hsound r Hr) as (c & s & e & Hrec & _). split.
  - by eapply record_of_unnamed.
  - by eapply record_of_Error_Flag.
Qed.

Lemma set_df_run D w : set_df D w = (Ok tt, with_df w D).
Proof. reflexivity. Qed.

Lemma with_df_same w : with_df w (df (self w)) = w.
Proof. by destruct w as [[] ? ?]. Qed.

Lemma frame_ok_diff_mask (cmp : Z → bool) idx :
  frame_ok (mkDF idx [(LInt 0, clear_first_label idx (index_diff cmp None idx))]).
Proof.
  unfold frame_ok. simpl. constructor; [|done]. simpl.
  by rewrite length_clear_first_label, length_index_diff.
Qed.
End steps.

Section exact.
Context `{Extern}.
Implicit Types (w : World).

(** The whole of [check_timestamp] with exact times, on an engine with
    data and no time filter. *)
Lemma check_timestamp_exact_run w fr s e k :
  empty (df (self w)) = false →
  frame_ok (df (self w)) →
  tfilter (self w) = [] →
  grid_fits (index (df (self w))) s e fr →
  let idx := index (df (self w)) in
  let rng := date_range (default (foldr Z.min (hd 0 idx) idx) s)
                        (default (foldr Z.max (hd 0 idx) idx) e) (ms fr) in
  let df2 := if is_monotonic idx then df (self w)
             else sort_index (df (self w)) in
  let idx2 := index df2 in
  let mask1 :=
    mkDF idx [(LInt 0, clear_first_label idx
                         (index_diff (λ δ, δ <? 0) None idx))] in
  let mask2 :=
    take_rows (keep_last idx2)
      (mkDF idx2 [(LInt 0, clear_first_label idx2
                             (index_diff (λ δ, δ =? 0) None idx2))]) in
  let df3 := del_TEMP (take_rows (keep_first idx2) (set_TEMP df2)) in
  let mask3 :=
    mkDF rng
      [(LInt 0,
        map (λ t, bool_decide
                    (t ∈ List.filter (λ t, bool_decide (t ∉ index df3)) rng))
            rng)] in
  ∃ new1 new2 new3,
    check_timestamp fr s e k true w =
      (Ok tt,
       with_df (with_results (add_log w [(INFO, "Check timestamp")])
                             (new1 ++ new2 ++ new3))
               (reindex rng df3)) ∧
    Forall (λ r, Variable_Name r = LStr "" ∧
                 Error_Flag r = "Nonmonotonic timestamp") new1 ∧
    Forall (λ r, Variable_Name r = LStr "" ∧
                 Error_Flag r = "Duplicate timestamp") new2 ∧
    Forall (λ r, Variable_Name r = LStr "" ∧
                 Error_Flag r = "Missing timestamp") new3 ∧
    (sum_mask mask1 = 0%nat → new1 = []) ∧
    (sum_mask mask2 = 0%nat → new2 = []) ∧
    (sum_mask mask3 = 0%nat → new3 = []).
Proof.
  intros He Hok Htf Hgrid idx rng df2 idx2 mask1 mask2 df3 mask3.
  unfold check_timestamp. rewrite bind_unfold, log_run.
  set (w0 := add_log w [(INFO, "Check timestamp")]).
  rewrite bind_unfold. cbn [get_self].
  change (df (self w0)) with (df (self w)). rewrite He.
  cbv zeta. unfold grid_fits in Hgrid. rewrite Hgrid.
  fold idx. fold rng. fold mask1.
  rewrite bind_unfold.
  destruct (append_mask_only_run mask1 "Nonmonotonic timestamp" k w0 Htf
              (frame_ok_diff_mask _ _)) as (new1 & Hrun1 & Hnew1 & Hz1).
  rewrite Hrun1. clear Hrun1.
  set (w1 := with_results w0 new1).
  rewrite bind_unfold. cbn [get_self]. rewrite bind_unfold.
  change (df (self w1)) with (df (self w)). fold idx.
  assert ((if negb (is_monotonic idx)
           then set_df (sort_index (df (self w))) else mret tt) w1 =
          (Ok tt, with_df w1 df2)) as ->.
  { unfold df2. destruct (is_monotonic idx); simpl; [|done].
    change (df (self w)) with (df (self w1)). by rewrite with_df_same. }
  set (w2 := with_df w1 df2).
  rewrite bind_unfold. cbn [get_self].
  change (df (self w2)) with df2. fold idx2. fold mask2.
  rewrite bind_unfold, set_df_run.
  set (w3 := with_df w2 (take_rows (keep_first idx2) (set_TEMP df2))).
  rewrite bind_unfold.
  destruct (append_mask_only_run mask2 "Duplicate timestamp" k w3 Htf)
    as (new2 & Hrun2 & Hnew2 & Hz2).
  { apply frame_ok_take_rows, frame_ok_diff_mask. }
  rewrite Hrun2. clear Hrun2.
  set (w4 := with_results w3 new2).
  rewrite bind_unfold. cbn [get_self].
  rewrite bind_unfold, set_df_run.
  change (del_TEMP (df (self w4))) with df3.
  set (w5 := with_df w4 df3).
  rewrite bind_unfold. cbn [get_self].
  change (df (self w5)) with df3. fold mask3.
  rewrite bind_unfold, set_df_run.
  set (w6 := with_df w5 (reindex rng df3)).
  destruct (append_mask_only_run mask3 "Missing timestamp" k w6 Htf)
    as (new3 & Hrun3 & Hnew3 & Hz3).
  { unfold frame_ok, mask3. simpl. constructor; [|done]. simpl.
    by rewrite length_map. }
  rewrite Hrun3. clear Hrun3.
  exists new1, new2, new3. split; [|done].
  f_equal. unfold w6, w5, w4, w3, w2, w1, with_df, with_results. simpl.
  by rewrite <- !app_assoc.
Qed.
End exact.

Section unnamed.
Context `{Extern}.
Context (flags : list string).

Lemma appends_unnamed_refl w : appends_unnamed flags w w.
Proof. exists []. by rewrite app_nil_r. Qed.

Lemma appends_unnamed_trans w1 w2 w3 :
  appends_unnamed flags w1 w2 → appends_unnamed flags w2 w3 →
  appends_unnamed flags w1 w3.
Proof.
  intros (n1 & H1 & F1) (n2 & H2 & F2). exists (n1 ++ n2). split.
  - by rewrite H2, H1, app_assoc.
  - by apply Forall_app.
Qed.

Lemma log_unnamed l msg : preserves (appends_unnamed flags) (log l msg).
Proof. intros w. exists []. simpl. by rewrite app_nil_r. Qed.

Lemma set_df_unnamed d : preserves (appends_unnamed flags) (set_df d).
Proof. intros w. exists []. simpl. by rewrite app_nil_r. Qed.

Lemma preserves_ret_bind {A B} (R : World → World → Prop) (a : A)
    (k : A → M B) :
  preserves R (k a) → preserves R (mret a ≫= k).
Proof. intros Hk w. apply Hk. Qed.

Lemma record_block_unnamed sub_df b msg k i :
  msg ∈ flags →
  preserves (appends_unnamed flags) (record_block sub_df b msg k true i).
Proof.
  intros Hmsg. unfold record_block.
  apply (preserves_bind _ appends_unnamed_trans);
    [apply preserves_lift, appends_unnamed_refl|intros stop_row].
  apply (preserves_bind _ appends_unnamed_trans);
    [apply preserves_lift, appends_unnamed_refl|intros start_row].
  cbv zeta. case_decide; [|apply preserves_ret, appends_unnamed_refl].
  apply preserves_ret_bind.
  apply (preserves_bind _ appends_unnamed_trans);
    [apply preserves_lift, appends_unnamed_refl|intros start_time].
  apply (preserves_bind _ appends_unnamed_trans);
    [apply preserves_lift, appends_unnamed_refl|intros end_time].
  intros w. eexists [_]. split; [reflexivity|].
  constructor; [|done]. done.
Qed.

Lemma append_test_results_unnamed mask msg k :
  msg ∈ flags →
  preserves (appends_unnamed flags) (_append_test_results mask msg k true).
Proof.
  intros Hmsg. unfold _append_test_results.
  apply (preserves_bind _ appends_unnamed_trans);
    [apply preserves_get_self, appends_unnamed_refl|intros pm].
  apply (preserves_bind _ appends_unnamed_trans);
    [apply preserves_lift, appends_unnamed_refl|intros mask'].
  case_decide; [apply preserves_ret, appends_unnamed_refl|].
  apply preserves_ret_bind.
  apply (preserves_bind _ appends_unnamed_trans);
    [apply preserves_lift, appends_unnamed_refl|intros block].
  apply (preserves_for_each _ appends_unnamed_refl appends_unnamed_trans).
  intros i. by apply record_block_unnamed.
Qed.
End unnamed.

Section timestamp_frame.
Context `{Extern}.

Lemma check_timestamp_unnamed fr s e k ex :
  preserves (appends_unnamed timestamp_flags) (check_timestamp fr s e k ex).
Proof.
  pose proof (appends_unnamed_refl timestamp_flags) as Hrefl.
  pose proof (appends_unnamed_trans timestamp_flags) as Htrans.
  pose proof (log_unnamed timestamp_flags) as Hlog.
  pose proof (set_df_unnamed timestamp_flags) as Hset.
  assert (∀ mask k, preserves (appends_unnamed timestamp_flags)
            (_append_test_results mask "Nonmonotonic timestamp" k true))
    as Ha1 by (intros; apply append_test_results_unnamed;
               unfold timestamp_flags; set_solver).
  assert (∀ mask k, preserves (appends_unnamed timestamp_flags)
            (_append_test_results mask "Duplicate timestamp" k true))
    as Ha2 by (intros; apply append_test_results_unnamed;
               unfold timestamp_flags; set_solver).
  assert (∀ mask k, preserves (appends_unnamed timestamp_flags)
            (_append_test_results mask "Missing timestamp" k true))
    as Ha3 by (intros; apply append_test_results_unnamed;
               unfold timestamp_flags; set_solver).
  unfold check_timestamp. frame_tac.
Qed.
End timestamp_frame.

(** The call with exact times, and the shape of the dataset it leaves. *)
Lemma check_timestamp_exact_shape `{Extern} (w : World) (frequency : positive)
    (expected_start_time expected_end_time : option Z) (k : Z) :
  empty (df (self w)) = false →
  frame_ok (df (self w)) →
  tfilter (self w) = [] →
  grid_fits (index (df (self w))) expected_start_time expected_end_time
            frequency →
  ∃ w' new,
    check_timestamp frequency expected_start_time expected_end_time k true w
      = (Ok tt, w') ∧
    test_results (self w') = test_results (self w) ++ new ∧
    Forall (λ r, Variable_Name r = LStr "" ∧ Error_Flag r ∈ timestamp_flags)
           new ∧
    index (df (self w')) =
      date_range
        (default (foldr Z.min (hd 0 (index (df (self w))))
                        (index (df (self w)))) expected_start_time)
        (default (foldr Z.max (hd 0 (index (df (self w))))
                        (index (df (self w)))) expected_end_time)
        (ms frequency) ∧
    StronglySorted Z.lt (index (df (self w'))) ∧
    colnames (df (self w')) = List.filter not_TEMP (colnames (df (self w))) ∧
    frame_ok (df (self w')) ∧
    objects w' = objects w.
Proof.
  intros He Hok Htf Hfit.
  destruct (check_timestamp_exact_run w frequency expected_start_time
              expected_end_time k He Hok Htf Hfit)
    as (new1 & new2 & new3 & Hrun & H1 & H2 & H3 & _).
  eexists _, (new1 ++ new2 ++ new3). split; [exact Hrun|].
  split; [done|]. split.
  { repeat apply Forall_app_2;
      (eapply Forall_impl; [eassumption|]); intros r [? ->];
      (split; [done|]); unfold timestamp_flags; set_solver. }
  split; [done|]. split.
  { apply date_range_sorted. unfold ms. lia. }
  split; [|split; [apply frame_ok_reindex|done]].
  cbn [with_df self df]. rewrite colnames_reindex, colnames_del_TEMP.
  rewrite colnames_take_rows.
  change (λ n, negb (bool_decide (n = LStr "TEMP"))) with not_TEMP.
  unfold not_TEMP. rewrite colnames_set_TEMP.
  destruct (is_monotonic _); [done|].
  unfold sort_index. by rewrite colnames_take_rows.
Qed.

(** X7. [check_timestamp] with exact times.  On an engine with a rectangular
    dataset and no time filter, and with a grid that pandas can build (a step
    and an end below 2^63 nanoseconds), the call returns; what it records
    carries no variable name and one of the three timestamp flags;
    afterwards the index of the dataset is exactly the expected grid,
    [date_range] from the expected (or earliest) to the expected (or latest)
    time in steps of [frequency], which strictly increases; the dataset is
    rectangular, and its columns are those it had, without any column
    labelled TEMP. *)
Theorem check_timestamp_exact_grid `{Extern} (w : World) (frequency : positive)
    (expected_start_time expected_end_time : option Z) (k : Z) :
  empty (df (self w)) = false →
  frame_ok (df (self w)) →
  tfilter (self w) = [] →
  grid_fits (index (df (self w))) expected_start_time expected_end_time
            frequency →
  ∃ w' new,
    check_timestamp frequency expected_start_time expected_end_time k true w
      = (Ok tt, w') ∧
    test_results (self w') = test_results (self w) ++ new ∧
    Forall (λ r, Variable_Name r = LStr "" ∧ Error_Flag r ∈ timestamp_flags)
           new ∧
    index (df (self w')) =
      date_range
        (default (foldr Z.min (hd 0 (index (df (self w))))
                        (index (df (self w)))) expected_start_time)
        (default (foldr Z.max (hd 0 (index (df (self w))))
                        (index (df (self w)))) expected_end_time)
        (ms frequency) ∧
    StronglySorted Z.lt (index (df (self w'))) ∧
    colnames (df (self w')) = List.filter not_TEMP (colnames (df (self w))) ∧
    frame_ok (df (self w')).
Proof.
  intros He Hok Htf Hfit.
  destruct (check_timestamp_exact_shape w frequency expected_start_time
              expected_end_time k He Hok Htf Hfit)
    as (w' & new & Hrun & Hres & Hnew & Hidx & Hs & Hcols & Hfr & _).
  by exists w', new.
Qed.

(** X8. [check_timestamp] on clean timestamps.  When the index of the
    dataset already is the expected grid (a grid that pandas can build: a
    step and an end below 2^63 nanoseconds), no column is labelled TEMP, the
    dataset is rectangular and no time filter is set, the call with exact
    times records nothing and leaves the dataset as it is: only the log line
    is added. *)
Theorem check_timestamp_clean_noop `{Extern} (w : World) (frequency : positive)
    (expected_start_time expected_end_time : option Z) (k : Z) :
  empty (df (self w)) = false →
  frame_ok (df (self w)) →
  tfilter (self w) = [] →
  grid_fits (index (df (self w))) expected_start_time expected_end_time
            frequency →
  LStr "TEMP" ∉ colnames (df (self w)) →
  index (df (self w)) =
    date_range
      (default (foldr Z.min (hd 0 (index (df (self w))))
                      (index (df (self w)))) expected_start_time)
      (default (foldr Z.max (hd 0 (index (df (self w))))
                      (index (df (self w)))) expected_end_time)
      (ms frequency) →
  check_timestamp frequency expected_start_time expected_end_time k true w =
  (Ok tt, add_log w [(INFO, "Check timestamp")]).
Proof.
  intros He Hok Htf Hfit Htemp Hgrid.
  destruct (check_timestamp_exact_run w frequency expected_start_time
              expected_end_time k He Hok Htf Hfit)
    as (new1 & new2 & new3 & Hrun & _ & _ & _ & Hz1 & Hz2 & Hz3).
  rewrite Hrun. clear Hrun. rewrite <- Hgrid in *.
  assert (StronglySorted Z.lt (index (df (self w)))) as Hs.
  { rewrite Hgrid. apply date_range_sorted. unfold ms. lia. }
  pose proof (strictly_sorted_monotonic _ Hs) as Hmono.
  pose proof (strictly_sorted_NoDup _ Hs) as Hnd.
  rewrite Hmono in *.
  assert (del_TEMP (take_rows (keep_first (index (df (self w))))
                              (set_TEMP (df (self w)))) = df (self w)) as Hdf3.
  { rewrite keep_first_NoDup by done.
    assert (index (df (self w)) = index (set_TEMP (df (self w)))) as ->
      by (unfold set_TEMP; by case_bool_decide).
    rewrite take_rows_all by by apply frame_ok_set_TEMP.
    by apply del_set_TEMP. }
  rewrite Hdf3 in *.
  assert (∀ cmp, (∀ δ, 0 < δ → cmp δ = false) →
            Forall (λ b, b = false)
              (clear_first_label (index (df (self w)))
                 (index_diff cmp None (index (df (self w)))))) as Hfalse.
  { intros cmp Hcmp. apply clear_first_label_false.
    by apply index_diff_sorted. }
  rewrite Hz1, Hz2, Hz3.
  - simpl. rewrite reindex_same by done.
    rewrite with_results_nil. f_equal.
    apply (with_df_same (add_log w [(INFO, "Check timestamp")])).
  - rewrite sum_mask_single. apply count_true_false.
    apply Forall_forall. intros b (t & -> & Ht)%list_elem_of_fmap.
    apply bool_decide_eq_false.
    intros (Hin & Hb)%list_elem_of_In%filter_In.
    apply bool_decide_eq_true in Hb. by apply Hb, list_elem_of_In.
  - unfold take_rows, sum_mask. simpl. rewrite Nat.add_0_r.
    apply count_true_false.
    set (l := clear_first_label _ _).
    assert (Forall (λ b, b = false) l) as Hl.
    { apply Hfalse. intros δ Hδ. apply Z.eqb_neq. lia. }
    generalize (keep_last (index (df (self w)))). intros ps.
    induction ps as [|p ps IH]; simpl; [constructor|].
    destruct (l !! p) as [b|] eqn:Hp; [|done].
    constructor; [|done]. rewrite Forall_forall in Hl.
    apply Hl. by eapply list_elem_of_lookup_2.
  - rewrite sum_mask_single. apply count_true_false.
    apply Hfalse. intros δ Hδ. apply Z.ltb_ge. lia.
Qed.

(** X9. The results of [check_timestamp] and the mask.  Whatever the
    arguments, and whether the call returns or raises, every interval that
    [check_timestamp] records has the empty variable name and one of the
    flags "Nonmonotonic timestamp", "Duplicate timestamp", "Missing
    timestamp".  So unless a column of the dataset is labelled by the empty
    string, these intervals leave no trace in the mask: the mask read after
    the call is the one that the intervals recorded before it give on the
    dataset as the call left it. *)
Theorem check_timestamp_results_unnamed `{Extern} (w : World)
    (frequency : positive) (expected_start_time expected_end_time : option Z)
    (k : Z) (exact_times : bool) :
  (∃ new,
     test_results (self (check_timestamp frequency expected_start_time
                           expected_end_time k exact_times w).2) =
       test_results (self w) ++ new ∧
     Forall (λ r, Variable_Name r = LStr "" ∧ Error_Flag r ∈ timestamp_flags)
            new) ∧
  (LStr "" ∉ colnames (df (self (check_timestamp frequency expected_start_time
                                   expected_end_time k exact_times w).2)) →
   (mask (check_timestamp frequency expected_start_time expected_end_time k
            exact_times w).2).1 =
   (mask (set_results (check_timestamp frequency expected_start_time
                         expected_end_time k exact_times w).2
                      (test_results (self w)))).1).
Proof.
  pose proof (check_timestamp_unnamed frequency expected_start_time
                expected_end_time k exact_times w) as (new & Hres & Hnew).
  split; [by exists new|].
  set (w' := (check_timestamp _ _ _ _ _ w).2) in *.
  intros Hcol. rewrite !mask_run. cbn [set_results self df].
  destruct (empty (df (self w'))); [done|]. simpl. do 2 f_equal.
  unfold aggregate_mask. cbn [test_results df].
  rewrite Hres, fold_left_app. apply fold_punch_unknown.
  rewrite fold_punch_colnames, colnames_frame_map.
  eapply Forall_impl; [exact Hnew|]. intros r [-> _]. done.
Qed.

(** * Building the engine *)

Section translation.
Implicit Types (w : World) (items : list (string * list label)).

Lemma set_trans_run t w : set_trans t w = (Ok tt, with_trans w t).
Proof. reflexivity. Qed.

Lemma with_trans_with_trans w t t' :
  with_trans (with_trans w t) t' = with_trans w t'.
Proof. reflexivity. Qed.

(** The inner loop of lines 257-258. *)
Lemma trans_append_loop key values l w :
  trans (self w) !! key = Some l →
  for_each values (trans_append key) w =
  (Ok tt, with_trans w (<[key := l ++ values]> (trans (self w)))).
Proof.
  revert l w. induction values as [|v values IH]; intros l w Hl.
  - simpl. rewrite app_nil_r, insert_id by done. by destruct w as [[] ? ?].
  - cbn [for_each]. rewrite bind_unfold. unfold trans_append at 1.
    rewrite bind_unfold. cbn [get_self]. rewrite Hl, set_trans_run.
    rewrite (IH (l ++ [v])) by (simpl; by rewrite lookup_insert_eq).
    rewrite <- app_assoc. simpl. unfold with_trans. simpl.
    by rewrite insert_insert_eq.
Qed.

Lemma add_translation_dictionary_run items w :
  add_translation_dictionary items w =
  (Ok tt, with_trans w (dict_update (trans (self w)) items)).
Proof.
  unfold add_translation_dictionary, dict_update. revert w.
  induction items as [|[key values] items IH]; intros w.
  - simpl. by destruct w as [[] ? ?].
  - cbn [for_each foldl fst snd]. rewrite bind_unfold, bind_unfold.
    cbn [get_self]. rewrite bind_unfold, set_trans_run.
    rewrite (trans_append_loop key values [])
      by (simpl; by rewrite lookup_insert_eq).
    simpl. rewrite insert_insert_eq, IH. reflexivity.
Qed.

Lemma dict_update_other t items key :
  key ∉ items.*1 → dict_update t items !! key = t !! key.
Proof.
  unfold dict_update. revert t.
  induction items as [|[k v] items IH]; intros t Hk; simpl; [done|].
  rewrite fmap_cons in Hk. apply not_elem_of_cons in Hk as [Hne Hk].
  rewrite IH by done. simpl in Hne. by rewrite lookup_insert_ne.
Qed.

Lemma dict_update_lookup t items key values :
  NoDup items.*1 → (key, values) ∈ items →
  dict_update t items !! key = Some values.
Proof.
  unfold dict_update. revert t.
  induction items as [|[k v] items IH]; intros t Hnd Hin;
    [by apply elem_of_nil in Hin|].
  rewrite fmap_cons in Hnd. apply NoDup_cons in Hnd as [Hk Hnd].
  simpl. apply elem_of_cons in Hin as [[= -> ->]|Hin].
  - fold (dict_update (<[k:=v]> t) items).
    rewrite dict_update_other by done. by rewrite lookup_insert_eq.
  - by apply IH.
Qed.
End translation.

Section identity.
Implicit Types (cols : list label) (d : list (string * list label)).

Lemma dict_set_keys {V} k (v : V) (d : list (string * V)) :
  NoDup d.*1 → NoDup (dict_set k v d).*1 ∧
  ∀ k' v', (k', v') ∈ dict_set k v d ↔
           (k' = k ∧ v' = v) ∨ (k' ≠ k ∧ (k', v') ∈ d).
Proof.
  induction d as [|[k0 v0] d IH]; intros Hnd.
  - simpl. split; [apply NoDup_singleton|]. intros k' v'.
    rewrite list_elem_of_singleton. split.
    + intros [= -> ->]. by left.
    + intros [[-> ->]|[_ Hin]]; [done|by apply elem_of_nil in Hin].
  - rewrite fmap_cons in Hnd. apply NoDup_cons in Hnd as [Hk0 Hnd].
    simpl. case_decide as Heq.
    + subst k0. split.
      { rewrite fmap_cons. simpl. by apply NoDup_cons. }
      intros k' v'. rewrite !elem_of_cons. split.
      * intros [[= -> ->]|Hin]; [by left|]. right.
        split; [|by right]. intros ->. apply Hk0.
        by apply (list_elem_of_fmap_2 fst) in Hin.
      * intros [[-> ->]|[Hne [[= ? ?]|Hin]]]; [by left|done|by right].
    + destruct (IH Hnd) as [Hnd' Hel]. split.
      { rewrite fmap_cons. simpl. apply NoDup_cons. split; [|done].
        intros (kv & Hkv & Hin)%list_elem_of_fmap. destruct kv as [k1 v1].
        simpl in Hkv. subst k1. apply Hel in Hin as [[-> _]|[_ Hin]];
          [done|]. apply Hk0. by apply (list_elem_of_fmap_2 fst) in Hin. }
      intros k' v'. rewrite !elem_of_cons, Hel. split.
      * intros [[= -> ->]|[[-> ->]|[Hne Hin]]].
        -- right. split; [done|by left].
        -- by left.
        -- right. split; [done|by right].
      * intros [[-> ->]|[Hne [[= -> ->]|Hin]]].
        -- right. by left.
        -- by left.
        -- right. right. done.
Qed.

Lemma identity_trans_items cols :
  NoDup (identity_trans cols).*1 ∧
  ∀ s v, (s, v) ∈ identity_trans cols ↔ (LStr s ∈ cols ∧ v = [LStr s]).
Proof.
  unfold identity_trans.
  assert (∀ acc,
    NoDup acc.*1 →
    let r := foldl (λ trans col,
                      match col with
                      | LStr s => dict_set s [col] trans
                      | LInt _ => trans
                      end) acc cols in
    NoDup r.*1 ∧
    ∀ s v, (s, v) ∈ r ↔
           (LStr s ∈ cols ∧ v = [LStr s]) ∨
           ((LStr s ∉ cols) ∧ (s, v) ∈ acc))
    as Hgen.
  { induction cols as [|col cols IH]; intros acc Hnd; simpl.
    - split; [done|]. intros s v. split.
      + intros Hin. right. split; [by intros ?%elem_of_nil|done].
      + intros [[Hin _]|[_ Hin]]; [by apply elem_of_nil in Hin|done].
    - destruct col as [s0|n0].
      + destruct (dict_set_keys s0 [LStr s0] acc Hnd) as [Hnd' Hel].
        destruct (IH _ Hnd') as [Hr Hin]. split; [done|].
        intros s v. rewrite Hin, Hel, !elem_of_cons. split.
        * intros [[Hs ->]|[Hs [[-> ->]|[Hne Hacc]]]].
          -- left. split; [by right|done].
          -- left. split; [by left|done].
          -- right. split; [|done]. intros [[= ->]|?]; done.
        * intros [[[[= ->]|Hs] ->]|[Hs Hacc]].
          -- destruct (decide (LStr s0 ∈ cols)); [by left|].
             right. split; [done|]. by left.
          -- by left.
          -- right. split; [intros ?; apply Hs; by right|].
             right. split; [|done]. intros ->. apply Hs. by left.
      + destruct (IH _ Hnd) as [Hr Hin]. split; [done|].
        intros s v. rewrite Hin, !elem_of_cons. split.
        * intros [[Hs ->]|[Hs Hacc]].
          -- left. split; [by right|done].
          -- right. split; [|done]. intros [[=]|?]; done.
        * intros [[[[=]|Hs] ->]|[Hs Hacc]].
          -- by left.
          -- right. split; [intros ?; apply Hs; by right|done]. }
  destruct (Hgen [] (NoDup_nil_2)) as [Hnd Hin]. split; [done|].
  intros s v. rewrite Hin. split.
  - intros [?|[_ Hnil]]; [done|by apply elem_of_nil in Hnil].
  - intros ?. by left.
Qed.
End identity.

(** X10. [add_translation_dictionary] returns and touches nothing but the
    translation dictionary: the dataset, the time filter, the recorded
    intervals, the caller's objects and the log are as before.  A key that
    the argument does not have keeps its translation.  A key of the argument
    is translated to exactly the values given for it: the earlier translation
    of that key is replaced, not extended. *)
Theorem add_translation_dictionary_replaces (w : World)
    (items : list (string * list label)) :
  ∃ w',
    add_translation_dictionary items w = (Ok tt, w') ∧
    df (self w') = df (self w) ∧
    tfilter (self w') = tfilter (self w) ∧
    test_results (self w') = test_results (self w) ∧
    objects w' = objects w ∧ logged w' = logged w ∧
    (∀ key, key ∉ items.*1 → trans (self w') !! key = trans (self w) !! key) ∧
    (NoDup items.*1 →
     ∀ key values, (key, values) ∈ items →
                   trans (self w') !! key = Some values).
Proof.
  eexists. split; [apply add_translation_dictionary_run|].
  repeat (split; [reflexivity|]). simpl. split.
  - intros key. apply dict_update_other.
  - intros Hnd key values. by apply dict_update_lookup.
Qed.

(** X11. [add_dataframe].  When pandas merges the new data into the dataset,
    the call returns; the dataset is the result of [combine_first] of the
    new data with the old dataset; every column of the new data that is
    labelled by a string becomes a translation key for itself alone,
    whatever that key meant before; the other keys, the time filter, the
    recorded intervals, the caller's objects and the log are as before.  When
    [combine_first] raises, so does the call, and nothing has changed. *)
Theorem add_dataframe_identity_keys `{Pandas} (w : World)
    (data : DataFrame float) :
  match combine_first data (df (self w)) with
  | Ok d' =>
      ∃ w',
        add_dataframe data w = (Ok tt, w') ∧
        df (self w') = d' ∧
        tfilter (self w') = tfilter (self w) ∧
        test_results (self w') = test_results (self w) ∧
        objects w' = objects w ∧ logged w' = logged w ∧
        (∀ s, LStr s ∈ colnames data →
              trans (self w') !! s = Some [LStr s]) ∧
        (∀ s, LStr s ∉ colnames data →
              trans (self w') !! s = trans (self w) !! s)
  | Raise e => add_dataframe data w = (Raise e, w)
  end.
Proof.
  unfold add_dataframe. cbv zeta.
  destruct (combine_first data (df (self w))) as [d'|e] eqn:Hc.
  - rewrite bind_unfold. cbn [get_self]. rewrite bind_unfold, Hc. cbn [lift].
    rewrite bind_unfold.
    change (set_df d' w) with (Ok tt, with_df w d').
    cbv beta iota. rewrite add_translation_dictionary_run.
    eexists. split; [reflexivity|].
    repeat (split; [reflexivity|]). simpl.
    destruct (identity_trans_items (colnames data)) as [Hnd Hin]. split.
    + intros s Hs. apply dict_update_lookup; [done|]. by apply Hin.
    + intros s Hs. apply dict_update_other.
      intros (kv & Hkv & Hel)%list_elem_of_fmap. destruct kv as [s' v].
      simpl in Hkv. subst s'. by apply Hin in Hel as [? _].
  - rewrite bind_unfold. cbn [get_self]. by rewrite bind_unfold, Hc.
Qed.

(** * The time filter *)

Section time_filter.
Implicit Types (w : World) (vals : list bool) (idx : list Z).

Lemma kept_rows_zip idx vals :
  length vals = length idx → kept_rows (zip idx vals) idx = Ok vals.
Proof.
  intros Hlen. unfold kept_rows. case_bool_decide as Hnil.
  - destruct idx as [|t idx]; destruct vals as [|b vals]; try done.
  - unfold align_filter.
    rewrite length_zip, Hlen, Nat.min_id.
    rewrite bool_decide_eq_true_2 by done. simpl.
    rewrite fst_zip by lia. rewrite bool_decide_eq_true_2 by done.
    by rewrite snd_zip by lia.
Qed.
End time_filter.

(** X12. A DataFrame handed to [add_time_filter] is applied by position.
    When its first column has as many entries as the dataset has rows, the
    call returns and touches nothing but the filter; the filter is the first
    column, re-labelled with the index of the dataset: the index of the frame
    and its other columns play no part.  From then on the rows that every
    detector keeps are those where the first column is true, and the failure
    matrix of a detector loses the others. *)
Theorem add_time_filter_by_position (w : World) (d : DataFrame bool)
    (n : label) (vals : list bool) (rest : list (label * list bool)) :
  columns d = (n, vals) :: rest →
  length vals = length (index (df (self w))) →
  add_time_filter (TFFrame d) w =
    (Ok tt, with_tfilter w (zip (index (df (self w))) vals)) ∧
  kept_rows (tfilter (self (with_tfilter w (zip (index (df (self w))) vals))))
            (index (df (self w))) = Ok vals ∧
  ∀ fm : DataFrame bool,
    index fm = index (df (self w)) →
    apply_tfilter (zip (index (df (self w))) vals) fm =
    Ok (set_rows (map negb vals) false fm).
Proof.
  intros Hc Hlen. split; [|split].
  - unfold add_time_filter. rewrite bind_unfold. cbn [get_self].
    rewrite Hc. cbn [snd]. by rewrite decide_True.
  - by apply kept_rows_zip.
  - intros fm Hidx. apply apply_tfilter_kept. rewrite Hidx.
    by apply kept_rows_zip.
Qed.

(** X13. What [add_time_filter] refuses, and what it lets through.  A frame
    without columns is an IndexError and a frame whose first column has not
    one entry per row of the dataset is a ValueError; in both cases the
    engine is as before.  A Series is stored as it is, without a look at the
    dataset: if it is not empty and its length is not the number of rows of
    a failure matrix, every later call of [_append_test_results] on that
    matrix raises ValueError and records nothing. *)
Theorem add_time_filter_errors (w : World) :
  (∀ d, columns d = [] →
        add_time_filter (TFFrame d) w = (Raise IndexError, w)) ∧
  (∀ d c rest, columns d = c :: rest →
               length c.2 ≠ length (index (df (self w))) →
               add_time_filter (TFFrame d) w = (Raise ValueError, w)) ∧
  (∀ s, add_time_filter (TFSeries s) w = (Ok tt, with_tfilter w s)) ∧
  (∀ s fm msg k umo,
     s ≠ [] → length s ≠ length (index fm) →
     _append_test_results fm msg k umo (with_tfilter w s) =
     (Raise ValueError, with_tfilter w s)).
Proof.
  split; [|split; [|split]].
  - intros d Hc. unfold add_time_filter. rewrite bind_unfold. cbn [get_self].
    by rewrite Hc.
  - intros d c rest Hc Hlen. unfold add_time_filter. rewrite bind_unfold.
    cbn [get_self]. rewrite Hc. by rewrite decide_False.
  - done.
  - intros s fm msg k umo Hs Hlen. unfold _append_test_results.
    rewrite bind_unfold. cbn [get_self with_tfilter self tfilter].
    rewrite bind_unfold. unfold apply_tfilter, align_filter.
    rewrite bool_decide_eq_false_2 by done.
    by rewrite (bool_decide_eq_false_2 (length s = length (index fm))).
Qed.

(** * The functional approach *)

Section frames.
Lemma cell_frame_where (d : DataFrame float) (m : DataFrame bool) c i :
  cell (frame_where d m) c i =
  match cell d c i, cell m c i with
  | Some x, Some b => Some (if b then x else NaN)
  | _, _ => None
  end.
Proof.
  unfold cell, frame_where. simpl. rewrite lookup_zip_with.
  destruct (columns d !! c) as [[n col]|]; simpl; [|done].
  destruct (columns m !! c) as [[n' col']|]; simpl;
    [|by destruct (col !! i)].
  rewrite lookup_zip_with.
  destruct (col !! i); simpl; [|done]. by destruct (col' !! i).
Qed.

Lemma colnames_frame_where (d : DataFrame float) (m : DataFrame bool) :
  colnames m = colnames d → colnames (frame_where d m) = colnames d.
Proof.
  intros Hcols. unfold colnames, frame_where in *. simpl.
  assert (length (columns m) = length (columns d)) as Hlen
    by (by rewrite <- (length_fmap fst), Hcols, length_fmap).
  clear Hcols. revert Hlen. generalize (columns m).
  induction (columns d) as [|c cols IH]; intros [|k ks] Hlen;
    simpl in *; try done.
  f_equal. apply IH. lia.
Qed.
End frames.

Section fresh.
Context `{Extern} `{Pandas}.
Implicit Types (w : World) (data : DataFrame float).

Lemma add_dataframe_run data w d' :
  combine_first data (df (self w)) = Ok d' →
  add_dataframe data w =
  (Ok tt, with_trans (with_df w d')
            (dict_update (trans (self w)) (identity_trans (colnames data)))).
Proof.
  intros Hc. unfold add_dataframe. cbv zeta.
  rewrite bind_unfold. cbn [get_self]. rewrite bind_unfold, Hc. cbn [lift].
  rewrite bind_unfold.
  change (set_df d' w) with (Ok tt, with_df w d').
  cbv beta iota. by rewrite add_translation_dictionary_run.
Qed.

(** The sub-table a key selects right after [add_dataframe]. *)
Lemma subtable_after_add data t tf rs key :
  empty data = false → NoDup (colnames data) →
  (∀ s, key = Some s → LStr s ∈ colnames data) →
  ∃ d, subtable (mkPM data (dict_update t (identity_trans (colnames data)))
                      tf rs) key = Some d ∧
       ∀ n, bool_decide (n ∈ colnames d) =
            bool_decide (n ∈ colnames data) && selected key n.
Proof.
  intros He Hnd Hkey. unfold subtable. cbn [df trans]. rewrite He.
  destruct key as [s|].
  - specialize (Hkey s eq_refl).
    destruct (identity_trans_items (colnames data)) as [Hndk Hin].
    rewrite (dict_update_lookup _ _ s [LStr s]) by (try done; by apply Hin).
    simpl.
    apply list_elem_of_fmap in Hkey as ([n col] & Hn & Hc).
    simpl in Hn. subst n.
    pose proof (filter_label_unique (columns data) (LStr s, col) Hnd Hc)
      as Hf. cbn [fst] in Hf.
    unfold getitem. cbn [getitem_cols]. rewrite Hf.
    eexists. split; [reflexivity|].
    intros n. unfold colnames at 1. simpl.
    apply eq_true_iff_eq.
    rewrite andb_true_iff, !bool_decide_eq_true, list_elem_of_singleton.
    split; [|by intros [_ ?]].
    intros ->. split; [|done].
    by apply (list_elem_of_fmap_2 fst) in Hc.
  - exists data. split; [done|]. intros n. simpl. by rewrite andb_true_r.
Qed.
End fresh.

(** X14. The function [check_range], end to end.  Let [data] have distinct
    column labels and strictly increasing timestamps, hold at least one cell,
    and be what pandas gives for [data.combine_first] of an empty frame.  With
    a bound [lo, hi] (numbers or None), [min_failures <= 1] and a key that is
    None or the name of a column, the function returns; the engine of the
    caller and the caller's bound are as before.  The mask of the result is
    over the axes of [data] and is true exactly at the cells that hold data
    and, if their column is selected by the key, lie within the bounds; the
    cleaned data is [data] with exactly the selected cells strictly outside
    the bounds replaced by NaN. *)
Theorem functional_check_range_cleans `{Extern} `{Pandas} (w : World)
    (data : DataFrame float) (bound : nat) (key : option string) (k : Z)
    (lo hi : option float) :
  combine_first data (df __init__) = Ok data →
  empty data = false →
  frame_ok data →
  NoDup (colnames data) →
  StronglySorted Z.lt (index data) →
  (∀ s, key = Some s → LStr s ∈ colnames data) →
  objects w !! bound = Some [bound_entry lo; bound_entry hi] →
  k ≤ 1 →
  ∃ q m w',
    functional.check_range data bound key k w = (Ok q, w') ∧
    self w' = self w ∧ objects w' = objects w ∧
    qc_mask q = Some m ∧
    index m = index data ∧ colnames m = colnames data ∧
    index (qc_cleaned_data q) = index data ∧
    colnames (qc_cleaned_data q) = colnames data ∧
    ∀ c i n x,
      colnames data !! c = Some n → cell data c i = Some x →
      cell m c i =
        Some (negb (is_nan x) && negb (selected key n && outside lo hi x)) ∧
      cell (qc_cleaned_data q) c i =
        Some (if selected key n && outside lo hi x then NaN else x).
Proof.
  intros Hcomb He Hok Hnd Hs Hkey Hb Hk.
  set (w0 := mkWorld __init__ (objects w) (logged w)).
  set (t := dict_update (trans (self w0)) (identity_trans (colnames data))).
  set (w1 := with_trans (with_df w0 data) t).
  destruct (subtable_after_add data ∅ [] [] key He Hnd Hkey) as (d & Hd & Hsel).
  assert (kept_rows (tfilter (self w1)) (index d) =
          Ok (map (λ _, true) (index d))) as Hkeep by done.
  destruct (check_range_mask_run w1 bound key k d lo hi _ Hd Hnd Hok Hs Hb
              Hkeep Hk) as (new & Hrun & Hcell).
  set (w2 := with_results (add_log w1 [(INFO, "Check data range")]) new)
    in *.
  set (m := aggregate_mask (self w2)).
  assert (index m = index data) as Hmi by (unfold m; by rewrite aggregate_mask_index).
  assert (colnames m = colnames data) as Hmc
    by (unfold m; by rewrite aggregate_mask_colnames).
  exists (mkQC (frame_where data m) (Some m) (test_results (self w2))), m.
  eexists. split.
  { unfold functional.check_range, with_new_engine. fold w0.
    rewrite bind_unfold, (add_dataframe_run data w0 data Hcomb).
    fold t. fold w1. rewrite bind_unfold, Hrun. fold w2.
    rewrite bind_unfold, mask_run.
    change (df (self w2)) with data. rewrite He. fold m.
    rewrite bind_unfold. unfold getitem_mask.
    rewrite bool_decide_eq_true_2 by done. cbn [lift].
    rewrite bind_unfold. cbn [get_self]. reflexivity. }
  split; [done|]. split; [done|]. split; [done|]. split; [done|].
  split; [done|]. split; [done|].
  split; [by apply colnames_frame_where|].
  intros c i n x Hn Hx.
  assert (cell (aggregate_mask (self w1)) c i = Some (negb (is_nan x))) as Hm0.
  { unfold aggregate_mask. simpl. by rewrite cell_notnull, Hx. }
  specialize (Hcell c i n x _ Hn Hx Hm0). fold w2 in Hcell. fold m in Hcell.
  assert (default false (map (λ _ : Z, true) (index d) !! i) = true) as Hki.
  { destruct (subtable_axes _ _ _ Hd Hnd Hok) as (Hidx & _ & _).
    destruct (cell_index _ _ _ _ Hok Hx) as [u Hu].
    rewrite list_lookup_fmap, Hidx. simpl. by rewrite Hu. }
  rewrite Hki, Hsel, andb_true_r in Hcell.
  rewrite (bool_decide_eq_true_2 (n ∈ colnames data)) in Hcell
    by by eapply list_elem_of_lookup_2.
  simpl in Hcell. split; [done|].
  simpl. rewrite cell_frame_where, Hx, Hcell.
  destruct (selected key n && outside lo hi x); simpl.
  - by rewrite andb_false_r.
  - rewrite andb_true_r. by destruct x.
Qed.

(** * The functions on a table without cells *)

Section empty.
Context `{Extern}.
Implicit Types (w : World).

Lemma setup_data_empty key w :
  empty (df (self w)) = true →
  _setup_data key w = (Ok None, add_log w [(INFO, "Empty database")]).
Proof.
  intros He. unfold _setup_data. rewrite bind_unfold. cbn [get_self].
  by rewrite He.
Qed.

Lemma mask_empty w :
  empty (df (self w)) = true →
  mask w = (Ok None, add_log w [(INFO, "Empty database")]).
Proof. intros He. by rewrite mask_run, He. Qed.

(** A detector on an engine without data: two log lines. *)
Lemma detector_empty (det : detector) w :
  empty (df (self w)) = true →
  ∃ line,
    call det w = (Ok tt, add_log w [(INFO, line); (INFO, "Empty database")]).
Proof.
  intros He. destruct det; cbn [call].
  1:{ unfold check_timestamp. rewrite bind_unfold, log_run.
      rewrite bind_unfold. cbn [get_self add_log self]. rewrite He.
      rewrite log_run, add_log_add_log. by eexists. }
  all: match goal with
       | |- ∃ _, ?c _ = _ =>
           let h := eval cbv delta [check_range check_increment check_delta
                     check_outlier check_missing check_corrupt] in c in
           change c with h
       end; cbv beta.
  all: rewrite bind_unfold, log_run, bind_unfold.
  all: rewrite setup_data_empty by done.
  all: rewrite add_log_add_log; by eexists.
Qed.
End empty.

Section functional_empty.
Context `{Extern} `{Pandas}.
Implicit Types (w : World) (data : DataFrame float).

(** The tail shared by six of the seven functions. *)
Lemma functional_tail_empty data (det : detector) w :
  combine_first data (df __init__) = Ok data →
  empty data = true →
  ∃ line,
    with_new_engine (
      add_dataframe data ;;
      call det ;;
      mask ← mask;
      cleaned ← lift (getitem_mask data mask);
      pm ← get_self;
      mret (mkQC cleaned mask (test_results pm))) w =
    (Raise KeyError,
     add_log w [(INFO, line); (INFO, "Empty database");
                (INFO, "Empty database")]).
Proof.
  intros Hc He. unfold with_new_engine.
  set (w0 := mkWorld __init__ (objects w) (logged w)).
  rewrite bind_unfold, (add_dataframe_run data w0 data Hc).
  set (w1 := with_trans _ _).
  destruct (detector_empty det w1 He) as [line Hrun].
  exists line. rewrite bind_unfold, Hrun.
  rewrite bind_unfold, mask_empty by done.
  rewrite bind_unfold. cbn [getitem_mask lift].
  unfold add_log. simpl. by rewrite <- !app_assoc.
Qed.
End functional_empty.

(** X15. The functions on a table without cells.  Let [data] have no row or
    no column, and let pandas give [data] back for [data.combine_first] of an
    empty frame.  Then [check_range], [check_increment], [check_delta],
    [check_outlier], [check_missing] and [check_corrupt] raise KeyError: the
    mask of the engine is None, and [data[None]] is no column.
    [check_timestamp] alone returns, with [data] as the cleaned data, None as
    the mask and no recorded interval.  In each case the caller's engine and
    objects are as before and three lines were logged. *)
Theorem functional_empty_table `{Extern} `{Pandas} (w : World)
    (data : DataFrame float) (bound : nat) (key : option string) (k : Z)
    (increment : Z) (window : positive) (owindow : option positive)
    (absolute_value : bool) (corrupt_values : list float)
    (frequency : positive) (expected_start_time expected_end_time : option Z)
    (exact_times : bool) :
  combine_first data (df __init__) = Ok data →
  empty data = true →
  (∃ line, functional.check_range data bound key k w =
     (Raise KeyError, add_log w [(INFO, line); (INFO, "Empty database");
                                 (INFO, "Empty database")])) ∧
  (∃ line, functional.check_increment data bound key increment absolute_value
             k w =
     (Raise KeyError, add_log w [(INFO, line); (INFO, "Empty database");
                                 (INFO, "Empty database")])) ∧
  (∃ line, functional.check_delta data bound key window absolute_value k w =
     (Raise KeyError, add_log w [(INFO, line); (INFO, "Empty database");
                                 (INFO, "Empty database")])) ∧
  (∃ line, functional.check_outlier data bound key owindow absolute_value k w =
     (Raise KeyError, add_log w [(INFO, line); (INFO, "Empty database");
                                 (INFO, "Empty database")])) ∧
  (∃ line, functional.check_missing data key k w =
     (Raise KeyError, add_log w [(INFO, line); (INFO, "Empty database");
                                 (INFO, "Empty database")])) ∧
  (∃ line, functional.check_corrupt data corrupt_values key k w =
     (Raise KeyError, add_log w [(INFO, line); (INFO, "Empty database");
                                 (INFO, "Empty database")])) ∧
  functional.check_timestamp data frequency expected_start_time
    expected_end_time k exact_times w =
    (Ok (mkQC data None []),
     add_log w [(INFO, "Check timestamp"); (INFO, "Empty database");
                (INFO, "Empty database")]).
Proof.
  intros Hc He.
  split; [apply (functional_tail_empty data (CheckRange bound key k) w Hc He)|].
  split; [apply (functional_tail_empty data
                   (CheckIncrement bound key increment absolute_value k)
                   w Hc He)|].
  split; [apply (functional_tail_empty data
                   (CheckDelta bound key window absolute_value k) w Hc He)|].
  split; [apply (functional_tail_empty data
                   (CheckOutlier bound None owindow absolute_value k)
                   w Hc He)|].
  split; [apply (functional_tail_empty data (CheckMissing key k) w Hc He)|].
  split; [apply (functional_tail_empty data
                   (CheckCorrupt corrupt_values key k) w Hc He)|].
  unfold functional.check_timestamp, with_new_engine.
  set (w0 := mkWorld __init__ (objects w) (logged w)).
  rewrite bind_unfold, (add_dataframe_run data w0 data Hc).
  set (w1 := with_trans _ _).
  rewrite bind_unfold.
  assert (check_timestamp frequency expected_start_time expected_end_time k
            exact_times w1 =
          (Ok tt, add_log w1 [(INFO, "Check timestamp");
                              (INFO, "Empty database")])) as ->.
  { unfold check_timestamp. rewrite bind_unfold, log_run.
    rewrite bind_unfold. cbn [get_self add_log self].
    change (df (self w1)) with data. rewrite He.
    by rewrite log_run, add_log_add_log. }
  rewrite bind_unfold, mask_empty by done.
  rewrite bind_unfold. cbn [get_self]. cbn [mret M_ret].
  unfold add_log. simpl. by rewrite <- !app_assoc.
Qed.

(** X16. The function [check_increment] with its default key on a table
    that holds nothing but NaN raises TypeError: the engine finds all data
    null and tries to append the key, None, to the text of its warning.
    Nothing is recorded and only the first line is logged. *)
Theorem functional_check_increment_all_null `{Extern} `{Pandas} (w : World)
    (data : DataFrame float) (bound : nat) (increment : Z)
    (absolute_value : bool) (k : Z) :
  combine_first data (df __init__) = Ok data →
  empty data = false →
  all_null data = true →
  functional.check_increment data bound None increment absolute_value k w =
  (Raise TypeError, add_log w [(INFO, "Check increment range")]).
Proof.
  intros Hc He Hnull. unfold functional.check_increment, with_new_engine.
  set (w0 := mkWorld __init__ (objects w) (logged w)).
  rewrite bind_unfold, (add_dataframe_run data w0 data Hc).
  set (w1 := with_trans _ _).
  rewrite bind_unfold.
  assert (check_increment bound None increment absolute_value k w1 =
          (Raise TypeError, add_log w1 [(INFO, "Check increment range")]))
    as ->.
  { unfold check_increment. rewrite bind_unfold, log_run, bind_unfold.
    rewrite (setup_data_Some _ _ data).
    - by rewrite Hnull.
    - unfold subtable. simpl. by rewrite He. }
  reflexivity.
Qed.

(** * The function [check_timestamp] *)

(** X20. The function [check_timestamp] with exact times, end to end.  Let
    [data] be rectangular, hold at least one cell, have no column labelled
    by the empty string, and be what pandas gives for [data.combine_first]
    of an empty frame; let the expected grid be one that pandas can build (a
    step and an end below 2^63 nanoseconds).  Then the function returns, and
    the caller's engine and objects are as before.  The cleaned data of the
    result is not [data]
    under the mask but the dataset of the engine: a rectangular table over
    the expected grid, with the columns of [data] less any labelled TEMP.
    Every recorded interval has the empty variable name and one of the three
    timestamp flags, and none of them shows in the mask: the mask is None
    when the grid is empty, and otherwise true exactly at the cells of the
    cleaned data that hold data. *)
Theorem functional_check_timestamp_grid `{Extern} `{Pandas} (w : World)
    (data : DataFrame float) (frequency : positive)
    (expected_start_time expected_end_time : option Z) (k : Z) :
  combine_first data (df __init__) = Ok data →
  empty data = false →
  frame_ok data →
  grid_fits (index data) expected_start_time expected_end_time frequency →
  LStr "" ∉ colnames data →
  ∃ q w',
    functional.check_timestamp data frequency expected_start_time
      expected_end_time k true w = (Ok q, w') ∧
    self w' = self w ∧ objects w' = objects w ∧
    index (qc_cleaned_data q) =
      date_range
        (default (foldr Z.min (hd 0 (index data)) (index data))
                 expected_start_time)
        (default (foldr Z.max (hd 0 (index data)) (index data))
                 expected_end_time)
        (ms frequency) ∧
    colnames (qc_cleaned_data q) = List.filter not_TEMP (colnames data) ∧
    frame_ok (qc_cleaned_data q) ∧
    Forall (λ r, Variable_Name r = LStr "" ∧ Error_Flag r ∈ timestamp_flags)
           (qc_test_results q) ∧
    qc_mask q =
      if empty (qc_cleaned_data q) then None
      else Some (frame_map (λ x, negb (is_nan x)) (qc_cleaned_data q)).
Proof.
  intros Hc He Hok Hfit Hcol.
  unfold functional.check_timestamp, with_new_engine.
  set (w0 := mkWorld __init__ (objects w) (logged w)).
  rewrite bind_unfold, (add_dataframe_run data w0 data Hc).
  set (w1 := with_trans _ _).
  destruct (check_timestamp_exact_shape w1 frequency expected_start_time
              expected_end_time k He Hok eq_refl Hfit)
    as (w2 & new & Hrun & Hres & Hnew & Hidx & _ & Hcols & Hfr & Hobj).
  change (df (self w1)) with data in Hidx, Hcols.
  change (test_results (self w1)) with (@nil TestResult) in Hres.
  rewrite app_nil_l in Hres.
  rewrite bind_unfold, Hrun, bind_unfold, mask_run.
  assert (aggregate_mask (self w2) =
          frame_map (λ x, negb (is_nan x)) (df (self w2))) as Hagg.
  { unfold aggregate_mask. rewrite Hres. apply fold_punch_unknown.
    rewrite colnames_frame_map, Hcols.
    eapply Forall_impl; [exact Hnew|]. intros r [-> _] Hin.
    apply Hcol. apply list_elem_of_In. apply list_elem_of_In in Hin.
    by apply filter_In in Hin as [Hin _]. }
  assert (objects w2 = objects w) as Hobj' by (by rewrite Hobj).
  destruct (empty (df (self w2))) eqn:He2.
  - rewrite ?bind_unfold, ?log_run. cbn [mret M_ret]. rewrite ?bind_unfold.
    cbn [get_self add_log self objects logged].
    eexists _, _. split; [reflexivity|].
    cbn [qc_cleaned_data qc_mask qc_test_results self objects].
    rewrite He2, Hres. by repeat split.
  - cbn [mret M_ret]. rewrite ?bind_unfold. cbn [get_self].
    eexists _, _. split; [reflexivity|].
    cbn [qc_cleaned_data qc_mask qc_test_results self objects].
    rewrite He2, Hres, Hagg. by repeat split.
Qed.

(** * A bound with fewer than two entries *)

Section short_bound.
Context `{Extern}.
Implicit Types (w : World) (d : DataFrame float).

Lemma generate_test_results_empty_bound d bound k prefix w :
  objects w !! bound = Some [] →
  _generate_test_results d bound k prefix w = (Raise IndexError, w).
Proof.
  intros Hb. unfold _generate_test_results.
  rewrite bind_unfold, (normalize_bound_run bound _ w Hb).
  simpl. rewrite (set_obj_id w) by done.
  rewrite bind_unfold. unfold obj_get. by rewrite Hb.
Qed.

Lemma generate_test_results_single_bound d bound k prefix w b :
  objects w !! bound = Some [b] →
  ∃ e w',
    _generate_test_results d bound k prefix w = (Raise e, w') ∧
    objects w' = <[bound := [normalized b]]> (objects w) ∧
    (normalized b = PNone →
     e = IndexError ∧ w' = set_obj w bound [PNone]).
Proof.
  intros Hb. unfold _generate_test_results.
  rewrite bind_unfold, (normalize_bound_run bound _ w Hb).
  change (normalized <$> [b]) with [normalized b].
  set (w1 := set_obj w bound [normalized b]).
  assert (objects w1 !! bound = Some [normalized b]) as Hb1
    by (simpl; by rewrite lookup_insert_eq).
  rewrite bind_unfold. unfold obj_get at 1. rewrite Hb1.
  cbn [py_index lookup list_lookup]. rewrite bind_unfold.
  destruct (is_None (normalized b)) eqn:Hn.
  - cbn [mret M_ret]. rewrite bind_unfold. unfold obj_get. rewrite Hb1.
    cbn [py_index lookup list_lookup]. eexists _, _.
    split; [reflexivity|]. split; [done|].
    intros Hnone. split; [done|]. unfold w1. by rewrite Hnone.
  - rewrite bind_unfold.
    destruct (frame_lt d (normalized b)) as [fm|e] eqn:Hlt; cbn [lift].
    + pose proof (append_test_results_preserves same_objects
                    same_objects_refl same_objects_trans
                    append_result_same_objects fm
                    (prefix ++ " < lower bound, " ++ py_str (normalized b))
                    k false w1) as Hobj.
      unfold same_objects in Hobj.
      destruct (_append_test_results fm _ k false w1) as [[[]|e] w2];
        cbn [snd] in Hobj.
      * assert (objects w2 !! bound = Some [normalized b]) as Hb2
          by (rewrite Hobj; exact Hb1).
        rewrite bind_unfold. unfold obj_get. rewrite Hb2.
        cbn [py_index lookup list_lookup]. eexists _, _.
        split; [reflexivity|]. split; [by rewrite Hobj|].
        intros Hnone. by rewrite Hnone in Hn.
      * eexists _, _. split; [reflexivity|]. split; [by rewrite Hobj|].
        intros Hnone. by rewrite Hnone in Hn.
    + eexists _, _. split; [reflexivity|]. split; [done|].
      intros Hnone. by rewrite Hnone in Hn.
Qed.
End short_bound.

(** X17. A bound with fewer than two entries.  On a sub-table that resolves,
    [check_range] with such a bound never returns: it raises.  With an empty
    bound it raises IndexError at once, with only its log line written.  With
    one entry the entry is normalised in the caller's list and the lower
    bound is checked first (and may record intervals); reading the missing
    upper bound then raises IndexError, as it does at once when the one
    entry stands for no bound. *)
Theorem check_range_short_bound `{Extern} (w : World) (bound : nat)
    (key : option string) (k : Z) (d : DataFrame float) (l : list pyval) :
  subtable (self w) key = Some d →
  objects w !! bound = Some l →
  (length l < 2)%nat →
  (∃ e w', check_range bound key k w = (Raise e, w')) ∧
  (l = [] →
   check_range bound key k w =
     (Raise IndexError, add_log w [(INFO, "Check data range")])) ∧
  (∀ b, l = [b] →
     objects (check_range bound key k w).2 =
       <[bound := [normalized b]]> (objects w) ∧
     (normalized b = PNone →
      check_range bound key k w =
        (Raise IndexError,
         set_obj (add_log w [(INFO, "Check data range")]) bound [PNone]))).
Proof.
  intros Hd Hb Hlen.
  set (w1 := add_log w [(INFO, "Check data range")]).
  assert (check_range bound key k w =
          _generate_test_results d bound k "Data" w1) as Hrun.
  { unfold check_range. rewrite bind_unfold, log_run. fold w1.
    by rewrite bind_unfold, (setup_data_Some key w1 d). }
  rewrite Hrun.
  destruct l as [|b [|b' l]]; [| |simpl in Hlen; lia].
  - rewrite (generate_test_results_empty_bound d bound k _ w1) by done.
    split; [by eexists _, _|]. split; [done|]. by intros b [=].
  - destruct (generate_test_results_single_bound d bound k "Data" w1 b Hb)
      as (e & w' & Hg & Hobj & Hnone).
    rewrite Hg. split; [by eexists _, _|]. split; [done|].
    intros b0 [= <-]. split; [done|].
    intros Hn. by destruct (Hnone Hn) as [-> ->].
Qed.

(** * [check_increment], seen from the mask *)

Section increment_mask.
Context `{Extern}.
Implicit Types (w : World) (d F : DataFrame float).

Lemma outside_nan lo hi : outside lo hi NaN = false.
Proof. unfold outside. by destruct lo as [[]|], hi as [[]|]. Qed.

Lemma increment_at_first periods absolute_value col i :
  Z.of_nat i < periods → increment_at periods absolute_value col i = NaN.
Proof.
  intros Hi. unfold increment_at. cbv zeta.
  destruct (col !! i); [rewrite decide_False by lia|];
    by destruct absolute_value.
Qed.

(** One side of a bound check on a frame computed from the sub-table. *)
Lemma bound_punches_frame (cmp : float → float → bool)
    (msg : float → string) (b : option float) w d F keep k
    (v : nat → nat → float) :
  NoDup (colnames (df (self w))) →
  StronglySorted Z.lt (index (df (self w))) →
  getitem (df (self w)) (colnames d) = Ok d →
  index d = index (df (self w)) →
  frame_ok F → index F = index d → colnames F = colnames d →
  kept_rows (tfilter (self w)) (index d) = Ok keep →
  (∀ c c' i n t,
     colnames (df (self w)) !! c = Some n → colnames F !! c' = Some n →
     index (df (self w)) !! i = Some t → cell F c' i = Some (v c i)) →
  ∃ new,
    match b with
    | Some y =>
        ∀ rs, _append_test_results (frame_map (λ x, cmp x y) F) (msg y) k
                false (with_results w rs) =
              (Ok tt, with_results (with_results w rs) new)
    | None => new = []
    end ∧
    ∀ c i n t,
      colnames (df (self w)) !! c = Some n →
      index (df (self w)) !! i = Some t →
      k ≤ 1 →
      existsb (covers n t) new =
      bool_decide (n ∈ colnames d) && default false (keep !! i) &&
      match b with Some y => cmp (v c i) y | None => false end.
Proof.
  intros Hnd Hs Hget Hidx HokF HidxF HcolsF Hkeep Hv.
  destruct b as [y|].
  2:{ exists []. split; [done|]. intros c i n t _ _ _. simpl.
      by rewrite andb_false_r. }
  set (fm := frame_map (λ x, cmp x y) F).
  set (fm' := set_rows (map negb keep) false fm).
  assert (apply_tfilter (tfilter (self w)) fm = Ok fm') as Hf
    by (apply apply_tfilter_kept; simpl; by rewrite HidxF).
  assert (frame_ok fm') as Hok'
    by by apply frame_ok_set_rows, frame_ok_frame_map.
  assert (colnames fm' = colnames d) as Hcols
    by (unfold fm', fm;
        by rewrite colnames_set_rows, colnames_frame_map, HcolsF).
  destruct (append_punches fm fm' (msg y) k w d Hnd Hs Hf Hok')
    as (new & Hrun & _ & Hcov).
  { simpl. by rewrite HidxF. }
  { by rewrite Hcols. }
  exists new. split; [done|].
  intros c i n t Hn Ht Hk.
  assert (∃ kb, keep !! i = Some kb) as [kb Hkb].
  { apply lookup_lt_is_Some_2.
    rewrite (kept_rows_length _ _ _ Hkeep), Hidx.
    by eapply lookup_lt_Some. }
  destruct (Hcov n t i Ht) as [Hsound Hcompl].
  assert (flagged fm' n i =
          bool_decide (n ∈ colnames d) && kb && cmp (v c i) y) as Hfl.
  { unfold fm'. rewrite (flagged_filtered _ _ _ _ kb Hkb).
    rewrite (andb_comm (bool_decide (n ∈ colnames d)) kb), <- andb_assoc.
    f_equal.
    apply eq_true_iff_eq.
    rewrite flagged_true, andb_true_iff, bool_decide_eq_true.
    unfold fm. rewrite colnames_frame_map, HcolsF. split.
    - intros (c' & Hc' & Hcell). split; [by eapply list_elem_of_lookup_2|].
      rewrite cell_frame_map in Hcell.
      rewrite (Hv c c' i n t) in Hcell by (try done; by rewrite HcolsF).
      simpl in Hcell. congruence.
    - intros [(c' & Hc')%list_elem_of_lookup_1 Hcmp]. exists c'.
      split; [done|]. rewrite cell_frame_map.
      rewrite (Hv c c' i n t) by (try done; by rewrite HcolsF).
      simpl. by rewrite Hcmp. }
  rewrite Hkb. simpl. rewrite <- Hfl.
  apply eq_true_iff_eq. split; [done|by apply Hcompl].
Qed.

Lemma cell_frame_diff (periods : Z) (absolute_value : bool) d (c : nat) n
    (col : list float) (i : nat) x :
  columns d !! c = Some (n, col) → col !! i = Some x →
  cell (if absolute_value then frame_map fabs (frame_diff periods d)
        else frame_diff periods d) c i =
  Some (increment_at periods absolute_value col i).
Proof.
  intros Hc Hx.
  assert (cell (frame_diff periods d) c i =
          Some (increment_at periods false col i)) as Hd.
  { unfold cell, frame_diff. simpl. rewrite list_lookup_fmap, Hc. simpl.
    unfold diff_col. rewrite list_lookup_imap, Hx. simpl.
    unfold increment_at. by rewrite ?Hx. }
  destruct absolute_value; [|done].
  by rewrite cell_frame_map, Hd.
Qed.
End increment_mask.

(** X18. [check_increment], then the mask.  On a dataset with distinct
    column labels and strictly increasing timestamps, on a sub-table that is
    not entirely absent, with a bound [lo, hi] (numbers or None) and
    [min_failures <= 1], [check_increment] returns and the mask read
    afterwards is the mask read before with exactly these cells made false:
    the cells of the selected columns, on rows the time filter lets through,
    whose increment (the value less the value [increment] rows before; its
    absolute value when asked for) is strictly outside the bounds.  The
    failure is put on the later of the two rows, and a row with no row
    [increment] places before it never fails. *)
Theorem check_increment_then_mask `{Extern} (w : World) (bound : nat)
    (key : option string) (increment : Z) (absolute_value : bool) (k : Z)
    (d : DataFrame float) (lo hi : option float) (keep : list bool)
    (m : DataFrame bool) :
  subtable (self w) key = Some d →
  all_null d = false →
  NoDup (colnames (df (self w))) →
  frame_ok (df (self w)) →
  StronglySorted Z.lt (index (df (self w))) →
  objects w !! bound = Some [bound_entry lo; bound_entry hi] →
  kept_rows (tfilter (self w)) (index d) = Ok keep →
  k ≤ 1 →
  (mask w).1 = Ok (Some m) →
  ∃ w' m',
    check_increment bound key increment absolute_value k w = (Ok tt, w') ∧
    (mask w').1 = Ok (Some m') ∧
    (∀ c i n col b,
       columns (df (self w)) !! c = Some (n, col) →
       cell m c i = Some b →
       cell m' c i =
         Some (b && negb (bool_decide (n ∈ colnames d) &&
                          default false (keep !! i) &&
                          outside lo hi
                            (increment_at increment absolute_value col i)))) ∧
    (∀ col i, Z.of_nat i < increment →
       outside lo hi (increment_at increment absolute_value col i) = false).
Proof.
  intros Hd Hnull Hnd Hok Hs Hb Hkeep Hk. rewrite mask_run.
  destruct (empty (df (self w))) eqn:He; [done|]. simpl. intros [= <-].
  destruct (subtable_axes _ _ _ Hd Hnd Hok) as (Hidx & Hokd & Hget).
  destruct (getitem_names _ _ _ Hnd Hget) as (_ & _ & Hsub).
  set (w1 := add_log w [(INFO, "Check increment range")]).
  set (F := if absolute_value
            then frame_map fabs (frame_diff increment d)
            else frame_diff increment d).
  set (prefix := if absolute_value then "|Increment|" else "Increment").
  set (v := λ c i : nat,
         increment_at increment absolute_value
           (default [] (snd <$> columns (df (self w)) !! c)) i).
  assert (frame_ok F ∧ index F = index d ∧ colnames F = colnames d)
    as (HokF & HidxF & HcolsF).
  { assert (frame_ok (frame_diff increment d)) as Hfd.
    { unfold frame_ok, frame_diff in *. simpl. rewrite Forall_fmap.
      eapply Forall_impl; [exact Hokd|]. intros [n col] Hc. simpl in *.
      unfold diff_col. by rewrite length_imap. }
    assert (colnames (frame_diff increment d) = colnames d) as Hcd.
    { unfold colnames, frame_diff. simpl. rewrite <- list_fmap_compose.
      by apply list_fmap_ext. }
    unfold F. destruct absolute_value.
    - split; [by apply frame_ok_frame_map|]. split; [done|].
      by rewrite colnames_frame_map.
    - done. }
  assert (∀ c c' i n t,
    colnames (df (self w1)) !! c = Some n → colnames F !! c' = Some n →
    index (df (self w1)) !! i = Some t → cell F c' i = Some (v c i)) as Hv.
  { intros c c' i n t Hn Hc' Ht. rewrite HcolsF in Hc'.
    unfold colnames in Hn, Hc'. rewrite list_lookup_fmap in Hn, Hc'.
    destruct (columns (df (self w1)) !! c) as [[n1 col]|] eqn:Hcol; [|done].
    destruct (columns d !! c') as [[n2 col']|] eqn:Hcol'; [|done].
    simpl in Hn, Hc'. injection Hn as ->. injection Hc' as ->.
    assert ((n, col') ∈ columns (df (self w)))
      as (c0 & Hc0)%list_elem_of_lookup_1
      by (apply Hsub; by eapply list_elem_of_lookup_2).
    assert (c0 = c) as ->.
    { eapply NoDup_lookup; [exact Hnd| |].
      - unfold colnames. by rewrite list_lookup_fmap, Hc0.
      - unfold colnames. change (df (self w)) with (df (self w1)).
        by rewrite list_lookup_fmap, Hcol. }
    change (df (self w1)) with (df (self w)) in Hcol.
    rewrite Hcol in Hc0. injection Hc0 as ->.
    assert (∃ x, col' !! i = Some x) as [x Hx].
    { apply lookup_lt_is_Some_2. unfold frame_ok in Hok.
      rewrite Forall_forall in Hok.
      assert (length col' = length (index (df (self w)))) as ->
        by (apply (Hok (n, col')); by eapply list_elem_of_lookup_2).
      by eapply lookup_lt_Some. }
    unfold F. rewrite (cell_frame_diff _ _ d c' n col' i x Hcol' Hx).
    unfold v. by rewrite Hcol. }
  destruct (bound_punches_frame flt
              (λ y, prefix ++ " < lower bound, " ++ py_str (PNum y))%string
              lo w1 d F keep k v Hnd Hs Hget Hidx HokF HidxF HcolsF Hkeep Hv)
    as (new_lo & Hrun_lo & Hcov_lo).
  destruct (bound_punches_frame fgt
              (λ y, prefix ++ " > upper bound, " ++ py_str (PNum y))%string
              hi w1 d F keep k v Hnd Hs Hget Hidx HokF HidxF HcolsF Hkeep Hv)
    as (new_hi & Hrun_hi & Hcov_hi).
  exists (with_results w1 (new_lo ++ new_hi)).
  exists (aggregate_mask (self (with_results w1 (new_lo ++ new_hi)))).
  split; [|split; [|split]].
  - unfold check_increment. rewrite bind_unfold, log_run. fold w1.
    rewrite bind_unfold, (setup_data_Some key w1 d) by done.
    rewrite Hnull. cbv zeta. fold F. fold prefix.
    apply (generate_test_results_run _ _ _ _ _ lo hi); [done| |].
    + destruct lo; [|done]. specialize (Hrun_lo []).
      by rewrite with_results_nil in Hrun_lo.
    + destruct hi; [|done]. apply Hrun_hi.
  - by rewrite mask_with_results.
  - intros c i n col b Hc Hcell.
    assert (colnames (df (self w)) !! c = Some n) as Hn
      by (unfold colnames; by rewrite list_lookup_fmap, Hc).
    assert (∃ t, index (df (self w)) !! i = Some t) as [t Ht].
    { assert (is_Some (cell (df (self w)) c i)) as [x Hx].
      { destruct (fold_punch_cell_inv (test_results (self w))
                    (frame_map (λ x, negb (is_nan x)) (df (self w))) c i)
          as [Heq|[Hs' _]].
        - fold (aggregate_mask (self w)) in Heq. rewrite Hcell in Heq.
          rewrite cell_notnull in Heq.
          destruct (cell (df (self w)) c i); [by eexists|done].
        - rewrite cell_notnull in Hs'.
          destruct (cell (df (self w)) c i); [by eexists|].
          by destruct Hs'. }
      by eapply cell_index. }
    rewrite (mask_after_results w1 _ c i n t)
      by (try done; by apply strictly_sorted_monotonic).
    change (aggregate_mask (self w1)) with (aggregate_mask (self w)).
    rewrite Hcell. f_equal. f_equal. f_equal.
    rewrite existsb_app.
    rewrite (Hcov_lo c i n t Hn Ht Hk), (Hcov_hi c i n t Hn Ht Hk).
    unfold v. rewrite Hc. simpl.
    unfold outside. by rewrite andb_orb_distrib_r.
  - intros col i Hi. by rewrite increment_at_first, outside_nan.
Qed.

(** * The properties at work on concrete engines *)

Lemma find_blocks_maximal_runs_witness :
  frame_ok demo_mask ∧
  find_blocks demo_mask =
    Ok {| Start_Row := [0; 3; 2]%nat; Start_Col := [0; 0; 1]%nat;
          Stop_Row := [1; 3; 4]%nat; Stop_Col := [0; 0; 1]%nat |} ∧
  foldr Z.add 0 (map run_length
    (block_entries {| Start_Row := [0; 3; 2]%nat; Start_Col := [0; 0; 1]%nat;
          Stop_Row := [1; 3; 4]%nat; Stop_Col := [0; 0; 1]%nat |})) = 6.
Proof.
  assert (frame_ok demo_mask) as Hok by (repeat constructor).
  split; [exact Hok|]. split; [reflexivity|].
  destruct (find_blocks_maximal_runs demo_mask Hok) as [_ Hb].
  destruct (Hb ltac:(discriminate)) as (b & Hfind & _ & _ & _ & _ & _ & Hsum).
  injection Hfind as <-. exact Hsum.
Defined.

Lemma append_test_results_min_failures_witness :
  ∃ new,
    _append_test_results demo_mask "Test" 2 false (demo_world []) =
      (Ok tt, with_results (demo_world []) new) ∧
    Forall (λ r, 2 ≤ Timesteps r) new.
Proof.
  destruct (append_test_results_min_failures demo_mask demo_mask "Test" 2 false
              (demo_world []) (axes demo_df))
    as (new & Hrun & Hmin & _).
  - reflexivity.
  - repeat constructor.
  - exists demo_df. split; [vm_compute; reflexivity|]. split; [reflexivity|].
    simpl. lia.
  - exists new. split; [exact Hrun|exact Hmin].
Defined.

Lemma mask_fold_idempotent_witness :
  (@mask demo_extern
     (with_results recorded_world
        [mkResult (LStr "A") (sec 2) (sec 3) 2 "Corrupt data"])).1 =
  (@mask demo_extern recorded_world).1.
Proof.
  refine (proj1 (proj2 (@mask_fold_idempotent demo_extern recorded_world
            demo_interval
            (mkResult (LStr "A") (sec 2) (sec 3) 2 "Corrupt data") []
            _ _ _ _))).
  - apply list_elem_of_here.
  - reflexivity.
  - reflexivity.
  - reflexivity.
Defined.

Lemma check_delta_windows_witness :
  marked demo_marked (sec 0) (LStr "B") ∧
  cell demo_marked 0 0 = Some true.
Proof.
  destruct (proj2 (@check_delta_windows demo_extern demo_B 2000 true)
              demo_flagged demo_marked (sec 1) (LStr "B") (sec 0))
    as [Hmarked _].
  - repeat (constructor; [vm_compute; reflexivity|]). constructor.
  - repeat constructor.
  - reflexivity.
  - reflexivity.
  - reflexivity.
  - apply list_elem_of_here.
  - vm_compute. reflexivity.
  - vm_compute. reflexivity.
  - vm_compute. reflexivity.
  - split; [exact Hmarked|reflexivity].
Defined.

Lemma check_range_strict_bounds_witness :
  ∃ new_lo new_hi,
    @check_range demo_extern 0%nat None 1
      (demo_world [PNum (num 0); PNum (num 10)]) =
    (Ok tt,
     with_results
       (add_log (demo_world [PNum (num 0); PNum (num 10)])
                [(INFO, "Check data range")])
       (new_lo ++ new_hi)).
Proof.
  destruct (@check_range_strict_bounds demo_extern
              (demo_world [PNum (num 0); PNum (num 10)]) 0%nat None 1 demo_df
              (num 0) (num 10) [true; true; true; true; true])
    as (_ & _ & _ & new_lo & new_hi & Hrun & _).
  - reflexivity.
  - apply (bool_decide_unpack _). vm_compute. exact I.
  - repeat constructor.
  - vm_compute. reflexivity.
  - reflexivity.
  - exists new_lo, new_hi. exact Hrun.
Defined.

Lemma detector_noop_unresolved_witness :
  ∃ msgs,
    @call demo_extern (CheckRange 0%nat (Some "C") 1)
      (demo_world [PNum (num 0); PNum (num 10)]) =
    (Ok tt, add_log (demo_world [PNum (num 0); PNum (num 10)]) msgs).
Proof.
  apply (@detector_noop_unresolved demo_extern).
  right. exists "C". split; [reflexivity|]. left. vm_compute. reflexivity.
Defined.

Lemma check_increment_absent_data_witness :
  @check_increment demo_extern 0%nat (Some "A") 1 true 1 null_world =
  (Ok tt,
   add_log null_world
     [(INFO, "Check increment range");
      (WARNING, "Check increment range failed (all data is Null): A")]).
Proof.
  refine (proj1 (@check_increment_absent_data demo_extern null_world 0%nat
            (Some "A") 1 true 1
            (mkDF [sec 0; sec 1] [(LStr "A", [NaN; NaN])]) _) _ "A" _).
  - vm_compute. reflexivity.
  - reflexivity.
  - reflexivity.
Defined.

Lemma mask_none_without_data_witness :
  (@mask demo_extern empty_world).1 = Ok None ∧
  (@cleaned_data demo_extern empty_world).1 = Raise KeyError.
Proof.
  apply (proj1 (@mask_none_without_data demo_extern empty_world)).
  reflexivity.
Defined.

Lemma bound_overwritten_in_place_witness :
  objects (@call demo_extern (CheckRange 0%nat None 1)
             (demo_world [PStr "none"; PNum (num 10)])).2 =
  <[0%nat := [PNone; PNum (num 10)]]>
    (objects (demo_world [PStr "none"; PNum (num 10)])).
Proof.
  refine (proj1 (@bound_overwritten_in_place demo_extern
            (CheckRange 0%nat None 1)
            (demo_world [PStr "none"; PNum (num 10)]) 0%nat
            [PStr "none"; PNum (num 10)] _ _ _)).
  - reflexivity.
  - vm_compute. reflexivity.
  - exists demo_df. reflexivity.
Defined.

(** * Where the code departs from the specification *)

(** C4: every window of the constant column B that holds two samples has its
    minimum and its maximum at one timestamp, and [check_delta] with a lower
    bound of 1 records the failure all the same. *)
Lemma check_delta_coinciding_recorded :
  tmin_df demo_B (ms 2000) = tmax_df demo_B (ms 2000) ∧
  subtable demo_pm (Some "B") = Some demo_B ∧
  (@check_delta demo_extern 0%nat (Some "B") 2000 true 1
     (demo_world [PNum (num 1); PNone])).1 = Ok tt ∧
  test_results
    (self (@check_delta demo_extern 0%nat (Some "B") 2000 true 1
             (demo_world [PNum (num 1); PNone])).2) =
  [mkResult (LStr "B") (sec 0) (sec 3) 4 "|Delta| < lower bound, 1"].
Proof. vm_compute. repeat split; reflexivity. Qed.

(** Where the timestamps do not pass through float64 unchanged, the time of
    the minimum comes back shifted (here 64 ns early for the window that
    ends at the second sample) and names no row: the flagged windows of the
    constant column leave no mark, and nothing is recorded. *)
Lemma check_delta_inexact_times_dropped :
  ¬ float_exact 1600000000001000000 ∧
  cell (tmin_df late_B (ms 2)) 0 1 = Some (Some 1600000000000999936) ∧
  cell (tmax_df late_B (ms 2)) 0 1 = Some (Some 1600000000000999936) ∧
  @check_delta demo_extern 0%nat (Some "B") 2 true 1 late_world =
    (Ok tt, add_log late_world [(INFO, "Check delta (max-min) range")]).
Proof.
  split; [vm_compute; discriminate|].
  vm_compute. repeat split; reflexivity.
Qed.

(** C5: no timestamp is duplicated, yet [check_timestamp] changes the
    dataset: with exact times it inserts the missing grid point, and it sorts
    samples that are out of order. *)
Lemma check_timestamp_reshapes_dataset :
  NoDup (index (df (self gap_world))) ∧
  df (self (@call demo_extern (CheckTimestamp 1000 None None 1 true)
              gap_world).2) =
    mkDF [sec 0; sec 1; sec 2] [(LStr "A", [num 1; NaN; num 2])] ∧
  df (self (@call demo_extern (CheckTimestamp 1000 None None 1 true)
              gap_world).2) ≠ df (self gap_world) ∧
  NoDup (index (df (self unsorted_world))) ∧
  df (self (@call demo_extern (CheckTimestamp 1000 None None 1 false)
              unsorted_world).2) =
    mkDF [sec 0; sec 1] [(LStr "A", [num 2; num 1])] ∧
  df (self (@call demo_extern (CheckTimestamp 1000 None None 1 false)
              unsorted_world).2) ≠ df (self unsorted_world).
Proof.
  split; [apply (bool_decide_unpack _); vm_compute; exact I|].
  split; [vm_compute; reflexivity|].
  split; [vm_compute; discriminate|].
  split; [apply (bool_decide_unpack _); vm_compute; exact I|].
  split; [vm_compute; reflexivity|].
  vm_compute; discriminate.
Qed.

(** C8: beside a column with data, the entirely absent column A draws no
    warning; and on a dataset that is entirely absent the default key None
    makes the call raise. *)
Lemma check_increment_absent_column :
  cell (df (self absent_world)) 0 0 = Some NaN ∧
  cell (df (self absent_world)) 0 1 = Some NaN ∧
  cell (df (self absent_world)) 0 2 = Some NaN ∧
  (@check_increment demo_extern 0%nat None 1 true 1 absent_world).1 = Ok tt ∧
  logged (@check_increment demo_extern 0%nat None 1 true 1 absent_world).2 =
    [(INFO, "Check increment range")] ∧
  (@check_increment demo_extern 0%nat None 1 true 1 null_world).1 =
    Raise TypeError.
Proof. vm_compute. repeat split; reflexivity. Qed.

(** The default key on an entirely absent sub-table: the warning cannot be
    built, for any choice of the arguments. *)
Lemma check_increment_none_key_raises `{Extern} (w : World) (bound : nat)
    (increment : Z) (absolute_value : bool) (k : Z) (d : DataFrame float) :
  subtable (self w) None = Some d → all_null d = true →
  check_increment bound None increment absolute_value k w =
    (Raise TypeError, add_log w [(INFO, "Check increment range")]).
Proof.
  intros Hd Hnull. unfold check_increment.
  rewrite bind_unfold, log_run, bind_unfold.
  rewrite (setup_data_Some _ _ d) by done. by rewrite Hnull.
Qed.

(** * The further properties at work on concrete engines *)

Lemma mask_cells_covered_witness :
  ∃ m, (@mask demo_extern recorded_world).1 = Ok (Some m) ∧
       index m = index demo_df ∧ colnames m = colnames demo_df.
Proof.
  eexists. split; [reflexivity|].
  destruct (@mask_cells_covered demo_extern recorded_world _ eq_refl)
    as (Hi & Hc & _).
  split; [exact Hi|exact Hc].
Defined.

Lemma cleaned_data_nan_where_masked_witness :
  ∃ m d',
    @mask demo_extern recorded_world = (Ok (Some m), recorded_world) ∧
    @cleaned_data demo_extern recorded_world = (Ok d', recorded_world).
Proof.
  destruct (@cleaned_data_nan_where_masked demo_extern recorded_world eq_refl)
    as (m & d' & Hm & Hc & _).
  exists m, d'. split; [exact Hm|exact Hc].
Defined.

Lemma append_test_results_then_mask_witness :
  ∃ w' m',
    _append_test_results demo_mask "Test" 1 false (demo_world []) =
      (Ok tt, w') ∧
    (@mask demo_extern w').1 = Ok (Some m').
Proof.
  destruct (@append_test_results_then_mask demo_extern (demo_world [])
              demo_mask demo_mask demo_df "Test" 1
              (@aggregate_mask demo_extern demo_pm))
    as (w' & m' & Hrun & Hm & _).
  - apply (bool_decide_unpack _). vm_compute. exact I.
  - repeat constructor.
  - reflexivity.
  - repeat constructor.
  - reflexivity.
  - vm_compute. reflexivity.
  - reflexivity.
  - exists w', m'. split; [exact Hrun|exact Hm].
Defined.

Lemma check_range_then_mask_witness :
  ∃ w' m',
    @check_range demo_extern 0%nat None 1
      (demo_world [PNum (num 0); PNum (num 10)]) = (Ok tt, w') ∧
    (@mask demo_extern w').1 = Ok (Some m').
Proof.
  destruct (@check_range_then_mask demo_extern
              (demo_world [PNum (num 0); PNum (num 10)]) 0%nat None 1 demo_df
              (Some (num 0)) (Some (num 10)) [true; true; true; true; true]
              (@aggregate_mask demo_extern demo_pm))
    as (w' & m' & Hrun & Hm & _).
  - reflexivity.
  - apply (bool_decide_unpack _). vm_compute. exact I.
  - repeat constructor.
  - repeat constructor.
  - vm_compute. reflexivity.
  - reflexivity.
  - lia.
  - reflexivity.
  - exists w', m'. split; [exact Hrun|exact Hm].
Defined.

Lemma check_missing_then_mask_witness :
  ∃ new,
    @check_missing demo_extern None 1 absent_world =
      (Ok tt,
       with_results (add_log absent_world [(INFO, "Check for missing data")])
                    new) ∧
    Forall (λ r, Error_Flag r = "Missing data") new.
Proof.
  destruct (@check_missing_then_mask demo_extern absent_world None 1
              (df (self absent_world)) [true; true; true])
    as (new & Hrun & Hmsg & _).
  - reflexivity.
  - apply (bool_decide_unpack _). vm_compute. exact I.
  - repeat constructor.
  - repeat constructor.
  - reflexivity.
  - exists new. split; [exact Hrun|exact Hmsg].
Defined.

Lemma check_corrupt_scrubs_dataset_witness :
  index (df (self (check_corrupt [num 5] (Some "B") 1
                     (demo_world [])).2)) = index demo_df.
Proof.
  refine (proj1 (@check_corrupt_scrubs_dataset demo_extern (demo_world [])
                   [num 5] (Some "B") 1 demo_B _ _ _)).
  - vm_compute. reflexivity.
  - apply (bool_decide_unpack _). vm_compute. exact I.
  - apply (bool_decide_unpack _). vm_compute. exact I.
Defined.

Lemma check_timestamp_exact_grid_witness :
  ∃ w' new,
    @check_timestamp demo_extern 1000%positive None None 1 true gap_world =
      (Ok tt, w') ∧
    test_results (self w') = test_results (self gap_world) ++ new.
Proof.
  destruct (@check_timestamp_exact_grid demo_extern gap_world 1000%positive None None 1)
    as (w' & new & Hrun & Hres & _).
  - reflexivity.
  - repeat constructor.
  - reflexivity.
  - vm_compute. reflexivity.
  - exists w', new. split; [exact Hrun|exact Hres].
Defined.

Lemma check_timestamp_clean_noop_witness :
  @check_timestamp demo_extern 1000%positive None None 1 true (demo_world []) =
  (Ok tt, add_log (demo_world []) [(INFO, "Check timestamp")]).
Proof.
  apply (@check_timestamp_clean_noop demo_extern).
  - reflexivity.
  - repeat constructor.
  - reflexivity.
  - vm_compute. reflexivity.
  - apply (bool_decide_unpack _). vm_compute. exact I.
  - vm_compute. reflexivity.
Defined.

Lemma add_time_filter_by_position_witness :
  add_time_filter (TFFrame demo_filter) (demo_world []) =
  (Ok tt,
   with_tfilter (demo_world [])
     (zip (index demo_df) [true; true; true; false; false])).
Proof.
  refine (proj1 (add_time_filter_by_position (demo_world []) demo_filter
                   (LInt 0) [true; true; true; false; false] [] _ _)).
  - reflexivity.
  - reflexivity.
Defined.

Lemma functional_check_range_cleans_witness :
  ∃ q m w',
    @functional.check_range demo_extern demo_pandas demo_df 0%nat (Some "A") 1
      (demo_world [PNum (num 0); PNum (num 10)]) = (Ok q, w') ∧
    qc_mask q = Some m.
Proof.
  destruct (@functional_check_range_cleans demo_extern demo_pandas
              (demo_world [PNum (num 0); PNum (num 10)]) demo_df 0%nat
              (Some "A") 1 (Some (num 0)) (Some (num 10)))
    as (q & m & w' & Hrun & _ & _ & Hm & _).
  - reflexivity.
  - reflexivity.
  - repeat constructor.
  - apply (bool_decide_unpack _). vm_compute. exact I.
  - repeat constructor.
  - intros s [= <-]. apply (bool_decide_unpack _). vm_compute. exact I.
  - vm_compute. reflexivity.
  - lia.
  - exists q, m, w'. split; [exact Hrun|exact Hm].
Defined.

Lemma functional_empty_table_witness :
  ∃ line,
    @functional.check_range demo_extern demo_pandas no_rows 0%nat None 1
      (demo_world [PNone; PNone]) =
    (Raise KeyError,
     add_log (demo_world [PNone; PNone])
       [(INFO, line); (INFO, "Empty database"); (INFO, "Empty database")]).
Proof.
  refine (proj1 (@functional_empty_table demo_extern demo_pandas
                   (demo_world [PNone; PNone]) no_rows 0%nat None 1 1 1%positive
                   None true [] 1%positive None None true _ _)).
  - reflexivity.
  - reflexivity.
Defined.

Lemma functional_check_increment_all_null_witness :
  @functional.check_increment demo_extern demo_pandas all_nan 0%nat None 1 true
    1 (demo_world [PNone; PNone]) =
  (Raise TypeError,
   add_log (demo_world [PNone; PNone]) [(INFO, "Check increment range")]).
Proof.
  apply (@functional_check_increment_all_null demo_extern demo_pandas).
  - reflexivity.
  - reflexivity.
  - reflexivity.
Defined.

Lemma check_range_short_bound_witness :
  @check_range demo_extern 0%nat None 1 (demo_world []) =
  (Raise IndexError, add_log (demo_world []) [(INFO, "Check data range")]).
Proof.
  refine (proj1 (proj2 (@check_range_short_bound demo_extern (demo_world [])
                          0%nat None 1 demo_df [] _ _ _)) _).
  - reflexivity.
  - vm_compute. reflexivity.
  - simpl. lia.
  - reflexivity.
Defined.

Lemma check_increment_then_mask_witness :
  ∃ w' m',
    @check_increment demo_extern 0%nat None 1 true 1
      (demo_world [PNone; PNum (num 6)]) = (Ok tt, w') ∧
    (@mask demo_extern w').1 = Ok (Some m').
Proof.
  destruct (@check_increment_then_mask demo_extern
              (demo_world [PNone; PNum (num 6)]) 0%nat None 1 true 1 demo_df
              None (Some (num 6)) [true; true; true; true; true]
              (@aggregate_mask demo_extern demo_pm))
    as (w' & m' & Hrun & Hm & _).
  - reflexivity.
  - reflexivity.
  - apply (bool_decide_unpack _). vm_compute. exact I.
  - repeat constructor.
  - repeat constructor.
  - vm_compute. reflexivity.
  - reflexivity.
  - lia.
  - reflexivity.
  - exists w', m'. split; [exact Hrun|exact Hm].
Defined.

Lemma check_corrupt_then_mask_witness :
  ∃ w' m',
    check_corrupt [num 15] None 3 (demo_world []) = (Ok tt, w') ∧
    (@mask demo_extern w').1 = Ok (Some m').
Proof.
  destruct (@check_corrupt_then_mask demo_extern (demo_world []) [num 15] None
              3 demo_df [true; true; true; true; true]
              (@aggregate_mask demo_extern demo_pm))
    as (w' & m' & Hrun & Hm & _).
  - reflexivity.
  - apply (bool_decide_unpack _). vm_compute. exact I.
  - apply (bool_decide_unpack _). vm_compute. exact I.
  - repeat constructor.
  - repeat constructor.
  - reflexivity.
  - reflexivity.
  - exists w', m'. split; [exact Hrun|exact Hm].
Defined.

Lemma functional_check_timestamp_grid_witness :
  ∃ q w',
    @functional.check_timestamp demo_extern demo_pandas (df (self gap_world))
      1000%positive None None 1 true (demo_world []) = (Ok q, w') ∧
    index (qc_cleaned_data q) = [sec 0; sec 1; sec 2].
Proof.
  destruct (@functional_check_timestamp_grid demo_extern demo_pandas
              (demo_world []) (df (self gap_world)) 1000%positive None None 1)
    as (q & w' & Hrun & _ & _ & Hidx & _).
  - reflexivity.
  - reflexivity.
  - repeat constructor.
  - vm_compute. reflexivity.
  - apply (bool_decide_unpack _). vm_compute. exact I.
  - exists q, w'. split; [exact Hrun|exact Hidx].
Defined.
